(** * RenewgyParser: a shallow embedding of [renewgy_parser.py]

    The development follows the module top to bottom: Python strings, the
    timestamps and cells a loaded sheet holds, the exceptions the module
    raises, then every function of the conversion pipeline, and last the
    properties of the pipeline.

    Conventions.
    - A Python [str] is a [string]; each character is one code point below 256.
    - A [pd.Series] with its default [RangeIndex] is a [list]; the missing
      marker [NaN] of a float series is [None].
    - A raised exception is the [Err] case of [result]; [try]/[except] is a
      [match] on it.
    - What pandas itself computes on the content of a cell (printing a number,
      parsing a text as a number or as a datetime) and on a whole column
      (parsing it as a series of datetimes, which pandas does in one format
      for the column and not cell by cell) is left open in the record
      [Pandas]; every function below takes it as its first argument. *)

From Stdlib Require Import ZArith QArith String Ascii List Sorted Bool Lia Arith.
Import ListNotations.


Local Open Scope string_scope.
Local Open Scope Z_scope.

(* ------------------------------------------------------------------ *)
(** ** Python strings *)

Module PyStr.

(** [sub in s] *)
Fixpoint contains (sub s : string) : bool :=
  String.prefix sub s ||
  match s with
  | EmptyString => false
  | String _ s' => contains sub s'
  end.

(** [s.startswith(p)] *)
Definition startswith (s p : string) : bool := String.prefix p s.

(** [c.lower()] for one code point below 256: the ASCII capitals and the
    Latin-1 capitals (U+00C0 to U+00DE, the multiplication sign excepted). *)
Definition lower_char (c : ascii) : ascii :=
  let n := nat_of_ascii c in
  if ((65 <=? n) && (n <=? 90))%nat then ascii_of_nat (n + 32)
  else if ((192 <=? n) && (n <=? 222) && negb (n =? 215))%nat
       then ascii_of_nat (n + 32)
  else c.

(** [s.lower()] *)
Fixpoint lower (s : string) : string :=
  match s with
  | EmptyString => EmptyString
  | String c s' => String (lower_char c) (lower s')
  end.

(** [c.isspace()] for one code point below 256. *)
Definition isspace (c : ascii) : bool :=
  let n := nat_of_ascii c in
  (((9 <=? n) && (n <=? 13)) || ((28 <=? n) && (n <=? 32))
   || (n =? 133) || (n =? 160))%nat.

Fixpoint lstrip (s : string) : string :=
  match s with
  | EmptyString => EmptyString
  | String c s' => if isspace c then lstrip s' else s
  end.

Fixpoint rstrip (s : string) : string :=
  match s with
  | EmptyString => EmptyString
  | String c s' =>
      match rstrip s' with
      | EmptyString => if isspace c then EmptyString else String c EmptyString
      | r => String c r
      end
  end.

(** [s.strip()] *)
Definition strip (s : string) : string := rstrip (lstrip s).

(** [s.split(sep, maxsplit=1)[0]] for a one-character separator: the part of
    [s] before the first [sep], all of [s] when there is none. *)
Fixpoint split_first (sep : ascii) (s : string) : string :=
  match s with
  | EmptyString => EmptyString
  | String c s' =>
      if Ascii.eqb c sep then EmptyString else String c (split_first sep s')
  end.

(** [not s] *)
Definition is_empty (s : string) : bool :=
  match s with EmptyString => true | _ => false end.

End PyStr.

(* ------------------------------------------------------------------ *)
(** ** Timestamps *)

(** A naive [datetime] / [pd.Timestamp], to the second. *)
Record Timestamp : Type := mkTimestamp {
  year : Z; month : Z; day : Z; hour : Z; minute : Z; second : Z
}.

(** What [pd.to_datetime] yields for one element: a timestamp or [NaT]. *)
Inductive datetime_like : Type :=
| Ts (t : Timestamp)
| NaT.

Module Calendar.

(** [datetime._is_leap] *)
Definition is_leap (y : Z) : bool :=
  ((y mod 4 =? 0) && (negb (y mod 100 =? 0) || (y mod 400 =? 0))).

(** [datetime._days_before_year] *)
Definition days_before_year (y : Z) : Z :=
  let y := y - 1 in y * 365 + y / 4 - y / 100 + y / 400.

(** [datetime._DAYS_BEFORE_MONTH] *)
Definition DAYS_BEFORE_MONTH : list Z :=
  [0; 0; 31; 59; 90; 120; 151; 181; 212; 243; 273; 304; 334].

(** [datetime._days_before_month] *)
Definition days_before_month (y m : Z) : Z :=
  nth (Z.to_nat m) DAYS_BEFORE_MONTH 0
  + (if (2 <? m) && is_leap y then 1 else 0).

(** [datetime._ymd2ord]: 0001-01-01 is day 1. *)
Definition ymd2ord (y m d : Z) : Z :=
  days_before_year y + days_before_month y m + d.

Definition toordinal (t : Timestamp) : Z :=
  ymd2ord (year t) (month t) (day t).

(** [timestamp.weekday()]: Monday is 0, Sunday is 6. *)
Definition weekday (t : Timestamp) : Z := (toordinal t + 6) mod 7.

(** Seconds counted from the start of ordinal day 0; two timestamps
    compare as their counts do. *)
Definition to_seconds (t : Timestamp) : Z :=
  ((toordinal t * 24 + hour t) * 60 + minute t) * 60 + second t.

(** [t >= d] on timestamps. *)
Definition ge (t d : Timestamp) : bool := to_seconds d <=? to_seconds t.

Definition digit (n : Z) : ascii := ascii_of_nat (48 + Z.to_nat (n mod 10)).

Definition pad2 (n : Z) : string :=
  String (digit (n / 10)) (String (digit n) EmptyString).

Definition pad4 (n : Z) : string :=
  String (digit (n / 1000)) (String (digit (n / 100)) (pad2 n)).

(** [str(t)]: [YYYY-MM-DD HH:MM:SS]. *)
Definition str (t : Timestamp) : string :=
  pad4 (year t) ++ "-" ++ pad2 (month t) ++ "-" ++ pad2 (day t) ++ " "
  ++ pad2 (hour t) ++ ":" ++ pad2 (minute t) ++ ":" ++ pad2 (second t).

End Calendar.

(** The number an accessor of a [datetime_like] returns: [NaT.weekday()] and
    [NaT.hour] are the float [nan]. *)
Inductive pynum : Type :=
| PInt (z : Z)
| PNan.

Module PyNum.
(** Comparisons; any comparison with [nan] is [False]. *)
Definition le (a b : pynum) : bool :=
  match a, b with PInt x, PInt y => x <=? y | _, _ => false end.
Definition lt (a b : pynum) : bool :=
  match a, b with PInt x, PInt y => x <? y | _, _ => false end.
Definition ge (a b : pynum) : bool := le b a.
End PyNum.

Definition dt_weekday (d : datetime_like) : pynum :=
  match d with Ts t => PInt (Calendar.weekday t) | NaT => PNan end.

Definition dt_hour (d : datetime_like) : pynum :=
  match d with Ts t => PInt (hour t) | NaT => PNan end.

(* ------------------------------------------------------------------ *)
(** ** Cells, series and the loaded sheet *)

(** One cell of the [DataFrame] that [pd.read_excel] returns. [Empty] is the
    float [NaN] of an empty spreadsheet cell. *)
Inductive cell : Type :=
| Empty
| Number (x : Q)
| Text (s : string)
| DateTime (t : Timestamp).

(** The series [pd.to_datetime(series, errors='coerce')] returns. Its dtype
    is [datetime64[ns]] when the timestamps read carry no time zone, and
    [datetime64[ns, tz]] when they carry one (texts that end in [Z] or in an
    offset such as [+01:00]). *)
Inductive datetime_series : Type :=
| Naive (values : list datetime_like)
| Aware (values : list datetime_like).

Definition series_values (s : datetime_series) : list datetime_like :=
  match s with Naive values | Aware values => values end.

(** The behaviour of pandas and Python on the content of a cell, and of
    [pd.to_datetime] on a whole column. A column is not read cell by cell:
    pandas settles on one format for the column (from its first text, where
    it can guess one) and reads every text in that format. Three facts about
    the reading of a column are recorded with it. *)
Record Pandas : Type := mkPandas {
  (** [str(x)] for a number *)
  str_of_number : Q -> string;
  (** [pd.to_numeric(.., errors='coerce')] on a text; [None] is [NaN] *)
  numeric_of_text : string -> option Q;
  (** [pd.to_numeric(.., errors='coerce')] on a datetime object *)
  numeric_of_datetime : Timestamp -> option Q;
  (** [pd.to_datetime] on a text; [None] when it raises *)
  datetime_of_text : string -> option datetime_like;
  (** [pd.to_datetime] on a number; [None] when it raises *)
  datetime_of_number : Q -> option datetime_like;
  (** [pd.to_datetime(series)] on a column; [None] when it raises *)
  datetime_of_series : list cell -> option (list datetime_like);
  (** [pd.to_datetime(series, errors='coerce')] on a column: what does not
      read becomes [NaT] *)
  datetime_of_series_coerce : list cell -> datetime_series;
  (** a column that is accepted has one timestamp per cell, and holds no
      text and no number that [pd.to_datetime] refuses on its own *)
  datetime_of_series_reads :
    forall s ds,
      datetime_of_series s = Some ds ->
      Forall2 (fun c _ =>
                 match c with
                 | Text t => datetime_of_text t <> None
                 | Number x => datetime_of_number x <> None
                 | _ => True
                 end) s ds;
  (** with [errors='coerce'] there is one timestamp per cell, [NaT] for a
      text or a number that [pd.to_datetime] refuses on its own *)
  datetime_of_series_coerce_refused :
    forall s,
      Forall2 (fun c d =>
                 match c with
                 | Text t => datetime_of_text t = None -> d = NaT
                 | Number x => datetime_of_number x = None -> d = NaT
                 | _ => True
                 end) s (series_values (datetime_of_series_coerce s));
  (** an empty column reads as an empty series without time zone *)
  datetime_of_series_coerce_nil : datetime_of_series_coerce [] = Naive []
}.

(** [pd.notna(c)] *)
Definition notna (c : cell) : bool :=
  match c with Empty => false | _ => true end.

(** [pd.isna(c)] *)
Definition isna (c : cell) : bool := negb (notna c).

(** The sheet: [shape = (len rows, ncols)]. *)
Record DataFrame : Type := mkDataFrame {
  ncols : nat;
  rows : list (list cell)
}.

(** A [DataFrame] is rectangular. *)
Definition rectangular (df : DataFrame) : Prop :=
  Forall (fun r => length r = ncols df) (rows df).

(* ------------------------------------------------------------------ *)
(** ** Exceptions *)

(** The messages of the [ValueError]s the module raises. *)
Inductive value_msg : Type :=
| InsufficientRows (found required : Z)
| InsufficientColumns (found required : Z)
| EmptyHeaderCell (r c : Z)
| InvalidEANFormat (r c : Z)
| EANEmptyAfterExtraction
| FailedToExtractEAN
| NotEnoughRows
| HeaderRowNotFound
| ConsumptionTypeNotFound (consumption_type : string) (header_row : nat)
                          (available_types : list string)
| LengthMismatch (n_timestamps n_values : nat)
| FailedToExtractData
| InvalidDataFormat
| ErrorProcessingExcelFile.

(** The messages of the [KeyError]s the module raises. *)
Inductive key_msg : Type :=
(** "EAN '..' has peak/offpeak variants but no period specified. .." *)
| NoPeriodSpecified (ean : string)
(** "EAN '..' has bi-hourly variants but '..' mapping not found" *)
| VariantNotFound (ean missing_variant : string)
(** "EAN '..' not found. Similar EANs available: [..]" *)
| SimilarAvailable (ean : string) (available_eans : list string)
(** "EAN '..' not found in mapping dictionary. Available EANs include: [..]..." *)
| NotInMapping (ean : string) (available_eans : list string)
(** "EAN not found in mapping: .." *)
| EANNotFoundInMapping.

(** A raised exception, with the exception it was raised [from]. *)
#[warnings="-register-all"]
Inductive exn : Type :=
| IndexError
| IndexingError
| ParserError
| TypeError
| KeyError (m : key_msg) (cause : option exn)
| ValueError (m : value_msg) (cause : option exn).

(** [isinstance(e, ValueError)]; the parser's error is a subclass. *)
Definition is_ValueError (e : exn) : bool :=
  match e with ValueError _ _ | ParserError => true | _ => false end.

(** [isinstance(e, KeyError)]. [IndexError] and pandas' [IndexingError] are
    neither: they derive from [LookupError] and [Exception]. *)
Definition is_KeyError (e : exn) : bool :=
  match e with KeyError _ _ => true | _ => false end.

Inductive result (A : Type) : Type :=
| Ok (a : A)
| Err (e : exn).

Arguments Ok {A} a.
Arguments Err {A} e.

Definition bind {A B} (r : result A) (k : A -> result B) : result B :=
  match r with Ok a => k a | Err e => Err e end.

Notation "x <- r ;; k" := (bind r (fun x => k))
  (at level 61, r at next level, right associativity).
Notation "' p <- r ;; k" := (bind r (fun p => k))
  (at level 61, p pattern, r at next level, right associativity).

(** [try: body  except Exception as exc: raise ValueError(m) from exc] *)
Definition reraise_as_ValueError {A} (m : value_msg) (body : result A)
  : result A :=
  match body with
  | Ok a => Ok a
  | Err exc => Err (ValueError m (Some exc))
  end.

Definition is_ok {A} (r : result A) : bool :=
  match r with Ok _ => true | Err _ => false end.

(* ------------------------------------------------------------------ *)
(** ** Indexing *)

(** A Python index into a sequence of length [n]: negative indices count from
    the end. *)
Definition norm_index (i : Z) (n : nat) : option nat :=
  if 0 <=? i then (if i <? Z.of_nat n then Some (Z.to_nat i) else None)
  else (if 0 <=? i + Z.of_nat n then Some (Z.to_nat (i + Z.of_nat n)) else None).

(** [df.iloc[r, c]] *)
Definition iloc (df : DataFrame) (r c : Z) : result cell :=
  match norm_index r (length (rows df)), norm_index c (ncols df) with
  | Some i, Some j => Ok (nth j (nth i (rows df) []) Empty)
  | _, _ => Err IndexError
  end.

(** [df.iloc[start:stop, col]] for non-negative bounds and position. *)
Definition iloc_slice (df : DataFrame) (start stop col : nat)
  : result (list cell) :=
  if (col <? ncols df)%nat
  then Ok (map (fun r => nth col r Empty)
               (firstn (stop - start) (skipn start (rows df))))
  else Err IndexError.

(** [df.iloc[start:, col]] *)
Definition iloc_from (df : DataFrame) (start col : nat) : result (list cell) :=
  if (col <? ncols df)%nat
  then Ok (map (fun r => nth col r Empty) (skipn start (rows df)))
  else Err IndexError.

(** Selection by a mask that is aligned with the series. *)
Fixpoint select {A} (s : list A) (mask : list bool) : list A :=
  match s, mask with
  | x :: s', b :: mask' => if b then x :: select s' mask' else select s' mask'
  | _, _ => []
  end.

(** [s[mask]] for a boolean series [mask]: pandas reindexes the mask on the
    index of [s] and raises when a label of [s] has no entry in the mask. *)
Definition bool_index {A} (s : list A) (mask : list bool) : result (list A) :=
  if (length s <=? length mask)%nat then Ok (select s mask)
  else Err IndexingError.

(** The position of the first element that satisfies [p], counted from [i]. *)
Fixpoint find_index {A} (p : A -> bool) (l : list A) (i : nat) : option nat :=
  match l with
  | [] => None
  | x :: l' => if p x then Some i else find_index p l' (S i)
  end.

(* ------------------------------------------------------------------ *)
(** ** Configuration and mapping *)

(** [class EANMapping] *)
Record EANMapping : Type := mkEANMapping {
  source_id : string;
  variable_id : string;
  description : string
}.

(** [class ParserConfig]; the fields the pipeline never reads
    ([data_start_row], [timestamp_col], [value_col]) are kept with their
    defaults. *)
Record ParserConfig : Type := mkParserConfig {
  sheet_index : Z;
  header_row : Z;
  header_col : Z;
  data_start_row : Z;
  timestamp_col : Z;
  value_col : Z;
  min_rows : Z;
  min_cols : Z;
  start_date : option Timestamp
}.

Definition DEFAULT_CONFIG : ParserConfig :=
  mkParserConfig 0 0 1 4 0 2 6 3 None.

(** [Dict[str, EANMapping]]: the keys in insertion order, each once. *)
Definition mapping_dict : Type := list (string * EANMapping).

(** [list(d.keys())] *)
Definition keys (d : mapping_dict) : list string := map fst d.

(** [k in d] *)
Definition mem (k : string) (d : mapping_dict) : bool :=
  existsb (String.eqb k) (keys d).

(** [d[k]] *)
Fixpoint get (d : mapping_dict) (k : string) : option EANMapping :=
  match d with
  | [] => None
  | (k', v) :: d' => if String.eqb k k' then Some v else get d' k
  end.

(** One row of the output CSV, in the order of [CSV_COLUMN_NAMES]. *)
Record OutputRecord : Type := mkOutputRecord {
  date : cell;
  value : option Q;
  meternumber : string;
  out_source_id : string;
  source_serialnumber : string;
  source_ean : string;
  source_name : string;
  mapping_config : string;
  out_variable_id : string
}.

(** Two series put side by side as columns of one frame: pandas joins them on
    their index, and a position that only one of them has is filled with the
    missing marker of the other. *)
Fixpoint align {A B} (da : A) (db : B) (l1 : list A) (l2 : list B)
  : list (A * B) :=
  match l1 with
  | [] => map (fun b => (da, b)) l2
  | a :: l1' =>
      match l2 with
      | [] => (a, db) :: align da db l1' []
      | b :: l2' => (a, b) :: align da db l1' l2'
      end
  end.

(* ------------------------------------------------------------------ *)
(** ** The pipeline *)

Section Pipeline.

Variable pd : Pandas.

(** [str(c)] for a cell that is not [NaN]; [str(nan)] is ["nan"]. *)
Definition str (c : cell) : string :=
  match c with
  | Empty => "nan"
  | Number x => str_of_number pd x
  | Text s => s
  | DateTime t => Calendar.str t
  end.

(** One element of [pd.to_numeric(values, errors='coerce').astype(float)]. *)
Definition to_numeric (c : cell) : option Q :=
  match c with
  | Empty => None
  | Number x => Some x
  | Text s => numeric_of_text pd s
  | DateTime t => numeric_of_datetime pd t
  end.

(** [pd.to_datetime] on the content of one cell, on its own; [None] when
    pandas raises. *)
Definition to_datetime (c : cell) : option datetime_like :=
  match c with
  | Empty => Some NaT
  | Number x => datetime_of_number pd x
  | Text s => datetime_of_text pd s
  | DateTime t => Some (Ts t)
  end.

(** [pd.to_datetime(series)]: the column as pandas reads it, or the error it
    raises on a column it refuses. *)
Definition to_datetime_series (s : list cell) : result (list datetime_like) :=
  match datetime_of_series pd s with
  | Some ds => Ok ds
  | None => Err ParserError
  end.

(** [validate_excel_structure] *)
Definition validate_excel_structure (excel_df : DataFrame)
           (config : ParserConfig) : result unit :=
  let n_rows := Z.of_nat (length (rows excel_df)) in
  let n_cols := Z.of_nat (ncols excel_df) in
  if n_rows <? min_rows config
  then Err (ValueError (InsufficientRows n_rows (min_rows config)) None)
  else if n_cols <? min_cols config
  then Err (ValueError (InsufficientColumns n_cols (min_cols config)) None)
  else
    c <- iloc excel_df (header_row config) (header_col config) ;;
    if isna c
    then Err (ValueError
                (EmptyHeaderCell (header_row config) (header_col config)) None)
    else Ok tt.

(** [extract_ean_from_excel] *)
Definition extract_ean_from_excel (excel_df : DataFrame)
           (config : ParserConfig) : result string :=
  reraise_as_ValueError FailedToExtractEAN
    (ean_raw <- iloc excel_df (header_row config) (header_col config) ;;
     if isna ean_raw || negb (PyStr.contains "_" (str ean_raw))
     then Err (ValueError
                 (InvalidEANFormat (header_row config) (header_col config))
                 None)
     else
       let ean := PyStr.strip (PyStr.split_first "_" (str ean_raw)) in
       if PyStr.is_empty ean
       then Err (ValueError EANEmptyAfterExtraction None)
       else Ok ean).

(** The scan both locators and [find_data_start_row] run over the first
    [limit] rows: the first row with a cell whose lower-cased text contains
    [marker]. *)
Definition row_has_marker (marker : string) (row : list cell) : bool :=
  existsb (fun cell_value =>
             notna cell_value
             && PyStr.contains marker (PyStr.lower (str cell_value))) row.

Definition find_marker_row (marker : string) (limit : nat)
           (excel_df : DataFrame) : option nat :=
  find_index (row_has_marker marker) (firstn limit (rows excel_df)) 0.

(** [find_consumption_column] *)
Definition find_consumption_column (excel_df : DataFrame)
           (consumption_type : string) : result nat :=
  if (length (rows excel_df) <? 2)%nat
  then Err (ValueError NotEnoughRows None)
  else
    match find_marker_row "role description" 5 excel_df with
    | None => Err (ValueError HeaderRowNotFound None)
    | Some header_row_index =>
        let header_row := nth header_row_index (rows excel_df) [] in
        match find_index
                (fun cell_value =>
                   notna cell_value
                   && String.eqb (PyStr.strip (str cell_value))
                                 consumption_type)
                header_row 0 with
        | Some col_idx => Ok col_idx
        | None =>
            let available_types :=
              map (fun c => PyStr.strip (str c))
                  (filter (fun c =>
                             notna c
                             && PyStr.startswith (PyStr.strip (str c))
                                                 "MEASURED")
                          header_row) in
            Err (ValueError
                   (ConsumptionTypeNotFound consumption_type
                      (header_row_index + 1) available_types) None)
        end
    end.

(** [find_data_start_row] *)
Definition find_data_start_row (excel_df : DataFrame) : nat :=
  match find_marker_row "profile description" 6 excel_df with
  | Some row_idx => (row_idx + 1)%nat
  | None => 4%nat
  end.

(** [for col_idx in range(..): .. if <accept>: return col_idx]: the first
    column of [cols] that [accept] takes, [None] when the loop runs out. *)
Fixpoint first_column (accept : nat -> result bool) (cols : list nat)
  : result (option nat) :=
  match cols with
  | [] => Ok None
  | col_idx :: cols' =>
      b <- accept col_idx ;;
      if b then Ok (Some col_idx) else first_column accept cols'
  end.

(** ['2024' in s or '2023' in s or '2025' in s or '2022' in s or ':' in s] *)
Definition year_or_colon (val_str : string) : bool :=
  PyStr.contains "2024" val_str || PyStr.contains "2023" val_str
  || PyStr.contains "2025" val_str || PyStr.contains "2022" val_str
  || PyStr.contains ":" val_str.

(** The test of the branch without a header row. *)
Definition date_like_headerless (val : cell) : bool :=
  notna val
  && (let val_str := str val in
      PyStr.contains "2024" val_str || PyStr.contains "2023" val_str
      || PyStr.contains "2025" val_str || PyStr.contains "2022" val_str
      || PyStr.contains "-" val_str || PyStr.contains ":" val_str).

(** The test of the branch with a header row: the pattern, then
    [pd.to_datetime(val_str)] must not raise. *)
Definition date_like_header (val : cell) : bool :=
  notna val
  && (let val_str := str val in
      year_or_colon val_str
      && match datetime_of_text pd val_str with
         | Some _ => true
         | None => false
         end).

(** The test of the last fallback on column 0. *)
Definition date_like_fallback (val : cell) : bool :=
  notna val && year_or_colon (str val).

(** [date_like_count] over the sample of [n] rows of column [col_idx], and
    the comparison with the threshold. *)
Definition accept_column (excel_df : DataFrame) (date_like : cell -> bool)
           (data_start_row n threshold col_idx : nat) : result bool :=
  sample_values <-
    iloc_slice excel_df data_start_row (data_start_row + n) col_idx ;;
  let date_like_count := length (filter date_like sample_values) in
  Ok (threshold <=? date_like_count)%nat.

(** [range(min(4, excel_df.shape[1]))] *)
Definition first_columns (excel_df : DataFrame) : list nat :=
  seq 0 (Nat.min 4 (ncols excel_df)).

(** The tail of [find_timestamp_column]: the check of column 0 at the data
    start row, and the default. Both return 0. *)
Definition column_zero_fallback (excel_df : DataFrame) : result nat :=
  let data_start_row := find_data_start_row excel_df in
  if (data_start_row <? length (rows excel_df))%nat
  then
    sample_val <- iloc excel_df (Z.of_nat data_start_row) 0 ;;
    if date_like_fallback sample_val then Ok 0%nat else Ok 0%nat
  else Ok 0%nat.

(** [find_timestamp_column] *)
Definition find_timestamp_column (excel_df : DataFrame) : result nat :=
  match find_marker_row "role description" 5 excel_df with
  | None =>
      let data_start_row := find_data_start_row excel_df in
      found <- first_column
                 (accept_column excel_df date_like_headerless
                                data_start_row 3 2)
                 (first_columns excel_df) ;;
      match found with
      | Some col_idx => Ok col_idx
      | None => Ok 0%nat
      end
  | Some header_row_index =>
      let header_row := nth header_row_index (rows excel_df) [] in
      match find_index
              (fun cell_value =>
                 notna cell_value
                 && PyStr.contains "date" (PyStr.lower (str cell_value)))
              header_row 0 with
      | Some col_idx => Ok col_idx
      | None =>
          let data_start_row := find_data_start_row excel_df in
          found <- first_column
                     (accept_column excel_df date_like_header
                                    data_start_row 5 3)
                     (first_columns excel_df) ;;
          match found with
          | Some col_idx => Ok col_idx
          | None =>
              match find_consumption_column
                      excel_df "MEASURED ACTIVE CONSUMPTION" with
              | Ok consumption_col =>
                  if (0 <? consumption_col)%nat
                  then Ok (consumption_col - 1)%nat
                  else column_zero_fallback excel_df
              | Err exc =>
                  if is_ValueError exc || is_KeyError exc
                  then column_zero_fallback excel_df
                  else Err exc
              end
          end
      end
  end.

(** One element of [timestamps_dt >= config.start_date] on a series without
    time zone; a comparison with [NaT] is [False]. *)
Definition on_or_after (start : Timestamp) (d : datetime_like) : bool :=
  match d with
  | Ts t => Calendar.ge t start
  | NaT => false
  end.

(** [timestamps_dt >= config.start_date] for a start date without time
    zone. On a series with a time zone the comparison raises. *)
Definition ge_start_date (timestamps_dt : datetime_series) (start : Timestamp)
  : result (list bool) :=
  match timestamps_dt with
  | Naive values => Ok (map (on_or_after start) values)
  | Aware _ => Err TypeError
  end.

(** [extract_data_from_excel] *)
Definition extract_data_from_excel (excel_df : DataFrame)
           (config : ParserConfig) (consumption_type : string)
  : result (list cell * list (option Q)) :=
  reraise_as_ValueError FailedToExtractData
    (value_col <- find_consumption_column excel_df consumption_type ;;
     timestamp_col <- find_timestamp_column excel_df ;;
     let data_start_row := find_data_start_row excel_df in
     timestamps <- iloc_from excel_df data_start_row timestamp_col ;;
     values <- iloc_from excel_df data_start_row value_col ;;
     let values := map to_numeric values in
     '(timestamps, values) <-
       match start_date config with
       | Some start =>
           let timestamps_dt := datetime_of_series_coerce pd timestamps in
           valid_indices <- ge_start_date timestamps_dt start ;;
           timestamps' <- bool_index timestamps valid_indices ;;
           values' <- bool_index values valid_indices ;;
           Ok (timestamps', values')
       | None => Ok (timestamps, values)
       end ;;
     if negb (length timestamps =? length values)%nat
     then Err (ValueError
                 (LengthMismatch (length timestamps) (length values)) None)
     else Ok (timestamps, values)).

(** [create_output_dataframe] *)
Definition create_output_dataframe (timestamps : list cell)
           (values : list (option Q)) (ean : string) (mapping : EANMapping)
  : list OutputRecord :=
  map (fun '(d, v) =>
         mkOutputRecord d v ean (source_id mapping) "" "" "" ""
                        (variable_id mapping))
      (align Empty None timestamps values).

(** [is_peak_hour] from its third statement on, for the timestamp or [NaT]
    that [Series.apply] hands over. *)
Definition is_peak_hour (timestamp : datetime_like) : bool :=
  let weekday := dt_weekday timestamp in
  let hour := dt_hour timestamp in
  if PyNum.ge weekday (PInt 5)
  then false
  else PyNum.le (PInt 7) hour && PyNum.lt hour (PInt 22).

(** [is_peak_hour] on a [str]: the text is converted first. *)
Definition is_peak_hour_str (timestamp : string) : result bool :=
  match datetime_of_text pd timestamp with
  | None => Err ParserError
  | Some d => Ok (is_peak_hour d)
  end.

(** [find_ean_mapping]; [is_peak] is [None], [Some true] or [Some false]. *)
Definition find_ean_mapping (ean : string) (ean_mapping : mapping_dict)
           (is_peak : option bool) : result EANMapping :=
  let variant :=
    match is_peak with
    | Some b =>
        let suffix := if b then "_peak" else "_offpeak" in
        let variant_key := ean ++ suffix in
        get ean_mapping variant_key
    | None => None
    end in
  match variant with
  | Some m => Ok m
  | None =>
      match get ean_mapping ean with
      | Some m => Ok m
      | None =>
          let peak_key := ean ++ "_peak" in
          let offpeak_key := ean ++ "_offpeak" in
          if mem peak_key ean_mapping || mem offpeak_key ean_mapping
          then
            match is_peak with
            | None => Err (KeyError (NoPeriodSpecified ean) None)
            | Some b =>
                let missing_variant := if b then "peak" else "offpeak" in
                Err (KeyError (VariantNotFound ean missing_variant) None)
            end
          else
            let available_eans :=
              filter (fun k => PyStr.startswith k ean) (keys ean_mapping) in
            match available_eans with
            | _ :: _ =>
                Err (KeyError (SimilarAvailable ean available_eans) None)
            | [] =>
                let available_eans := firstn 5 (keys ean_mapping) in
                Err (KeyError (NotInMapping ean available_eans) None)
            end
      end
  end.

(** [has_peak_offpeak_variants] *)
Definition has_peak_offpeak_variants (ean : string)
           (ean_mapping : mapping_dict) : bool :=
  let peak_key := ean ++ "_peak" in
  let offpeak_key := ean ++ "_offpeak" in
  mem peak_key ean_mapping && mem offpeak_key ean_mapping.

(** [split_data_by_period] *)
Definition split_data_by_period (timestamps : list cell)
           (values : list (option Q))
  : result ((list cell * list (option Q))
            * (list cell * list (option Q))) :=
  timestamps_dt <- to_datetime_series timestamps ;;
  let peak_mask := map is_peak_hour timestamps_dt in
  peak_timestamps <- bool_index timestamps peak_mask ;;
  peak_values <- bool_index values peak_mask ;;
  offpeak_timestamps <- bool_index timestamps (map negb peak_mask) ;;
  offpeak_values <- bool_index values (map negb peak_mask) ;;
  Ok ((peak_timestamps, peak_values), (offpeak_timestamps, offpeak_values)).

(** A CSV file written next to the requested output path: the suffix added
    to the stem of the path, and the rows. *)
Definition written_file : Type := (string * list OutputRecord)%type.

(** [parse_renewgy_excel_to_csv], from the loaded sheet on. The result is
    the list of files written, in the order they are written. *)
Definition parse_renewgy_excel_to_csv (excel_df : DataFrame)
           (ean_mapping : mapping_dict) (config : option ParserConfig)
           (consumption_type : string) : result (list written_file) :=
  let config := match config with Some c => c | None => DEFAULT_CONFIG end in
  let body :=
    _ <- validate_excel_structure excel_df config ;;
    ean <- extract_ean_from_excel excel_df config ;;
    if has_peak_offpeak_variants ean ean_mapping
    then
      '(timestamps, values) <-
        extract_data_from_excel excel_df config consumption_type ;;
      '((peak_timestamps, peak_values),
        (offpeak_timestamps, offpeak_values)) <-
        split_data_by_period timestamps values ;;
      peak_mapping <- find_ean_mapping ean ean_mapping (Some true) ;;
      offpeak_mapping <- find_ean_mapping ean ean_mapping (Some false) ;;
      let peak_file :=
        if (0 <? length peak_values)%nat
        then [("_peak",
               create_output_dataframe peak_timestamps peak_values ean
                                       peak_mapping)]
        else [] in
      let offpeak_file :=
        if (0 <? length offpeak_values)%nat
        then [("_offpeak",
               create_output_dataframe offpeak_timestamps offpeak_values ean
                                       offpeak_mapping)]
        else [] in
      Ok (peak_file ++ offpeak_file)%list
    else
      mapping <- find_ean_mapping ean ean_mapping None ;;
      '(timestamps, values) <-
        extract_data_from_excel excel_df config consumption_type ;;
      Ok [("", create_output_dataframe timestamps values ean mapping)] in
  match body with
  | Ok files => Ok files
  | Err exc =>
      if is_KeyError exc
      then Err (KeyError EANNotFoundInMapping (Some exc))
      else if is_ValueError exc
      then Err (ValueError InvalidDataFormat (Some exc))
      else Err (ValueError ErrorProcessingExcelFile (Some exc))
  end.

End Pipeline.

(* ------------------------------------------------------------------ *)
(** ** A small pandas for the examples

    The properties below hold for every [Pandas]. The examples run the
    pipeline on concrete sheets and need one: [Iso.pandas] reads ISO texts
    ([YYYY-MM-DD] and [YYYY-MM-DD HH:MM:SS]) as timestamps and plain decimal
    texts as numbers, as pandas does, and refuses every other text. Where an
    example depends on how a text reads, the text is an ISO text or a text
    that is no date and no number. A column is read in the
    format of its first non-empty cell when that cell is a text in one of the
    two formats, and cell by cell otherwise; no text it reads carries a time
    zone. *)

Module Iso.

Definition digit_val (c : ascii) : option Z :=
  let n := nat_of_ascii c in
  if ((48 <=? n) && (n <=? 57))%nat then Some (Z.of_nat n - 48) else None.

Definition num2 (a b : ascii) : option Z :=
  match digit_val a, digit_val b with
  | Some x, Some y => Some (10 * x + y)
  | _, _ => None
  end.

Definition num4 (a b c d : ascii) : option Z :=
  match num2 a b, num2 c d with
  | Some x, Some y => Some (100 * x + y)
  | _, _ => None
  end.

Definition days_in_month (y m : Z) : Z :=
  if m =? 2 then (if Calendar.is_leap y then 29 else 28)
  else if (m =? 4) || (m =? 6) || (m =? 9) || (m =? 11) then 30 else 31.

Definition valid_date (y m d : Z) : bool :=
  (1 <=? y) && (1 <=? m) && (m <=? 12) && (1 <=? d)
  && (d <=? days_in_month y m).

Definition valid_time (h mi s : Z) : bool :=
  (h <? 24) && (mi <? 60) && (s <? 60).

Definition parse_time (s : string) : option (Z * Z * Z) :=
  match s with
  | EmptyString => Some (0, 0, 0)
  | String " " (String h1 (String h2 (String ":" (String m1 (String m2
      (String ":" (String s1 (String s2 EmptyString)))))))) =>
      match num2 h1 h2, num2 m1 m2, num2 s1 s2 with
      | Some h, Some mi, Some se =>
          if valid_time h mi se then Some (h, mi, se) else None
      | _, _, _ => None
      end
  | _ => None
  end.

Definition datetime_of_text (s : string) : option datetime_like :=
  match s with
  | String y1 (String y2 (String y3 (String y4 (String "-" (String m1
      (String m2 (String "-" (String d1 (String d2 rest))))))))) =>
      match num4 y1 y2 y3 y4, num2 m1 m2, num2 d1 d2, parse_time rest with
      | Some y, Some m, Some d, Some (h, mi, se) =>
          if valid_date y m d
          then Some (Ts (mkTimestamp y m d h mi se))
          else None
      | _, _, _, _ => None
      end
  | _ => None
  end.

(** The value of a run of digits, [acc] being the value read so far. *)
Fixpoint digits (s : string) (acc : Z) : option Z :=
  match s with
  | EmptyString => Some acc
  | String c s' =>
      match digit_val c with
      | Some v => digits s' (10 * acc + v)
      | None => None
      end
  end.

(** Texts of digits, with an optional leading minus sign. *)
Definition numeric_of_text (s : string) : option Q :=
  match s with
  | EmptyString => None
  | String "-" (String c s') =>
      match digits (String c s') 0 with
      | Some v => Some (inject_Z (- v))
      | None => None
      end
  | _ =>
      match digits s 0 with
      | Some v => Some (inject_Z v)
      | None => None
      end
  end.

(** The decimal digits of a non-negative integer, most significant first;
    [fuel] bounds their number. *)
Fixpoint decimal (fuel : nat) (n : Z) (acc : string) : string :=
  match fuel with
  | O => acc
  | S fuel' =>
      let acc' := String (Calendar.digit n) acc in
      if n <? 10 then acc' else decimal fuel' (n / 10) acc'
  end.

(** [str(x)] for a float with an integral value: [5.0], [-12.0]. *)
Definition str_of_number (x : Q) : string :=
  let n := (Qnum x / Z.pos (Qden x)) in
  (if n <? 0 then "-" else "") ++ decimal 400 (Z.abs n) ".0".

(** Nanoseconds since 1970-01-01, within that first day. *)
Definition datetime_of_number (x : Q) : option datetime_like :=
  let secs := (Qnum x / Z.pos (Qden x)) / 1000000000 in
  if (0 <=? secs) && (secs <? 86400)
  then Some (Ts (mkTimestamp 1970 1 1 (secs / 3600) ((secs / 60) mod 60)
                             (secs mod 60)))
  else None.

(** The two formats of the texts read. *)
Inductive format : Type :=
| DateOnly
| DateAndTime.

Definition same_format (f g : format) : bool :=
  match f, g with
  | DateOnly, DateOnly | DateAndTime, DateAndTime => true
  | _, _ => false
  end.

Definition format_of_text (s : string) : option format :=
  match datetime_of_text s with
  | None => None
  | Some _ =>
      if (String.length s =? 10)%nat then Some DateOnly else Some DateAndTime
  end.

(** The format pandas settles on for a column: that of the first cell that
    is not empty, when this cell is a text whose format it can guess. *)
Fixpoint inferred_format (s : list cell) : option format :=
  match s with
  | [] => None
  | Empty :: s' => inferred_format s'
  | Text t :: _ => format_of_text t
  | _ :: _ => None
  end.

(** One cell of a column read in the format [f], or on its own when no
    format was settled on. In a format, a text in another format and a
    number are refused; a datetime object is taken as it is. *)
Definition read_in (f : option format) (c : cell) : option datetime_like :=
  match c with
  | Empty => Some NaT
  | Number x =>
      match f with
      | None => datetime_of_number x
      | Some _ => None
      end
  | Text t =>
      match f with
      | None => datetime_of_text t
      | Some f' =>
          match format_of_text t with
          | Some g => if same_format f' g then datetime_of_text t else None
          | None => None
          end
      end
  | DateTime t => Some (Ts t)
  end.

Fixpoint read_all (f : option format) (s : list cell)
  : option (list datetime_like) :=
  match s with
  | [] => Some []
  | c :: s' =>
      match read_in f c, read_all f s' with
      | Some d, Some ds => Some (d :: ds)
      | _, _ => None
      end
  end.

Definition datetime_of_series (s : list cell) : option (list datetime_like) :=
  read_all (inferred_format s) s.

Definition datetime_of_series_coerce (s : list cell) : datetime_series :=
  Naive (map (fun c => match read_in (inferred_format s) c with
                       | Some d => d
                       | None => NaT
                       end) s).

(** The sample pandas, with the three facts about the reading of a
    column. *)
Definition pandas : Pandas.
Proof.
  refine (mkPandas str_of_number numeric_of_text (fun _ => None)
                   datetime_of_text datetime_of_number
                   datetime_of_series datetime_of_series_coerce _ _ eq_refl).
  - intros s. unfold datetime_of_series.
    generalize (inferred_format s). intros f.
    induction s as [|c s IH]; intros ds; simpl.
    + intros [= <-]. constructor.
    + destruct (read_in f c) as [d|] eqn:Hc; [| discriminate].
      destruct (read_all f s) as [ds'|]; [| discriminate].
      intros [= <-]. constructor; [| now apply IH].
      destruct c as [|x|t|t]; simpl in Hc; try exact I.
      * destruct f; [discriminate | congruence].
      * destruct f as [f'|]; [| congruence].
        unfold format_of_text in Hc.
        destruct (datetime_of_text t); discriminate.
  - intros s. unfold datetime_of_series_coerce, series_values.
    generalize (inferred_format s). intros f.
    induction s as [|c s IH]; simpl; constructor; [| exact IH].
    destruct c as [|x|t|t]; simpl; try exact I.
    + intros H. destruct f; [reflexivity | now rewrite H].
    + intros H. destruct f as [f'|]; [| now rewrite H].
      unfold format_of_text. now rewrite H.
Defined.

End Iso.

(* ------------------------------------------------------------------ *)
(** ** Vocabulary of the properties *)

(** Column [col] of the sheet, top to bottom. *)
Definition column (df : DataFrame) (col : nat) : list cell :=
  map (fun r => nth col r Empty) (rows df).

(** The cells of column [col] in the [n] rows from row [start] on. *)
Definition sample (df : DataFrame) (start n col : nat) : list cell :=
  map (fun r => nth col r Empty) (firstn n (skipn start (rows df))).

(** The test the content heuristic applies to column [col]: at least
    [threshold] cells of the sample are date-like. *)
Definition accepts (df : DataFrame) (date_like : cell -> bool)
           (start n threshold : nat) (col : nat) : bool :=
  (threshold <=? length (filter date_like (sample df start n col)))%nat.

(** The rows of the sheet from the data-start row to the end. *)
Definition data_region (pd : Pandas) (df : DataFrame) : list (list cell) :=
  skipn (find_data_start_row pd df) (rows df).

(** Column [col] of some rows of the sheet. *)
Definition column_of (col : nat) (region : list (list cell)) : list cell :=
  map (fun r => nth col r Empty) region.

(** The rows of [region] at the positions [kept_at]. *)
Definition rows_at (region : list (list cell)) (kept_at : list nat)
  : list (list cell) :=
  map (fun i => nth i region []) kept_at.

(** The output has one record per row of [kept], in order: its date is the
    timestamp cell of the row as it is, its value the numeric reading of the
    value cell, the missing marker when the cell does not read as a number. *)
Definition one_record_per_row (pd : Pandas) (tcol vcol : nat)
           (kept : list (list cell)) (out : list OutputRecord) : Prop :=
  length out = length kept
  /\ map date out = column_of tcol kept
  /\ map value out = map (fun r => to_numeric pd (nth vcol r Empty)) kept.

(** A timestamp as pandas read it lies on or after [start]. *)
Definition not_before (start : Timestamp) (d : datetime_like) : Prop :=
  exists t, d = Ts t /\ Calendar.to_seconds start <= Calendar.to_seconds t.

(** [c] is the first position below [k] that [p] takes. *)
Definition is_first (p : nat -> bool) (k c : nat) : Prop :=
  (c < k)%nat /\ p c = true /\ forall c', (c' < c)%nat -> p c' = false.

(** [p] takes no position below [k]. *)
Definition none_below (p : nat -> bool) (k : nat) : Prop :=
  forall c, (c < k)%nat -> p c = false.

(** The positions of a series that a mask keeps, in increasing order. *)
Definition positions (mask : list bool) : list nat :=
  filter (fun i => nth i mask false) (seq 0 (length mask)).

(** The literal substrings the locator looks for in the text of a cell. *)
Definition has_year_or_colon (s : string) : Prop :=
  PyStr.contains "2022" s = true \/ PyStr.contains "2023" s = true
  \/ PyStr.contains "2024" s = true \/ PyStr.contains "2025" s = true
  \/ PyStr.contains ":" s = true.

Definition has_year_colon_or_dash (s : string) : Prop :=
  has_year_or_colon s \/ PyStr.contains "-" s = true.

(** The timestamp-column locator as the specification words it, to be
    compared with [find_timestamp_column]. [sample_rows] is the size of the
    sample of data rows, which the specification leaves between 3 and 5;
    [value_col] is the resolved value column, when there is one. *)
Module Claimed.
Section Claimed.

Variable pd : Pandas.

(** (1) a header-row cell containing "date", case-insensitively *)
Definition header_date_column (df : DataFrame) : option nat :=
  match find_marker_row pd "role description" 5 df with
  | None => None
  | Some h =>
      find_index (fun c => notna c
                           && PyStr.contains "date" (PyStr.lower (str pd c)))
                 (nth h (rows df) []) 0
  end.

(** a cell whose text contains a year token or a [:] or [-] separator *)
Definition cell_matches (c : cell) : bool :=
  notna c
  && (year_or_colon (str pd c) || PyStr.contains "-" (str pd c)).

(** (2) the first of the first 4 columns where more than half of the
    sampled cells match *)
Definition heuristic_column (sample_rows : nat) (df : DataFrame)
  : option nat :=
  find (fun col =>
          let cells := sample df (find_data_start_row pd df) sample_rows col in
          (length cells <? 2 * length (filter cell_matches cells))%nat)
       (seq 0 (Nat.min 4 (ncols df))).

(** (3) one column left of the value column, when known and positive;
    (4) and (5) both answer column 0. *)
Definition timestamp_column (sample_rows : nat) (value_col : option nat)
           (df : DataFrame) : nat :=
  match header_date_column df with
  | Some c => c
  | None =>
      match heuristic_column sample_rows df with
      | Some c => c
      | None =>
          match value_col with
          | Some v => if (0 <? v)%nat then (v - 1)%nat else 0%nat
          | None => 0%nat
          end
      end
  end.

End Claimed.
End Claimed.

(* ------------------------------------------------------------------ *)
(** ** Example data *)

Module Examples.

Definition monday_0659 : Timestamp := mkTimestamp 2024 1 1 6 59 0.
Definition monday_0700 : Timestamp := mkTimestamp 2024 1 1 7 0 0.
Definition monday_2159 : Timestamp := mkTimestamp 2024 1 1 21 59 0.
Definition monday_2200 : Timestamp := mkTimestamp 2024 1 1 22 0 0.
Definition saturday_1200 : Timestamp := mkTimestamp 2024 1 6 12 0 0.

Definition peak_record : EANMapping := mkEANMapping "SRC-P" "VAR-P" "peak".
Definition offpeak_record : EANMapping := mkEANMapping "SRC-O" "VAR-O" "offpeak".
Definition plain_record : EANMapping := mkEANMapping "SRC" "VAR" "plain".

(** A table that knows an identifier by its two tariff variants only. *)
Definition dual_only : mapping_dict :=
  [("123_peak", peak_record); ("123_offpeak", offpeak_record)].

(** The tables of the two near-miss examples. *)
Definition near_miss : mapping_dict :=
  [("12345", plain_record); ("12399", plain_record)].
Definition unrelated : mapping_dict := [("123", plain_record)].

(** A sheet in the vendor's layout: the identifier cell, the row of role
    descriptions, the row of profile descriptions, then five data rows. The
    second data row has a value that is not a number, the third a timestamp
    that is not one. *)
Definition ean : string := "541448911004090123".

Definition sheet : DataFrame :=
  mkDataFrame 3
    [ [Text "EAN"; Text "541448911004090123_ABC"; Empty];
      [Text "Role description"; Empty; Text "MEASURED ACTIVE CONSUMPTION"];
      [Text "Profile description"; Empty; Text "kWh"];
      [Text "2024-01-01 06:59:59"; Empty; Number 1];
      [Text "2024-01-01 07:00:00"; Empty; Text "n/a"];
      [Text "not a timestamp"; Empty; Number 3];
      [Text "2024-01-06 12:00:00"; Empty; Number 4];
      [DateTime (mkTimestamp 2024 1 8 22 0 0); Empty; Empty] ].

(** A sheet with a header row where the dates of the second column are
    written with dashes and no colon, and another where that column holds
    texts with a colon that are no dates. *)
Definition data_row (c1 : string) : list cell :=
  [Text "row"; Text c1; Text "ok"; Number 1].

Definition labelled (c1 : string) : DataFrame :=
  mkDataFrame 4
    [ [Text "Role description"; Text "Time"; Text "Quality";
       Text "MEASURED ACTIVE CONSUMPTION"];
      [Text "Profile description"; Empty; Empty; Text "kWh"];
      data_row c1; data_row c1; data_row c1; data_row c1; data_row c1 ].

Definition dashed_sheet : DataFrame := labelled "01-03-2021 00h15".
Definition colon_sheet : DataFrame := labelled "ratio 1:2".

(** A sheet with two measured columns; the timestamps are in the first
    column, in a format with none of the substrings looked for. *)
Definition two_measures : DataFrame :=
  let r := [Text "01/03/2021 00h15"; Text "ok"; Number 1; Number 2] in
  mkDataFrame 4
    [ [Text "Role description"; Text "Quality";
       Text "MEASURED ACTIVE CONSUMPTION"; Text "MEASURED ACTIVE PRODUCTION"];
      [Text "Profile description"; Empty; Text "kWh"; Text "kWh"];
      r; r; r; r; r ].

(** A sheet without the row of role descriptions: timestamps in the first
    column, a dash for "no reading" in the second. *)
Definition headerless : DataFrame :=
  let r := [Text "01/03/2021 00h15"; Text "-"; Number 1] in
  mkDataFrame 3
    [ [Text "EAN"; Text "541448911004090123_ABC"; Empty];
      [Text "Profile description"; Empty; Text "kWh"];
      r; r; r; r ].

(** The same sheet with a quality flag in place of the dashes. *)
Definition headerless_plain : DataFrame :=
  let r := [Text "01/03/2021 00h15"; Text "ok"; Number 1] in
  mkDataFrame 3
    [ [Text "EAN"; Text "541448911004090123_ABC"; Empty];
      [Text "Profile description"; Empty; Text "kWh"];
      r; r; r; r ].

(** The series the extraction returns on [sheet]: unfiltered, and from
    Monday 07:00:00 on. *)
Definition raw_timestamps : list cell :=
  [Text "2024-01-01 06:59:59"; Text "2024-01-01 07:00:00";
   Text "not a timestamp"; Text "2024-01-06 12:00:00";
   DateTime (mkTimestamp 2024 1 8 22 0 0)].
Definition raw_values : list (option Q) :=
  [Some (1 # 1); None; Some (3 # 1); Some (4 # 1); None].

Definition filtered_timestamps : list cell :=
  [Text "2024-01-01 07:00:00"; Text "2024-01-06 12:00:00";
   DateTime (mkTimestamp 2024 1 8 22 0 0)].
Definition filtered_values : list (option Q) :=
  [None; Some (4 # 1); None].

(** The default configuration, and the same from Monday 07:00:00 on. *)
Definition from_monday_0700 : ParserConfig :=
  mkParserConfig 0 0 1 4 0 2 6 3 (Some monday_0700).

(** A sheet in the vendor's layout whose second timestamp is written as a
    date only, the others as date and time. *)
Definition mixed_formats : DataFrame :=
  mkDataFrame 3
    [ [Text "EAN"; Text "541448911004090123_ABC"; Empty];
      [Text "Role description"; Empty; Text "MEASURED ACTIVE CONSUMPTION"];
      [Text "Profile description"; Empty; Text "kWh"];
      [Text "2024-01-01 07:00:00"; Empty; Number 1];
      [Text "2024-01-02"; Empty; Number 2];
      [Text "2024-01-03 07:00:00"; Empty; Number 3] ].

Definition single_tariff : mapping_dict := [(ean, plain_record)].

Definition dual_tariff : mapping_dict :=
  [((ean ++ "_peak")%string, peak_record);
   ((ean ++ "_offpeak")%string, offpeak_record)].

End Examples.

(* ------------------------------------------------------------------ *)
(** ** Release 1.0.0 of the parser

    [src/renewgy_parser.py] as first released: the positions of the data are
    read from the configuration, and only the bare identifier is looked up.
    [validate_excel_structure], [extract_ean_from_excel] and
    [create_output_dataframe] have the bodies of release 2.0.0 (two messages
    are worded shorter) and are shared with it. *)

Module V1.

Definition DEFAULT_CONFIG : ParserConfig :=
  mkParserConfig 2 0 1 5 0 2 6 3 None.

(** The position at which the slice [start:] of a sequence of [n] elements
    begins: a negative [start] counts from the end and stops at 0. *)
Definition slice_start (start : Z) (n : nat) : nat :=
  if start <? 0 then Z.to_nat (Z.max 0 (start + Z.of_nat n))
  else Z.to_nat start.

(** [df.iloc[start:, col]] for Python integers. *)
Definition iloc_from (df : DataFrame) (start col : Z) : result (list cell) :=
  match norm_index col (ncols df) with
  | Some j =>
      Ok (map (fun r => nth j r Empty)
              (skipn (slice_start start (length (rows df))) (rows df)))
  | None => Err IndexError
  end.

(** [extract_data_from_excel] *)
Definition extract_data_from_excel (pd : Pandas) (excel_df : DataFrame)
           (config : ParserConfig) : result (list cell * list (option Q)) :=
  reraise_as_ValueError FailedToExtractData
    (timestamps <-
       iloc_from excel_df (data_start_row config) (timestamp_col config) ;;
     values <- iloc_from excel_df (data_start_row config) (value_col config) ;;
     let values := map (to_numeric pd) values in
     '(timestamps, values) <-
       match start_date config with
       | Some start =>
           let timestamps_dt := datetime_of_series_coerce pd timestamps in
           valid_indices <- ge_start_date timestamps_dt start ;;
           timestamps' <- bool_index timestamps valid_indices ;;
           values' <- bool_index values valid_indices ;;
           Ok (timestamps', values')
       | None => Ok (timestamps, values)
       end ;;
     if negb (length timestamps =? length values)%nat
     then Err (ValueError
                 (LengthMismatch (length timestamps) (length values)) None)
     else Ok (timestamps, values)).

(** [parse_renewgy_excel_to_csv], from the loaded sheet on. *)
Definition parse_renewgy_excel_to_csv (pd : Pandas) (excel_df : DataFrame)
           (ean_mapping : mapping_dict) (config : option ParserConfig)
  : result (list (string * list OutputRecord)) :=
  let config := match config with Some c => c | None => DEFAULT_CONFIG end in
  let body :=
    _ <- validate_excel_structure excel_df config ;;
    ean <- extract_ean_from_excel pd excel_df config ;;
    match get ean_mapping ean with
    | None =>
        let available_eans := firstn 5 (keys ean_mapping) in
        Err (KeyError (NotInMapping ean available_eans) None)
    | Some mapping =>
        '(timestamps, values) <- extract_data_from_excel pd excel_df config ;;
        Ok [("", create_output_dataframe timestamps values ean mapping)]
    end in
  match body with
  | Ok files => Ok files
  | Err exc =>
      if is_KeyError exc
      then Err (KeyError EANNotFoundInMapping (Some exc))
      else if is_ValueError exc
      then Err (ValueError InvalidDataFormat (Some exc))
      else Err (ValueError ErrorProcessingExcelFile (Some exc))
  end.

End V1.

(* ------------------------------------------------------------------ *)
(** ** Batch conversion *)

(** The status [process_multiple_files] records for a file: ["SUCCESS"], or
    ["ERROR: .."] with the exception raised. *)
Inductive status : Type :=
| SUCCESS
| ERROR (exc : exn).

(** [path.name]: the text after the last [/]. *)
Fixpoint path_name (p : string) : string :=
  match p with
  | EmptyString => EmptyString
  | String c p' => if PyStr.contains "/" p then path_name p' else p
  end.

(** [[f for f in input_files if not (f in seen or seen.add(f))]] *)
Fixpoint remove_duplicates (seen : list string) (input_files : list string)
  : list string :=
  match input_files with
  | [] => []
  | f :: input_files' =>
      if existsb (String.eqb f) seen
      then remove_duplicates seen input_files'
      else f :: remove_duplicates (f :: seen) input_files'
  end.

(** [results[k] = v] on a dictionary kept in insertion order. *)
Fixpoint set_item (results : list (string * status)) (k : string) (v : status)
  : list (string * status) :=
  match results with
  | [] => [(k, v)]
  | (k', v') :: results' =>
      if String.eqb k' k then (k', v) :: results'
      else (k', v') :: set_item results' k v
  end.

(** The [except] clauses that close [parse_renewgy_excel_to_csv]. *)
Definition surfaced (exc : exn) : exn :=
  if is_KeyError exc then KeyError EANNotFoundInMapping (Some exc)
  else if is_ValueError exc then ValueError InvalidDataFormat (Some exc)
  else ValueError ErrorProcessingExcelFile (Some exc).

Section Batch.

Variable pd : Pandas.

(** [pd.read_excel(path, sheet_name=i)] on a file that exists: the sheet, or
    the exception pandas raises. *)
Variable read_excel : string -> Z -> result DataFrame.

(** [list(input_dir.glob(pattern))], as paths below [input_dir]. *)
Variable glob : string -> list string.

(** [parse_renewgy_excel_to_csv] with its first statement, the reading of the
    file, which the [try] block covers too. *)
Definition parse_renewgy_excel_file (file_path : string)
           (ean_mapping : mapping_dict) (config : option ParserConfig)
           (consumption_type : string) : result (list written_file) :=
  let config' := match config with Some c => c | None => DEFAULT_CONFIG end in
  match read_excel file_path (sheet_index config') with
  | Err exc => Err (surfaced exc)
  | Ok excel_df =>
      parse_renewgy_excel_to_csv pd excel_df ean_mapping (Some config')
                                 consumption_type
  end.

(** The body of the loop over the input files. *)
Definition file_status (ean_mapping : mapping_dict)
           (config : option ParserConfig) (consumption_type : string)
           (input_file : string) : status :=
  match parse_renewgy_excel_file input_file ean_mapping config
                                 consumption_type with
  | Ok _ => SUCCESS
  | Err exc => ERROR exc
  end.

Fixpoint process_files (ean_mapping : mapping_dict)
         (config : option ParserConfig) (consumption_type : string)
         (input_files : list string) (results : list (string * status))
  : list (string * status) :=
  match input_files with
  | [] => results
  | input_file :: input_files' =>
      process_files ean_mapping config consumption_type input_files'
        (set_item results (path_name input_file)
                  (file_status ean_mapping config consumption_type input_file))
  end.

(** [process_multiple_files] *)
Definition process_multiple_files (ean_mapping : mapping_dict)
           (pattern : string) (config : option ParserConfig)
           (consumption_type : string) : list (string * status) :=
  let input_files :=
    if String.eqb pattern "*.xlsx"
    then remove_duplicates [] (glob "*.xlsx" ++ glob "*.XLSX")
    else glob pattern in
  match input_files with
  | [] => []
  | _ => process_files ean_mapping config consumption_type input_files []
  end.

End Batch.

(* ------------------------------------------------------------------ *)
(** ** The mapping configuration file *)

Module Loader.

(** A value that [json.load] returns. *)
#[warnings="-register-all"]
Inductive json : Type :=
| JNull
| JBool (b : bool)
| JNumber (x : Q)
| JString (s : string)
| JArray (items : list json)
| JObject (members : list (string * json)).

(** An [EANMapping] as the loader builds it: the three values are stored as
    they are in the file. *)
Record LoadedMapping : Type := mkLoadedMapping {
  loaded_source_id : json;
  loaded_variable_id : json;
  loaded_description : json
}.

(** What the loader finds at [config_path]. *)
Inductive config_file : Type :=
| Missing
| Malformed
| Parsed (data : json).

Inductive load_cause : Type :=
| JSONDecodeError
| MissingKey (key : string).

(** The exceptions that leave [load_ean_mapping_from_file]. *)
Inductive load_error : Type :=
| FileNotFoundError
| InvalidConfigurationFormat (cause : load_cause)
| TypeError
| AttributeError.

Inductive loaded (A : Type) : Type :=
| Loaded (a : A)
| Raised (e : load_error).

Arguments Loaded {A} a.
Arguments Raised {A} e.

(** [d[k]] on a dictionary read from JSON. *)
Fixpoint member (members : list (string * json)) (k : string) : option json :=
  match members with
  | [] => None
  | (k', v) :: members' => if String.eqb k k' then Some v else member members' k
  end.

(** [mapping[k]]: a [KeyError] on an object without the key, a [TypeError]
    on a value that is no object. *)
Definition subscript (mapping : json) (k : string) : loaded json :=
  match mapping with
  | JObject members =>
      match member members k with
      | Some v => Loaded v
      | None => Raised (InvalidConfigurationFormat (MissingKey k))
      end
  | _ => Raised TypeError
  end.

(** [EANMapping(source_id=mapping['source_id'], ..)] *)
Definition build (mapping : json) : loaded LoadedMapping :=
  match subscript mapping "source_id" with
  | Raised e => Raised e
  | Loaded s =>
      match subscript mapping "variable_id" with
      | Raised e => Raised e
      | Loaded v =>
          let d :=
            match mapping with
            | JObject members =>
                match member members "description" with
                | Some d => d
                | None => JString ""
                end
            | _ => JString ""
            end in
          Loaded (mkLoadedMapping s v d)
      end
  end.

(** The dictionary comprehension over [data.items()]. *)
Fixpoint build_all (items : list (string * json))
  : loaded (list (string * LoadedMapping)) :=
  match items with
  | [] => Loaded []
  | (ean, mapping) :: items' =>
      match build mapping with
      | Raised e => Raised e
      | Loaded m =>
          match build_all items' with
          | Raised e => Raised e
          | Loaded ms => Loaded ((ean, m) :: ms)
          end
      end
  end.

(** [load_ean_mapping_from_file] *)
Definition load_ean_mapping_from_file (config_path : config_file)
  : loaded (list (string * LoadedMapping)) :=
  match config_path with
  | Missing => Raised FileNotFoundError
  | Malformed => Raised (InvalidConfigurationFormat JSONDecodeError)
  | Parsed (JObject members) => build_all members
  | Parsed _ => Raised AttributeError
  end.

End Loader.

(* ------------------------------------------------------------------ *)
(** ** The web front end *)

Module Gui.


(** [\d] on a code point below 256. *)
Definition is_digit (c : ascii) : bool :=
  let n := nat_of_ascii c in ((48 <=? n) && (n <=? 57))%nat.

(** [\d{n}] matched at the start of [s]. *)
Fixpoint match_digits (n : nat) (s : string) : option string :=
  match n with
  | O => Some EmptyString
  | S n' =>
      match s with
      | EmptyString => None
      | String c s' =>
          if is_digit c
          then match match_digits n' s' with
               | Some m => Some (String c m)
               | None => None
               end
          else None
      end
  end.

(** [re.search(r'\d{n}', s)]: the leftmost match. *)
Fixpoint search_digits (n : nat) (s : string) : option string :=
  match match_digits n s with
  | Some m => Some m
  | None =>
      match s with
      | EmptyString => None
      | String _ s' => search_digits n s'
      end
  end.

(** [extract_ean_from_filename] *)
Definition extract_ean_from_filename (filename : string) : string :=
  match search_digits 18 filename with
  | Some m => m
  | None => EmptyString
  end.


End Gui.

(* ------------------------------------------------------------------ *)
(** ** Vocabulary of the further properties *)

(** The number of rows over all the files written. *)
Definition total_rows (files : list written_file) : nat :=
  fold_right (fun f n => (length (snd f) + n)%nat) 0%nat files.

(** A timestamp as pandas read it is one of a weekday between 07:00 and
    21:59. *)
Definition weekday_daytime (d : datetime_like) : Prop :=
  exists t, d = Ts t /\ Calendar.weekday t < 5 /\ 7 <= hour t < 22.

(** The four reserved columns of a row are empty and its identifier and
    mapping columns are those given. *)
Definition row_of (ean : string) (mapping : EANMapping) (r : OutputRecord)
  : Prop :=
  meternumber r = ean
  /\ out_source_id r = source_id mapping
  /\ out_variable_id r = variable_id mapping
  /\ source_serialnumber r = "" /\ source_ean r = ""
  /\ source_name r = "" /\ mapping_config r = "".

(** [s] has no white space at either end. *)
Definition stripped (s : string) : Prop := PyStr.strip s = s.

(** A cell with its text, if it has one, in lower case; and a sheet with all
    its texts in lower case. *)
Definition lower_cell (c : cell) : cell :=
  match c with
  | Text s => Text (PyStr.lower s)
  | _ => c
  end.

Definition lower_sheet (df : DataFrame) : DataFrame :=
  mkDataFrame (ncols df) (map (map lower_cell) (rows df)).

(** Every character of [s] is a decimal digit. *)
Fixpoint all_digits (s : string) : bool :=
  match s with
  | EmptyString => true
  | String c s' => Gui.is_digit c && all_digits s'
  end.

(** [s] begins with [n] decimal digits. *)
Definition starts_with_digits (n : nat) (s : string) : Prop :=
  exists m rest,
    s = (m ++ rest)%string /\ String.length m = n /\ all_digits m = true.

(** An entry of the configuration file from which the loader can build a
    record: an object with a source and a variable. *)
Definition complete_entry (v : Loader.json) : Prop :=
  exists fields,
    v = Loader.JObject fields
    /\ Loader.member fields "source_id" <> None
    /\ Loader.member fields "variable_id" <> None.

(** The record the loader builds from an entry. *)
Definition built_from (v : Loader.json) (m : Loader.LoadedMapping) : Prop :=
  exists fields,
    v = Loader.JObject fields
    /\ Loader.member fields "source_id" = Some (Loader.loaded_source_id m)
    /\ Loader.member fields "variable_id"
       = Some (Loader.loaded_variable_id m)
    /\ Loader.loaded_description m
       = match Loader.member fields "description" with
         | Some d => d
         | None => Loader.JString ""
         end.

(* ------------------------------------------------------------------ *)
(** ** Further example data *)

Module MoreExamples.

(** The configuration of release 1.0.0 that points at the data of
    [Examples.sheet]. *)
Definition positions_of_sheet : ParserConfig :=
  mkParserConfig 0 0 1 3 0 2 6 3 None.

(** A sheet with its three leading rows and no data row, and a configuration
    that lets it pass validation. *)
Definition header_only : DataFrame :=
  mkDataFrame 3
    [ [Text "EAN"; Text "541448911004090123_ABC"; Empty];
      [Text "Role description"; Empty; Text "MEASURED ACTIVE CONSUMPTION"];
      [Text "Profile description"; Empty; Text "kWh"] ].

Definition three_rows : ParserConfig := mkParserConfig 0 0 1 4 0 2 3 3 None.

(** A directory with two workbooks on a file system that ignores case: both
    patterns list both files. The second workbook has no header row. *)
Definition glob (pattern : string) : list string :=
  if String.eqb pattern "*.xlsx" then ["a.xlsx"; "b.xlsx"]
  else if String.eqb pattern "*.XLSX" then ["a.xlsx"; "b.xlsx"]
  else [].

Definition read_excel (path : string) (sheet : Z) : result DataFrame :=
  if String.eqb path "a.xlsx" then Ok Examples.sheet
  else Ok Examples.headerless.

(** A configuration file with a complete entry and one without description,
    and one whose second entry lacks its variable. *)
Definition complete : Loader.json :=
  Loader.JObject
    [("123_peak",
      Loader.JObject [("source_id", Loader.JString "S1");
                      ("variable_id", Loader.JString "V1");
                      ("description", Loader.JString "peak")]);
     ("123_offpeak",
      Loader.JObject [("source_id", Loader.JString "S2");
                      ("variable_id", Loader.JString "V2")])].

Definition incomplete : Loader.json :=
  Loader.JObject
    [("123",
      Loader.JObject [("source_id", Loader.JString "S1");
                      ("variable_id", Loader.JString "V1")]);
     ("456", Loader.JObject [("source_id", Loader.JString "S2")])].

End MoreExamples.

(* ------------------------------------------------------------------ *)
(** ** PeriodClassifier *)

Lemma weekday_range (t : Timestamp) : 0 <= Calendar.weekday t < 7.
Proof. unfold Calendar.weekday. apply Z.mod_pos_bound. lia. Qed.

Lemma is_peak_hour_Ts (t : Timestamp) :
  is_peak_hour (Ts t)
  = negb (5 <=? Calendar.weekday t) && ((7 <=? hour t) && (hour t <? 22)).
Proof.
  unfold is_peak_hour, PyNum.ge, PyNum.le, PyNum.lt. simpl.
  destruct (5 <=? Calendar.weekday t); reflexivity.
Qed.

Lemma is_peak_hour_NaT : is_peak_hour NaT = false.
Proof. reflexivity. Qed.

(** On a text the classifier answers as on the timestamp the text stands
    for. *)
Lemma is_peak_hour_str_parsed (pd : Pandas) (s : string) (t : Timestamp) :
  datetime_of_text pd s = Some (Ts t) ->
  is_peak_hour_str pd s = Ok (is_peak_hour (Ts t)).
Proof. intros H. unfold is_peak_hour_str. rewrite H. reflexivity. Qed.

(** C1. For every timestamp the classifier answers off-peak ([false]) when
    the weekday is Saturday or Sunday (weekday at least 5, Monday being 0),
    and on the other days answers peak ([true]) exactly when the hour is at
    least 7 and below 22. Hour 7 is peak and hour 22 off-peak: Monday 06:59 is
    off-peak, Monday 07:00 and 21:59 are peak, Monday 22:00 and Saturday 12:00
    are off-peak. *)
Theorem is_peak_hour_classification :
  (forall t : Timestamp,
      (is_peak_hour (Ts t) = true <->
       Calendar.weekday t < 5 /\ 7 <= hour t < 22)
      /\ (is_peak_hour (Ts t) = false <->
          5 <= Calendar.weekday t \/ hour t < 7 \/ 22 <= hour t)
      /\ (5 <= Calendar.weekday t <->
          Calendar.weekday t = 5 \/ Calendar.weekday t = 6))
  /\ (Calendar.weekday Examples.monday_0659 = 0
      /\ is_peak_hour (Ts Examples.monday_0659) = false)
  /\ (Calendar.weekday Examples.monday_0700 = 0
      /\ is_peak_hour (Ts Examples.monday_0700) = true)
  /\ (Calendar.weekday Examples.monday_2159 = 0
      /\ is_peak_hour (Ts Examples.monday_2159) = true)
  /\ (Calendar.weekday Examples.monday_2200 = 0
      /\ is_peak_hour (Ts Examples.monday_2200) = false)
  /\ (Calendar.weekday Examples.saturday_1200 = 5
      /\ is_peak_hour (Ts Examples.saturday_1200) = false).
Proof.
  split.
  - intros t. pose proof (weekday_range t) as Hw.
    rewrite is_peak_hour_Ts.
    destruct (Z.leb_spec 5 (Calendar.weekday t));
      destruct (Z.leb_spec 7 (hour t));
      destruct (Z.ltb_spec (hour t) 22); simpl;
      repeat split; intros; try discriminate; try lia; auto.
  - repeat split; reflexivity.
Qed.

(* ------------------------------------------------------------------ *)
(** ** MappingResolver *)

Lemma get_None_iff_mem (d : mapping_dict) (k : string) :
  get d k = None <-> mem k d = false.
Proof.
  unfold mem, keys. induction d as [|[k' v] d IH]; simpl.
  - tauto.
  - destruct (String.eqb k k'); simpl.
    + split; discriminate.
    + exact IH.
Qed.

Lemma mem_true_iff_In (d : mapping_dict) (k : string) :
  mem k d = true <-> In k (keys d).
Proof.
  unfold mem. rewrite existsb_exists. split.
  - intros [x [Hin Heq]]. apply String.eqb_eq in Heq. now subst.
  - intros Hin. exists k. split; [assumption | apply String.eqb_refl].
Qed.

(** With no bare key and no variant, the resolver reaches its last two
    [raise] statements whatever the period asked for. *)
Lemma find_ean_mapping_unknown (ean : string) (d : mapping_dict)
      (is_peak : option bool) :
  mem ean d = false ->
  mem (ean ++ "_peak") d = false ->
  mem (ean ++ "_offpeak") d = false ->
  find_ean_mapping ean d is_peak
  = match filter (fun k => PyStr.startswith k ean) (keys d) with
    | [] => Err (KeyError (NotInMapping ean (firstn 5 (keys d))) None)
    | similar => Err (KeyError (SimilarAvailable ean similar) None)
    end.
Proof.
  intros Hb Hp Ho. unfold find_ean_mapping.
  apply get_None_iff_mem in Hb. rewrite Hb.
  assert (Hv : match is_peak with
               | Some b => get d (ean ++ (if b then "_peak" else "_offpeak"))
               | None => None
               end = None).
  { destruct is_peak as [[|]|]; [| |reflexivity];
      now apply get_None_iff_mem. }
  rewrite Hv, Hp, Ho. simpl.
  destruct (filter _ (keys d)); reflexivity.
Qed.

(** C3. With no period given, an identifier whose bare key is absent while a
    [_peak] or [_offpeak] variant key is present is refused with the mapping
    error "has peak/offpeak variants but no period specified"; no record, and
    so no variant, is returned. *)
Theorem find_ean_mapping_variants_need_period
        (ean : string) (ean_mapping : mapping_dict) :
  mem ean ean_mapping = false ->
  mem (ean ++ "_peak") ean_mapping = true
  \/ mem (ean ++ "_offpeak") ean_mapping = true ->
  find_ean_mapping ean ean_mapping None
  = Err (KeyError (NoPeriodSpecified ean) None)
  /\ forall m, find_ean_mapping ean ean_mapping None <> Ok m.
Proof.
  intros Hb Hv.
  assert (E : find_ean_mapping ean ean_mapping None
              = Err (KeyError (NoPeriodSpecified ean) None)).
  { unfold find_ean_mapping. apply get_None_iff_mem in Hb. rewrite Hb.
    destruct Hv as [Hv | Hv]; rewrite Hv; simpl;
      [reflexivity | now rewrite orb_true_r]. }
  split; [exact E | intros m; rewrite E; discriminate].
Qed.

Lemma find_ean_mapping_variants_need_period_witness :
  mem "123" Examples.dual_only = false
  /\ find_ean_mapping "123" Examples.dual_only None
     = Err (KeyError (NoPeriodSpecified "123") None).
Proof.
  split; [reflexivity |].
  apply (find_ean_mapping_variants_need_period "123" Examples.dual_only).
  - reflexivity.
  - left. reflexivity.
Defined.

(** C8. When neither the bare key nor a tariff variant of the identifier is
    in the table, the mapping error lists every key of the table that starts
    with the identifier, in table order; when no key does, it lists the first
    five keys of the table, fewer when the table has fewer. *)
Theorem find_ean_mapping_suggestions
        (ean : string) (ean_mapping : mapping_dict) (is_peak : option bool) :
  mem ean ean_mapping = false ->
  mem (ean ++ "_peak") ean_mapping = false ->
  mem (ean ++ "_offpeak") ean_mapping = false ->
  let similar :=
    filter (fun k => PyStr.startswith k ean) (keys ean_mapping) in
  (forall k, In k similar <->
             In k (keys ean_mapping) /\ String.prefix ean k = true)
  /\ (similar <> [] ->
      find_ean_mapping ean ean_mapping is_peak
      = Err (KeyError (SimilarAvailable ean similar) None))
  /\ (similar = [] ->
      find_ean_mapping ean ean_mapping is_peak
      = Err (KeyError (NotInMapping ean (firstn 5 (keys ean_mapping))) None)
      /\ (length (firstn 5 (keys ean_mapping)) <= 5)%nat).
Proof.
  intros Hb Hp Ho similar.
  pose proof (find_ean_mapping_unknown ean ean_mapping is_peak Hb Hp Ho) as E.
  fold similar in E.
  split; [| split].
  - intros k. unfold similar. rewrite filter_In. reflexivity.
  - intros Hne. rewrite E. destruct similar; [contradiction | reflexivity].
  - intros He. rewrite E, He. split; [reflexivity |].
    rewrite length_firstn. apply Nat.le_min_l.
Qed.

Lemma find_ean_mapping_suggestions_witness :
  find_ean_mapping "123" Examples.near_miss None
  = Err (KeyError (SimilarAvailable "123" ["12345"; "12399"]) None)
  /\ find_ean_mapping "9999" Examples.unrelated None
     = Err (KeyError (NotInMapping "9999" ["123"]) None).
Proof.
  split.
  - apply (find_ean_mapping_suggestions "123" Examples.near_miss None);
      try reflexivity.
    discriminate.
  - apply (find_ean_mapping_suggestions "9999" Examples.unrelated None);
      reflexivity.
Defined.

(* ------------------------------------------------------------------ *)
(** ** Identifier extraction *)

Lemma prefix_empty (s : string) : String.prefix "" s = true.
Proof. destruct s; reflexivity. Qed.

Lemma contains_char_cons (sep c : ascii) (s : string) :
  PyStr.contains (String sep "") (String c s)
  = Ascii.eqb c sep || PyStr.contains (String sep "") s.
Proof.
  simpl. destruct (ascii_dec sep c) as [->|Hne].
  - rewrite Ascii.eqb_refl, prefix_empty. reflexivity.
  - replace (Ascii.eqb c sep) with false; [reflexivity |].
    symmetry. apply Ascii.eqb_neq. congruence.
Qed.

(** [split_first] returns the text before the first separator. *)
Lemma split_first_before (sep : ascii) (s : string) :
  PyStr.contains (String sep "") s = true ->
  exists rest, s = (PyStr.split_first sep s ++ String sep rest)%string.
Proof.
  induction s as [|c s IH]; [discriminate |].
  rewrite contains_char_cons. cbn [PyStr.split_first].
  destruct (Ascii.eqb_spec c sep) as [->|Hne]; simpl.
  - intros _. exists s. reflexivity.
  - intros H. destruct (IH H) as [rest E]. exists rest. now rewrite <- E.
Qed.

Lemma split_first_no_sep (sep : ascii) (s : string) :
  PyStr.contains (String sep "") (PyStr.split_first sep s) = false.
Proof.
  induction s as [|c s IH]; [reflexivity |].
  cbn [PyStr.split_first].
  destruct (Ascii.eqb_spec c sep) as [->|Hne]; [reflexivity |].
  rewrite contains_char_cons, IH.
  destruct (Ascii.eqb_spec c sep); [contradiction | reflexivity].
Qed.

Lemma is_empty_iff (s : string) : PyStr.is_empty s = true <-> s = "".
Proof. destruct s; simpl; split; congruence. Qed.

(** C7. When the identifier cell at [(header_row, header_col)] is not empty
    and contains an underscore, the extraction returns the text before the
    first underscore, stripped; it fails, with the identifier error, exactly
    when the cell is empty, has no underscore, or the stripped prefix is the
    empty text. *)
Theorem extract_ean_from_excel_spec
        (pd : Pandas) (excel_df : DataFrame) (config : ParserConfig)
        (ean_raw : cell) :
  iloc excel_df (header_row config) (header_col config) = Ok ean_raw ->
  let raw := str pd ean_raw in
  let before := PyStr.split_first "_" raw in
  let ean := PyStr.strip before in
  (notna ean_raw = true -> PyStr.contains "_" raw = true ->
   (exists rest, raw = (before ++ "_" ++ rest)%string)
   /\ PyStr.contains "_" before = false
   /\ (ean <> "" -> extract_ean_from_excel pd excel_df config = Ok ean))
  /\ (is_ok (extract_ean_from_excel pd excel_df config) = false <->
      isna ean_raw = true \/ PyStr.contains "_" raw = false \/ ean = "")
  /\ (is_ok (extract_ean_from_excel pd excel_df config) = false ->
      exists m, extract_ean_from_excel pd excel_df config
                = Err (ValueError FailedToExtractEAN
                                  (Some (ValueError m None)))).
Proof.
  intros Hcell raw before ean.
  unfold extract_ean_from_excel. rewrite Hcell. cbn [bind].
  fold raw. fold before. fold ean.
  unfold isna.
  destruct (notna ean_raw) eqn:Hna; cbn [negb orb];
    destruct (PyStr.contains "_" raw) eqn:Hus; cbn [negb];
      destruct (PyStr.is_empty ean) eqn:Hemp; cbn [reraise_as_ValueError is_ok];
        try (apply is_empty_iff in Hemp);
        try (assert (Hne : ean <> "")
              by (intros E; apply is_empty_iff in E; congruence)).
  all: repeat split; intros; try discriminate; try congruence; eauto.
  all: try (apply split_first_before; assumption).
  all: try (apply split_first_no_sep).
  all: try (destruct H as [H | [H | H]]; congruence).
Qed.

Lemma extract_ean_from_excel_spec_witness :
  iloc Examples.sheet 0 1 = Ok (Text "541448911004090123_ABC")
  /\ extract_ean_from_excel Iso.pandas Examples.sheet DEFAULT_CONFIG
     = Ok "541448911004090123".
Proof.
  split; [reflexivity |].
  destruct (extract_ean_from_excel_spec Iso.pandas Examples.sheet
              DEFAULT_CONFIG (Text "541448911004090123_ABC")
              eq_refl) as [H _].
  destruct (H eq_refl eq_refl) as (_ & _ & H3).
  apply H3. discriminate.
Defined.

(* ------------------------------------------------------------------ *)
(** ** Searching rows and columns *)

Lemma find_index_some {A} (d : A) (p : A -> bool) (l : list A) (i j : nat) :
  find_index p l i = Some j ->
  (i <= j < i + length l)%nat
  /\ p (nth (j - i) l d) = true
  /\ forall c, (c < j - i)%nat -> p (nth c l d) = false.
Proof.
  revert i. induction l as [|x l IH]; intros i; simpl; [discriminate |].
  destruct (p x) eqn:Hx.
  - intros [= <-]. rewrite Nat.sub_diag. repeat split; try lia; auto.
  - intros H. destruct (IH _ H) as (Hr & Hp & Hb).
    replace (j - i)%nat with (S (j - S i)) by lia.
    repeat split; try lia; auto.
    intros [|c] Hc; [exact Hx | apply Hb; lia].
Qed.

Lemma find_index_none {A} (d : A) (p : A -> bool) (l : list A) (i : nat) :
  find_index p l i = None ->
  forall c, (c < length l)%nat -> p (nth c l d) = false.
Proof.
  revert i. induction l as [|x l IH]; intros i; simpl.
  - intros _ c Hc. lia.
  - destruct (p x) eqn:Hx; [discriminate |].
    intros H [|c] Hc; [exact Hx | apply (IH _ H); lia].
Qed.

(** The search answers the first position that [p] takes. *)
Lemma find_index_is_first {A} (d : A) (p : A -> bool) (l : list A) (c : nat) :
  is_first (fun i => p (nth i l d)) (length l) c ->
  find_index p l 0 = Some c.
Proof.
  intros (Hc & Hp & Hb).
  destruct (find_index p l 0) as [j|] eqn:E.
  - destruct (find_index_some d _ _ _ _ E) as (Hr & Hpj & Hbj).
    rewrite Nat.sub_0_r in *. f_equal.
    destruct (Nat.lt_trichotomy j c) as [Hlt | [Heq | Hgt]]; [| exact Heq |].
    + rewrite (Hb _ Hlt) in Hpj. discriminate.
    + rewrite (Hbj _ Hgt) in Hp. discriminate.
  - rewrite (find_index_none d _ _ _ E c Hc) in Hp. discriminate.
Qed.

Lemma find_index_none_below {A} (d : A) (p : A -> bool) (l : list A) :
  none_below (fun i => p (nth i l d)) (length l) ->
  find_index p l 0 = None.
Proof.
  intros Hn. destruct (find_index p l 0) as [j|] eqn:E; [| reflexivity].
  destruct (find_index_some d _ _ _ _ E) as (Hr & Hpj & _).
  rewrite Nat.sub_0_r in *. rewrite Hn in Hpj by lia. discriminate.
Qed.

Lemma find_seq_some (p : nat -> bool) (s k c : nat) :
  find p (seq s k) = Some c ->
  (s <= c < s + k)%nat /\ p c = true
  /\ forall c', (s <= c' < c)%nat -> p c' = false.
Proof.
  revert s. induction k as [|k IH]; intros s; simpl; [discriminate |].
  destruct (p s) eqn:Hs.
  - intros [= <-]. repeat split; try lia; auto.
  - intros H. destruct (IH _ H) as (Hr & Hp & Hb).
    repeat split; try lia; auto.
    intros c' Hc'. destruct (Nat.eq_dec c' s) as [->|Hne]; [exact Hs |].
    apply Hb. lia.
Qed.

Lemma find_seq_none (p : nat -> bool) (s k : nat) :
  find p (seq s k) = None ->
  forall c, (s <= c < s + k)%nat -> p c = false.
Proof.
  intros H c Hc. apply (find_none _ _ H). apply in_seq. lia.
Qed.

Lemma find_seq_is_first (p : nat -> bool) (k c : nat) :
  is_first p k c -> find p (seq 0 k) = Some c.
Proof.
  intros (Hc & Hp & Hb).
  destruct (find p (seq 0 k)) as [j|] eqn:E.
  - destruct (find_seq_some _ _ _ _ E) as (Hr & Hpj & Hbj). f_equal.
    destruct (Nat.lt_trichotomy j c) as [Hlt | [Heq | Hgt]]; [| exact Heq |].
    + rewrite (Hb _ Hlt) in Hpj. discriminate.
    + rewrite Hbj in Hp by lia. discriminate.
  - rewrite (find_seq_none _ _ _ E) in Hp by lia. discriminate.
Qed.

Lemma find_seq_none_below (p : nat -> bool) (k : nat) :
  none_below p k -> find p (seq 0 k) = None.
Proof.
  intros Hn. destruct (find p (seq 0 k)) as [j|] eqn:E; [| reflexivity].
  destruct (find_seq_some _ _ _ _ E) as (Hr & Hpj & _).
  rewrite Hn in Hpj by lia. discriminate.
Qed.

(** The loop over the columns, when the test of a column cannot raise. *)
Lemma first_column_find (accept : nat -> result bool) (p : nat -> bool)
      (cols : list nat) :
  (forall c, In c cols -> accept c = Ok (p c)) ->
  first_column accept cols = Ok (find p cols).
Proof.
  induction cols as [|c cols IH]; intros H; simpl; [reflexivity |].
  rewrite (H c) by (now left). simpl.
  destruct (p c); [reflexivity |].
  apply IH. intros c' Hc'. apply H. now right.
Qed.

Lemma accept_column_ok (df : DataFrame) (date_like : cell -> bool)
      (start n threshold col : nat) :
  (col < ncols df)%nat ->
  accept_column df date_like start n threshold col
  = Ok (threshold <=? length (filter date_like (sample df start n col)))%nat.
Proof.
  intros Hc. unfold accept_column, iloc_slice, sample.
  apply Nat.ltb_lt in Hc. rewrite Hc. simpl.
  replace (start + n - start)%nat with n by lia. reflexivity.
Qed.

Lemma first_column_accepts (df : DataFrame) (date_like : cell -> bool)
      (start n threshold : nat) :
  first_column (accept_column df date_like start n threshold)
               (first_columns df)
  = Ok (find (accepts df date_like start n threshold) (first_columns df)).
Proof.
  apply first_column_find. intros c Hc. apply accept_column_ok.
  unfold first_columns in Hc. apply in_seq in Hc. lia.
Qed.

Lemma rectangular_nth (df : DataFrame) (i : nat) :
  rectangular df -> (i < length (rows df))%nat ->
  length (nth i (rows df) []) = ncols df.
Proof.
  intros Hr Hi. unfold rectangular in Hr. rewrite Forall_forall in Hr.
  apply Hr. now apply nth_In.
Qed.

Lemma find_marker_row_lt (pd : Pandas) (marker : string) (limit : nat)
      (df : DataFrame) (h : nat) :
  find_marker_row pd marker limit df = Some h ->
  (h < length (rows df))%nat.
Proof.
  unfold find_marker_row. intros H.
  destruct (find_index_some [] _ _ _ _ H) as (Hr & _).
  rewrite length_firstn in Hr. lia.
Qed.

(** The value column the locator returns is a column of the sheet. *)
Lemma find_consumption_column_lt (pd : Pandas) (df : DataFrame)
      (consumption_type : string) (col : nat) :
  rectangular df ->
  find_consumption_column pd df consumption_type = Ok col ->
  (col < ncols df)%nat.
Proof.
  intros Hr. unfold find_consumption_column.
  destruct (length (rows df) <? 2)%nat; [discriminate |].
  destruct (find_marker_row pd "role description" 5 df) as [h|] eqn:Hh;
    [| discriminate].
  destruct (find_index _ (nth h (rows df) []) 0) as [c|] eqn:Hc;
    [| discriminate].
  intros [= <-].
  destruct (find_index_some Empty _ _ _ _ Hc) as (Hb & _).
  rewrite (rectangular_nth df h Hr (find_marker_row_lt _ _ _ _ _ Hh)) in Hb.
  lia.
Qed.

(** The value-column locator raises nothing but [ValueError]. *)
Lemma find_consumption_column_raises (pd : Pandas) (df : DataFrame)
      (consumption_type : string) (e : exn) :
  find_consumption_column pd df consumption_type = Err e ->
  is_ValueError e = true.
Proof.
  unfold find_consumption_column.
  repeat match goal with
         | |- context [match ?x with _ => _ end] => destruct x
         end;
    intros H; inversion H; reflexivity.
Qed.

Lemma iloc_in_range (df : DataFrame) (i j : nat) :
  (i < length (rows df))%nat -> (j < ncols df)%nat ->
  iloc df (Z.of_nat i) (Z.of_nat j) = Ok (nth j (nth i (rows df) []) Empty).
Proof.
  intros Hi Hj. unfold iloc, norm_index.
  destruct (Z.leb_spec 0 (Z.of_nat i)); [| lia].
  destruct (Z.ltb_spec (Z.of_nat i) (Z.of_nat (length (rows df)))); [| lia].
  destruct (Z.leb_spec 0 (Z.of_nat j)); [| lia].
  destruct (Z.ltb_spec (Z.of_nat j) (Z.of_nat (ncols df))); [| lia].
  now rewrite !Nat2Z.id.
Qed.

Lemma column_zero_fallback_ok (pd : Pandas) (df : DataFrame) :
  (0 < ncols df)%nat -> column_zero_fallback pd df = Ok 0%nat.
Proof.
  intros Hc. unfold column_zero_fallback.
  destruct (Nat.ltb_spec (find_data_start_row pd df) (length (rows df)));
    [| reflexivity].
  change 0 with (Z.of_nat 0). rewrite iloc_in_range by assumption.
  simpl. now destruct (date_like_fallback pd _).
Qed.

(** On a rectangular sheet with a column the locator always answers, and
    answers a column of the sheet. *)
Lemma find_timestamp_column_ok (pd : Pandas) (df : DataFrame) :
  rectangular df -> (0 < ncols df)%nat ->
  exists col, find_timestamp_column pd df = Ok col /\ (col < ncols df)%nat.
Proof.
  intros Hr Hpos. unfold find_timestamp_column.
  destruct (find_marker_row pd "role description" 5 df) as [h|] eqn:Hh.
  - destruct (find_index _ (nth h (rows df) []) 0) as [c|] eqn:Hc.
    + exists c. split; [reflexivity |].
      destruct (find_index_some Empty _ _ _ _ Hc) as (Hb & _).
      rewrite (rectangular_nth df h Hr (find_marker_row_lt _ _ _ _ _ Hh)) in Hb.
      lia.
    + rewrite first_column_accepts. cbn [bind].
      destruct (find _ (first_columns df)) as [c|] eqn:Hf.
      * exists c. split; [reflexivity |].
        destruct (find_seq_some _ _ _ _ Hf) as (Hb & _). lia.
      * destruct (find_consumption_column pd df "MEASURED ACTIVE CONSUMPTION")
          as [v|e] eqn:Hv.
        -- pose proof (find_consumption_column_lt _ _ _ _ Hr Hv) as Hlt.
           destruct (0 <? v)%nat.
           ++ exists (v - 1)%nat. split; [reflexivity | lia].
           ++ exists 0%nat. split; [now apply column_zero_fallback_ok | lia].
        -- rewrite (find_consumption_column_raises _ _ _ _ Hv). cbn [orb].
           exists 0%nat. split; [now apply column_zero_fallback_ok | lia].
  - rewrite first_column_accepts. cbn [bind].
    destruct (find _ (first_columns df)) as [c|] eqn:Hf.
    + exists c. split; [reflexivity |].
      destruct (find_seq_some _ _ _ _ Hf) as (Hb & _). lia.
    + exists 0%nat. split; [reflexivity | lia].
Qed.

(* ------------------------------------------------------------------ *)
(** ** Masks *)

Lemma bool_index_aligned {A} (s : list A) (mask : list bool) :
  length s = length mask -> bool_index s mask = Ok (select s mask).
Proof.
  intros H. unfold bool_index. rewrite H, Nat.leb_refl. reflexivity.
Qed.

Lemma length_align {A B} (da : A) (db : B) (l1 : list A) (l2 : list B) :
  length (align da db l1 l2) = Nat.max (length l1) (length l2).
Proof.
  revert l2. induction l1 as [|a l1 IH]; intros l2; simpl.
  - now rewrite length_map.
  - destruct l2 as [|b l2]; simpl; rewrite IH; simpl; lia.
Qed.

Lemma align_combine {A B} (da : A) (db : B) (l1 : list A) (l2 : list B) :
  length l1 = length l2 -> align da db l1 l2 = combine l1 l2.
Proof.
  revert l2. induction l1 as [|a l1 IH]; intros [|b l2]; simpl;
    try discriminate; try reflexivity.
  intros [= H]. now rewrite IH.
Qed.

Lemma select_map {A B} (f : A -> B) (l : list A) (mask : list bool) :
  select (map f l) mask = map f (select l mask).
Proof.
  revert mask. induction l as [|x l IH]; intros [|b mask]; simpl;
    try reflexivity.
  destruct b; simpl; now rewrite IH.
Qed.

Lemma length_select_eq {A B} (l1 : list A) (l2 : list B) (mask : list bool) :
  length l1 = length l2 ->
  length (select l1 mask) = length (select l2 mask).
Proof.
  revert l2 mask. induction l1 as [|x l1 IH]; intros [|y l2] mask H;
    simpl in H; try discriminate; [now destruct mask |].
  destruct mask as [|b mask]; [reflexivity |].
  simpl. destruct b; simpl; rewrite (IH l2 mask); congruence.
Qed.

Lemma filter_map_comm {A B} (f : A -> B) (p : B -> bool) (l : list A) :
  filter p (map f l) = map f (filter (fun x => p (f x)) l).
Proof.
  induction l as [|x l IH]; simpl; [reflexivity |].
  destruct (p (f x)); simpl; now rewrite IH.
Qed.

Lemma positions_cons (b : bool) (mask : list bool) :
  positions (b :: mask)
  = ((if b then [0%nat] else []) ++ map S (positions mask))%list.
Proof.
  unfold positions. cbn [length seq filter nth].
  rewrite <- seq_shift, filter_map_comm. cbn [nth].
  destruct b; reflexivity.
Qed.

(** The series a mask selects is the series read at the positions kept. *)
Lemma select_positions {A} (d : A) (l : list A) (mask : list bool) :
  length l = length mask ->
  select l mask = map (fun i => nth i l d) (positions mask).
Proof.
  revert mask. induction l as [|x l IH]; intros [|b mask] H;
    simpl in H; try discriminate; [reflexivity |].
  rewrite positions_cons, map_app, map_map. cbn [select nth].
  rewrite (IH mask) by congruence.
  destruct b; reflexivity.
Qed.

Lemma In_positions (mask : list bool) (i : nat) :
  In i (positions mask) <->
  (i < length mask)%nat /\ nth i mask false = true.
Proof.
  unfold positions. rewrite filter_In, in_seq. intuition lia.
Qed.

Lemma filter_seq_sorted (p : nat -> bool) (s k : nat) :
  StronglySorted lt (filter p (seq s k)).
Proof.
  revert s. induction k as [|k IH]; intros s; simpl; [constructor |].
  destruct (p s); [| apply IH].
  constructor; [apply IH |].
  apply Forall_forall. intros x Hx.
  apply filter_In in Hx. destruct Hx as [Hx _]. apply in_seq in Hx. lia.
Qed.

Lemma positions_sorted (mask : list bool) : StronglySorted lt (positions mask).
Proof. apply filter_seq_sorted. Qed.

Lemma length_select_split {A} (l : list A) (mask : list bool) :
  length l = length mask ->
  (length (select l mask) + length (select l (map negb mask)))%nat = length l.
Proof.
  revert mask. induction l as [|x l IH]; intros [|b mask] H;
    simpl in H; try discriminate; [reflexivity |].
  assert (H' : length l = length mask) by congruence.
  specialize (IH mask H'). destruct b; simpl; lia.
Qed.

(** The mask of a test on a series, read at a position of the series. *)
Lemma nth_mask {A} (f : A -> bool) (d : A) (l : list A) (i : nat) :
  (i < length l)%nat -> nth i (map f l) false = f (nth i l d).
Proof.
  intros Hi. rewrite (nth_indep _ false (f d)) by (now rewrite length_map).
  apply map_nth.
Qed.

(* ------------------------------------------------------------------ *)
(** ** Reading a column *)

Lemma Forall2_nth_left {A B} (P : A -> B -> Prop) (l1 : list A) (l2 : list B)
      (d1 : A) (d2 : B) (i : nat) :
  Forall2 P l1 l2 -> (i < length l1)%nat -> P (nth i l1 d1) (nth i l2 d2).
Proof.
  intros F. revert i. induction F as [|x y l1 l2 Hxy _ IH]; intros i Hi;
    simpl in Hi; [lia |].
  destruct i as [|i]; simpl; [exact Hxy | apply IH; lia].
Qed.

Lemma to_datetime_series_Ok (pd : Pandas) (s : list cell)
      (ds : list datetime_like) :
  to_datetime_series pd s = Ok ds <-> datetime_of_series pd s = Some ds.
Proof.
  unfold to_datetime_series.
  destruct (datetime_of_series pd s); split; congruence.
Qed.

Lemma to_datetime_series_Err (pd : Pandas) (s : list cell) (e : exn) :
  to_datetime_series pd s = Err e -> e = ParserError.
Proof.
  unfold to_datetime_series.
  destruct (datetime_of_series pd s); congruence.
Qed.

(** An accepted column has one timestamp per cell. *)
Lemma to_datetime_series_length (pd : Pandas) (s : list cell)
      (ds : list datetime_like) :
  to_datetime_series pd s = Ok ds -> length ds = length s.
Proof.
  intros H. apply to_datetime_series_Ok in H.
  symmetry. exact (Forall2_length (datetime_of_series_reads pd s ds H)).
Qed.

(** An accepted column holds no cell that is refused on its own. *)
Lemma to_datetime_series_Ok_parsed (pd : Pandas) (s : list cell)
      (ds : list datetime_like) :
  to_datetime_series pd s = Ok ds ->
  Forall (fun c => to_datetime pd c <> None) s.
Proof.
  intros H. apply to_datetime_series_Ok in H.
  pose proof (datetime_of_series_reads pd s ds H) as F. clear H.
  induction F as [|c d s' ds' Hc _ IH]; [constructor |].
  constructor; [| exact IH].
  destruct c; simpl; try discriminate; exact Hc.
Qed.

Lemma to_datetime_series_raises (pd : Pandas) (s : list cell) :
  Exists (fun c => to_datetime pd c = None) s ->
  to_datetime_series pd s = Err ParserError.
Proof.
  intros H. destruct (to_datetime_series pd s) as [ds|e] eqn:E.
  - pose proof (to_datetime_series_Ok_parsed pd s ds E) as F.
    apply Exists_exists in H. destruct H as (c & Hin & Hc).
    rewrite Forall_forall in F. now destruct (F c Hin).
  - now rewrite (to_datetime_series_Err pd s e E).
Qed.

(** With [errors='coerce'] there is one timestamp per cell. *)
Lemma coerce_length (pd : Pandas) (s : list cell) :
  length (series_values (datetime_of_series_coerce pd s)) = length s.
Proof.
  symmetry. exact (Forall2_length (datetime_of_series_coerce_refused pd s)).
Qed.

(** With [errors='coerce'] a cell that is refused on its own reads as
    [NaT]. *)
Lemma coerce_refused_NaT (pd : Pandas) (s : list cell) (i : nat) :
  to_datetime pd (nth i s Empty) = None ->
  nth i (series_values (datetime_of_series_coerce pd s)) NaT = NaT.
Proof.
  intros H. destruct (Nat.lt_ge_cases i (length s)) as [Hi|Hi].
  - pose proof (Forall2_nth_left _ _ _ Empty NaT i
                  (datetime_of_series_coerce_refused pd s) Hi) as F.
    cbv beta in F. destruct (nth i s Empty); simpl in H;
      try discriminate; now apply F.
  - apply nth_overflow. now rewrite coerce_length.
Qed.

(* ------------------------------------------------------------------ *)
(** ** SeriesExtractor and OutputAssembler *)

(** On a rectangular sheet whose value column is found, the extraction
    returns the two columns of the data region when no start date is set.
    With a start date it returns their selection by the comparison of the
    timestamp column, as pandas reads it, with the start date, and fails
    when that comparison raises. *)
Lemma extract_data_from_excel_ok (pd : Pandas) (df : DataFrame)
      (config : ParserConfig) (consumption_type : string) (vcol : nat) :
  rectangular df ->
  find_consumption_column pd df consumption_type = Ok vcol ->
  exists tcol,
    find_timestamp_column pd df = Ok tcol
    /\ (tcol < ncols df)%nat /\ (vcol < ncols df)%nat
    /\ let region := data_region pd df in
       let timestamps := column_of tcol region in
       let values := map (fun r => to_numeric pd (nth vcol r Empty)) region in
       match start_date config with
       | None =>
           extract_data_from_excel pd df config consumption_type
           = Ok (timestamps, values)
       | Some start =>
           match datetime_of_series_coerce pd timestamps with
           | Naive timestamps_dt =>
               length timestamps_dt = length region
               /\ extract_data_from_excel pd df config consumption_type
                  = Ok (select timestamps
                               (map (on_or_after start) timestamps_dt),
                        select values
                               (map (on_or_after start) timestamps_dt))
           | Aware _ =>
               extract_data_from_excel pd df config consumption_type
               = Err (ValueError FailedToExtractData (Some TypeError))
           end
       end.
Proof.
  intros Hr Hv.
  pose proof (find_consumption_column_lt _ _ _ _ Hr Hv) as Hvlt.
  destruct (find_timestamp_column_ok pd df Hr) as (tcol & Ht & Htlt); [lia |].
  exists tcol. repeat split; try assumption.
  cbv zeta. unfold extract_data_from_excel. rewrite Hv, Ht. cbn [bind].
  unfold iloc_from.
  apply Nat.ltb_lt in Htlt, Hvlt. rewrite Htlt, Hvlt. cbn [bind].
  fold (data_region pd df). fold (column_of tcol (data_region pd df)).
  rewrite map_map.
  set (region := data_region pd df).
  set (timestamps := column_of tcol region).
  set (values := map (fun r => to_numeric pd (nth vcol r Empty)) region).
  assert (Hlt : length timestamps = length region)
    by (unfold timestamps, column_of; now rewrite length_map).
  assert (Hlv : length values = length region)
    by (unfold values; now rewrite length_map).
  destruct (start_date config) as [start|].
  - pose proof (coerce_length pd timestamps) as Hc.
    destruct (datetime_of_series_coerce pd timestamps) as [dts|dts];
      [| reflexivity].
    simpl in Hc. split; [congruence |].
    cbn [ge_start_date bind].
    rewrite !bool_index_aligned by (rewrite length_map; congruence).
    cbn [bind].
    rewrite (length_select_eq timestamps values) by congruence.
    rewrite Nat.eqb_refl. reflexivity.
  - cbn [bind]. rewrite Hlt, Hlv, Nat.eqb_refl. reflexivity.
Qed.

Lemma create_output_dataframe_columns (timestamps : list cell)
      (values : list (option Q)) (ean : string) (mapping : EANMapping) :
  length timestamps = length values ->
  map date (create_output_dataframe timestamps values ean mapping) = timestamps
  /\ map value (create_output_dataframe timestamps values ean mapping)
     = values
  /\ length (create_output_dataframe timestamps values ean mapping)
     = length timestamps.
Proof.
  intros H. unfold create_output_dataframe.
  rewrite (align_combine _ _ _ _ H).
  repeat split.
  - revert values H. induction timestamps as [|t ts IH]; intros [|v vs] H;
      simpl in *; try discriminate; [reflexivity |].
    f_equal. apply IH. congruence.
  - revert values H. induction timestamps as [|t ts IH]; intros [|v vs] H;
      simpl in *; try discriminate; [reflexivity |].
    f_equal. apply IH. congruence.
  - rewrite length_map, length_combine, <- H. apply Nat.min_id.
Qed.

(** The records made of the two columns of some rows. *)
Lemma create_output_dataframe_of_rows (pd : Pandas) (tcol vcol : nat)
      (kept : list (list cell)) (ean : string) (mapping : EANMapping) :
  one_record_per_row pd tcol vcol kept
    (create_output_dataframe
       (column_of tcol kept)
       (map (fun r => to_numeric pd (nth vcol r Empty)) kept) ean mapping).
Proof.
  destruct (create_output_dataframe_columns
              (column_of tcol kept)
              (map (fun r => to_numeric pd (nth vcol r Empty)) kept)
              ean mapping) as (Hd & Hval & Hlen);
    [unfold column_of; now rewrite !length_map |].
  unfold one_record_per_row. rewrite Hd, Hval, Hlen.
  unfold column_of. now rewrite length_map.
Qed.

(** C4. On a valid sheet (rectangular, value column found) the output has
    one record per row from the data-start row to the end of the sheet that
    remains after the optional start-date filter. Without a start date these
    are all the rows of that region. With a start date, compared with the
    timestamp column as pandas reads it without time zone, they are the rows
    whose timestamp so read is not before the start date. The value of a
    record is the numeric reading of the value cell of its row, the missing
    marker when the cell does not read as a number: such rows stay in the
    output. *)
Theorem output_row_count_preserved
        (pd : Pandas) (excel_df : DataFrame) (config : ParserConfig)
        (consumption_type : string) (ean : string) (mapping : EANMapping)
        (value_col : nat) :
  rectangular excel_df ->
  find_consumption_column pd excel_df consumption_type = Ok value_col ->
  exists timestamp_col,
    find_timestamp_column pd excel_df = Ok timestamp_col
    /\ (start_date config = None ->
        exists timestamps values,
          extract_data_from_excel pd excel_df config consumption_type
          = Ok (timestamps, values)
          /\ let out := create_output_dataframe timestamps values ean mapping in
             one_record_per_row pd timestamp_col value_col
                                (data_region pd excel_df) out
             /\ length out
                = (length (rows excel_df)
                   - find_data_start_row pd excel_df)%nat)
    /\ (forall start timestamps_dt,
           start_date config = Some start ->
           datetime_of_series_coerce pd
             (column_of timestamp_col (data_region pd excel_df))
           = Naive timestamps_dt ->
           exists timestamps values,
             extract_data_from_excel pd excel_df config consumption_type
             = Ok (timestamps, values)
             /\ let kept :=
                  select (data_region pd excel_df)
                         (map (on_or_after start) timestamps_dt) in
                let out :=
                  create_output_dataframe timestamps values ean mapping in
                one_record_per_row pd timestamp_col value_col kept out).
Proof.
  intros Hr Hv.
  destruct (extract_data_from_excel_ok pd excel_df config consumption_type
              value_col Hr Hv) as (tcol & Ht & _ & _ & He).
  cbv zeta in He.
  exists tcol. split; [exact Ht |]. split.
  - intros Hnone. rewrite Hnone in He.
    eexists _, _. split; [exact He |]. cbv zeta.
    pose proof (create_output_dataframe_of_rows pd tcol value_col
                  (data_region pd excel_df) ean mapping) as H.
    split; [exact H |].
    destruct H as [H _]. rewrite H. apply length_skipn.
  - intros start dts Hsome Hdts. rewrite Hsome, Hdts in He.
    destruct He as [_ He].
    eexists _, _. split; [exact He |]. cbv zeta.
    unfold column_of. rewrite !select_map.
    apply create_output_dataframe_of_rows.
Qed.

Lemma output_row_count_preserved_witness :
  rectangular Examples.sheet
  /\ find_consumption_column Iso.pandas Examples.sheet
       "MEASURED ACTIVE CONSUMPTION" = Ok 2%nat
  /\ (exists timestamps values,
         extract_data_from_excel Iso.pandas Examples.sheet DEFAULT_CONFIG
           "MEASURED ACTIVE CONSUMPTION" = Ok (timestamps, values)
         /\ length (create_output_dataframe timestamps values Examples.ean
                                            Examples.plain_record)
            = 5%nat)
  /\ (exists timestamps values,
         extract_data_from_excel Iso.pandas Examples.sheet
           Examples.from_monday_0700 "MEASURED ACTIVE CONSUMPTION"
         = Ok (timestamps, values)
         /\ map value (create_output_dataframe timestamps values Examples.ean
                                               Examples.plain_record)
            = [None; Some (4 # 1); None]).
Proof.
  assert (Hr : rectangular Examples.sheet) by (repeat constructor).
  split; [exact Hr |]. split; [reflexivity |]. split.
  - destruct (output_row_count_preserved Iso.pandas Examples.sheet
                DEFAULT_CONFIG "MEASURED ACTIVE CONSUMPTION" Examples.ean
                Examples.plain_record 2%nat Hr eq_refl)
      as (tcol & Ht & Hnone & _).
    destruct (Hnone eq_refl) as (ts & vs & He & _ & Hlen).
    exists ts, vs. split; [exact He | exact Hlen].
  - destruct (output_row_count_preserved Iso.pandas Examples.sheet
                Examples.from_monday_0700 "MEASURED ACTIVE CONSUMPTION"
                Examples.ean Examples.plain_record 2%nat Hr eq_refl)
      as (tcol & Ht & _ & Hsome).
    injection Ht as <-.
    destruct (Hsome Examples.monday_0700 _ eq_refl eq_refl)
      as (ts & vs & He & _ & _ & Hval).
    exists ts, vs. split; [exact He | exact Hval].
Defined.

Lemma on_or_after_iff (start : Timestamp) (d : datetime_like) :
  on_or_after start d = true <-> not_before start d.
Proof.
  unfold on_or_after, not_before, Calendar.ge. destruct d as [t|].
  - rewrite Z.leb_le. split.
    + intros H. exists t. now split.
    + intros (t' & [= <-] & H). exact H.
  - split; [discriminate | intros (t' & H & _); discriminate].
Qed.

(** C5, as the code has it. With a start date configured, pandas reads the
    timestamp column of the data region as a whole. When the timestamps it
    reads carry a time zone, the comparison with the start date raises and
    the extraction fails. Otherwise the extraction keeps, in both series
    alike and in order, exactly the rows whose timestamp so read is on or
    after the start date: a row read as the start date itself is kept, one
    read as the second before is not, one read as missing is not, and a cell
    that does not read as a timestamp on its own is read as missing. *)
Theorem start_date_filter_inclusive
        (pd : Pandas) (excel_df : DataFrame) (config : ParserConfig)
        (consumption_type : string) (value_col : nat) (start : Timestamp) :
  start_date config = Some start ->
  rectangular excel_df ->
  find_consumption_column pd excel_df consumption_type = Ok value_col ->
  exists timestamp_col,
    find_timestamp_column pd excel_df = Ok timestamp_col
    /\ (forall timestamps_dt,
           datetime_of_series_coerce pd
             (column_of timestamp_col (data_region pd excel_df))
           = Aware timestamps_dt ->
           extract_data_from_excel pd excel_df config consumption_type
           = Err (ValueError FailedToExtractData (Some TypeError)))
    /\ (forall timestamps_dt,
           datetime_of_series_coerce pd
             (column_of timestamp_col (data_region pd excel_df))
           = Naive timestamps_dt ->
           exists kept_at,
             let kept := rows_at (data_region pd excel_df) kept_at in
             extract_data_from_excel pd excel_df config consumption_type
             = Ok (column_of timestamp_col kept,
                   map (fun r => to_numeric pd (nth value_col r Empty)) kept)
             /\ StronglySorted lt kept_at
             /\ (forall i,
                    In i kept_at <->
                    (i < length (data_region pd excel_df))%nat
                    /\ not_before start (nth i timestamps_dt NaT))
             /\ (forall i,
                    (i < length (data_region pd excel_df))%nat ->
                    nth i timestamps_dt NaT = Ts start -> In i kept_at)
             /\ (forall i t,
                    nth i timestamps_dt NaT = Ts t ->
                    Calendar.to_seconds t = Calendar.to_seconds start - 1 ->
                    ~ In i kept_at)
             /\ (forall i, nth i timestamps_dt NaT = NaT -> ~ In i kept_at)
             /\ (forall i,
                    to_datetime pd
                      (nth i (column_of timestamp_col
                                        (data_region pd excel_df)) Empty)
                    = None ->
                    nth i timestamps_dt NaT = NaT)).
Proof.
  intros Hs Hr Hv.
  destruct (extract_data_from_excel_ok pd excel_df config consumption_type
              value_col Hr Hv) as (tcol & Ht & _ & _ & He).
  cbv zeta in He. rewrite Hs in He.
  exists tcol. split; [exact Ht |]. split.
  - intros dts Hdts. now rewrite Hdts in He.
  - intros dts Hdts.
    pose proof (coerce_refused_NaT pd
                  (column_of tcol (data_region pd excel_df))) as Href.
    rewrite Hdts in He, Href. simpl in Href. destruct He as [Hlen He].
    set (region := data_region pd excel_df) in *.
    set (mask := map (on_or_after start) dts) in *.
    assert (Hm : length region = length mask)
      by (unfold mask; now rewrite length_map).
    assert (Hin : forall i,
               In i (positions mask) <->
               (i < length region)%nat /\ not_before start (nth i dts NaT)).
    { intros i. rewrite In_positions, <- Hm.
      split; intros [Hi Hb]; split; try exact Hi.
      - apply on_or_after_iff. unfold mask in Hb.
        rewrite (nth_mask _ NaT) in Hb by lia. exact Hb.
      - unfold mask. rewrite (nth_mask _ NaT) by lia.
        now apply on_or_after_iff. }
    exists (positions mask). cbv zeta. split.
    { rewrite He. unfold rows_at.
      rewrite <- (select_positions [] region mask Hm).
      unfold column_of. now rewrite !select_map. }
    split; [apply positions_sorted |].
    split; [exact Hin |]. split; [| split; [| split]].
    + intros i Hi Hstart. apply Hin. split; [exact Hi |].
      exists start. split; [exact Hstart | lia].
    + intros i t Hi Hsec Hk. apply Hin in Hk.
      destruct Hk as (_ & t' & Ht' & Hle). rewrite Hi in Ht'.
      injection Ht' as <-. lia.
    + intros i Hi Hk. apply Hin in Hk.
      destruct Hk as (_ & t' & Ht' & _). rewrite Hi in Ht'. discriminate.
    + exact Href.
Qed.

Lemma start_date_filter_inclusive_witness :
  start_date Examples.from_monday_0700 = Some Examples.monday_0700
  /\ column_of 0 (data_region Iso.pandas Examples.sheet)
     = Examples.raw_timestamps
  /\ exists kept_at,
      extract_data_from_excel Iso.pandas Examples.sheet
        Examples.from_monday_0700 "MEASURED ACTIVE CONSUMPTION"
      = Ok (column_of 0 (rows_at (data_region Iso.pandas Examples.sheet)
                                 kept_at),
            map (fun r => to_numeric Iso.pandas (nth 2%nat r Empty))
                (rows_at (data_region Iso.pandas Examples.sheet) kept_at))
      /\ ~ In 0%nat kept_at
      /\ In 1%nat kept_at
      /\ ~ In 2%nat kept_at.
Proof.
  assert (Hr : rectangular Examples.sheet) by (repeat constructor).
  split; [reflexivity |]. split; [reflexivity |].
  destruct (start_date_filter_inclusive Iso.pandas Examples.sheet
              Examples.from_monday_0700 "MEASURED ACTIVE CONSUMPTION" 2%nat
              Examples.monday_0700 eq_refl Hr eq_refl)
    as (tcol & Ht & _ & H).
  injection Ht as <-.
  destruct (H _ eq_refl)
    as (kept_at & He & _ & _ & Hat & Hbefore & Hnat & _).
  exists kept_at. split; [exact He |]. split; [| split].
  - apply (Hbefore 0%nat (mkTimestamp 2024 1 1 6 59 59)); reflexivity.
  - apply Hat; [vm_compute; repeat constructor | reflexivity].
  - apply Hnat. reflexivity.
Defined.

(** The claim as worded fails on a sheet whose timestamps are not all
    written in one format: the second timestamp parses, to a time after the
    start date, and its row is not kept, because pandas reads the column in
    the format of the first timestamp. *)
Lemma start_date_filter_counterexample :
  In (Text "2024-01-02")
     (column_of 0 (data_region Iso.pandas Examples.mixed_formats))
  /\ to_datetime Iso.pandas (Text "2024-01-02")
     = Some (Ts (mkTimestamp 2024 1 2 0 0 0))
  /\ Calendar.to_seconds Examples.monday_0700
     <= Calendar.to_seconds (mkTimestamp 2024 1 2 0 0 0)
  /\ extract_data_from_excel Iso.pandas Examples.mixed_formats
       Examples.from_monday_0700 "MEASURED ACTIVE CONSUMPTION"
     = Ok ([Text "2024-01-01 07:00:00"; Text "2024-01-03 07:00:00"],
           [Some (1 # 1); Some (3 # 1)])
  /\ ~ In (Text "2024-01-02")
          [Text "2024-01-01 07:00:00"; Text "2024-01-03 07:00:00"].
Proof.
  split; [simpl; tauto |]. split; [reflexivity |].
  split; [vm_compute; discriminate |]. split; [reflexivity |].
  simpl. intros [H|[H|[]]]; discriminate H.
Qed.

(* ------------------------------------------------------------------ *)
(** ** PeriodSplitter *)

(** On a column that pandas accepts, the splitter returns the two selections
    of the peak mask and of its negation. *)
Lemma split_data_by_period_ok (pd : Pandas) (timestamps : list cell)
      (values : list (option Q)) (timestamps_dt : list datetime_like) :
  length timestamps = length values ->
  to_datetime_series pd timestamps = Ok timestamps_dt ->
  let peak_mask := map is_peak_hour timestamps_dt in
  split_data_by_period pd timestamps values
  = Ok ((select timestamps peak_mask, select values peak_mask),
        (select timestamps (map negb peak_mask),
         select values (map negb peak_mask))).
Proof.
  intros Hlen Hdt peak_mask. unfold split_data_by_period.
  rewrite Hdt. cbn [bind]. fold peak_mask.
  pose proof (to_datetime_series_length pd timestamps timestamps_dt Hdt) as Hl.
  assert (Hm : length timestamps = length peak_mask)
    by (unfold peak_mask; now rewrite length_map).
  rewrite !bool_index_aligned;
    rewrite ?length_map; try congruence.
  reflexivity.
Qed.

Lemma split_data_by_period_raises (pd : Pandas) (timestamps : list cell)
      (values : list (option Q)) :
  Exists (fun c => to_datetime pd c = None) timestamps ->
  split_data_by_period pd timestamps values = Err ParserError.
Proof.
  intros H. unfold split_data_by_period.
  now rewrite (to_datetime_series_raises pd timestamps H).
Qed.

(** C2, as the code has it. Take an extracted series (as many values as
    timestamps). When pandas refuses the column of timestamps, as it does
    when one of them does not read as a datetime, the splitter raises and
    returns no series. When pandas accepts the column, the splitter returns a
    peak and an off-peak series, each with as many values as timestamps. The
    peak series holds the points at the positions whose timestamp, as pandas
    read it, the classifier calls peak, the off-peak series those at the
    other positions, both in increasing order of position: each position of
    the input lies in exactly one of the two, and the two lengths add up to
    the length of the input. *)
Theorem split_data_by_period_partition
        (pd : Pandas) (timestamps : list cell) (values : list (option Q)) :
  length timestamps = length values ->
  (forall e,
      to_datetime_series pd timestamps = Err e ->
      split_data_by_period pd timestamps values = Err e)
  /\ (Exists (fun c => to_datetime pd c = None) timestamps ->
      split_data_by_period pd timestamps values = Err ParserError)
  /\ (forall timestamps_dt,
         to_datetime_series pd timestamps = Ok timestamps_dt ->
         exists peak_timestamps peak_values offpeak_timestamps offpeak_values
                peak_at offpeak_at,
           split_data_by_period pd timestamps values
           = Ok ((peak_timestamps, peak_values),
                 (offpeak_timestamps, offpeak_values))
           /\ peak_timestamps = map (fun i => nth i timestamps Empty) peak_at
           /\ peak_values = map (fun i => nth i values None) peak_at
           /\ offpeak_timestamps
              = map (fun i => nth i timestamps Empty) offpeak_at
           /\ offpeak_values = map (fun i => nth i values None) offpeak_at
           /\ StronglySorted lt peak_at
           /\ StronglySorted lt offpeak_at
           /\ (forall i, In i peak_at <->
                         (i < length timestamps)%nat
                         /\ is_peak_hour (nth i timestamps_dt NaT) = true)
           /\ (forall i, In i offpeak_at <->
                         (i < length timestamps)%nat
                         /\ is_peak_hour (nth i timestamps_dt NaT) = false)
           /\ (forall i, (i < length timestamps)%nat ->
                         (In i peak_at /\ ~ In i offpeak_at)
                         \/ (In i offpeak_at /\ ~ In i peak_at))
           /\ length peak_timestamps = length peak_values
           /\ length offpeak_timestamps = length offpeak_values
           /\ (length peak_timestamps + length offpeak_timestamps)%nat
              = length timestamps).
Proof.
  intros Hlen. split; [| split].
  { intros e He. unfold split_data_by_period. now rewrite He. }
  { apply split_data_by_period_raises. }
  intros dts Hdt.
  pose proof (to_datetime_series_length pd timestamps dts Hdt) as Hl.
  set (peak_mask := map is_peak_hour dts).
  assert (Hm : length timestamps = length peak_mask)
    by (unfold peak_mask; now rewrite length_map).
  assert (Hn : length timestamps = length (map negb peak_mask))
    by (now rewrite length_map).
  assert (Hnth : forall i, (i < length timestamps)%nat ->
                           nth i peak_mask false
                           = is_peak_hour (nth i dts NaT)).
  { intros i Hi. unfold peak_mask. apply nth_mask. lia. }
  assert (Hnthn : forall i, (i < length timestamps)%nat ->
                            nth i (map negb peak_mask) false
                            = negb (is_peak_hour (nth i dts NaT))).
  { intros i Hi.
    rewrite (nth_indep _ false (negb false)) by (now rewrite <- Hn).
    rewrite map_nth. f_equal. now apply Hnth. }
  assert (Hp : forall i, In i (positions peak_mask) <->
                         (i < length timestamps)%nat
                         /\ is_peak_hour (nth i dts NaT) = true).
  { intros i. rewrite In_positions, <- Hm. split; intros [Hi Hb]; split; auto.
    - now rewrite <- Hnth.
    - now rewrite Hnth. }
  assert (Ho : forall i, In i (positions (map negb peak_mask)) <->
                         (i < length timestamps)%nat
                         /\ is_peak_hour (nth i dts NaT) = false).
  { intros i. rewrite In_positions, <- Hn. split; intros [Hi Hb]; split; auto.
    - rewrite Hnthn in Hb by assumption. now apply negb_true_iff.
    - rewrite Hnthn by assumption. now apply negb_true_iff. }
  exists (select timestamps peak_mask), (select values peak_mask),
    (select timestamps (map negb peak_mask)),
    (select values (map negb peak_mask)),
    (positions peak_mask), (positions (map negb peak_mask)).
  split; [apply (split_data_by_period_ok pd timestamps values dts Hlen Hdt) |].
  rewrite (select_positions Empty timestamps peak_mask Hm).
  rewrite (select_positions None values peak_mask) by congruence.
  rewrite (select_positions Empty timestamps (map negb peak_mask) Hn).
  rewrite (select_positions None values (map negb peak_mask)) by congruence.
  repeat (split; [reflexivity |]).
  split; [apply positions_sorted |].
  split; [apply positions_sorted |].
  split; [exact Hp |]. split; [exact Ho |].
  split.
  - intros i Hi. rewrite Hp, Ho.
    destruct (is_peak_hour (nth i dts NaT)); [left | right];
      (split; [now split | intros [_ H]; discriminate]).
  - rewrite !length_map. repeat split.
    rewrite <- (length_select_split timestamps peak_mask Hm).
    rewrite (select_positions Empty timestamps peak_mask Hm).
    rewrite (select_positions Empty timestamps (map negb peak_mask) Hn).
    now rewrite !length_map.
Qed.

Lemma split_data_by_period_partition_witness :
  length Examples.filtered_timestamps = length Examples.filtered_values
  /\ exists peak_timestamps peak_values offpeak_timestamps offpeak_values,
      split_data_by_period Iso.pandas Examples.filtered_timestamps
                           Examples.filtered_values
      = Ok ((peak_timestamps, peak_values),
            (offpeak_timestamps, offpeak_values))
      /\ (length peak_timestamps + length offpeak_timestamps)%nat = 3%nat.
Proof.
  split; [reflexivity |].
  destruct (split_data_by_period_partition Iso.pandas
              Examples.filtered_timestamps Examples.filtered_values eq_refl)
    as (_ & _ & H).
  destruct (H _ eq_refl) as (pt & pv & ot & ov & ip & io & Hs & H').
  exists pt, pv, ot, ov. split; [exact Hs |]. apply H'.
Defined.

(** The claim as worded, for every extracted series, fails on the series that
    the extraction returns on the example sheet: the third timestamp does not
    read as a datetime and the splitter returns no series at all. *)
Lemma split_data_by_period_counterexample :
  extract_data_from_excel Iso.pandas Examples.sheet DEFAULT_CONFIG
    "MEASURED ACTIVE CONSUMPTION"
  = Ok (Examples.raw_timestamps, Examples.raw_values)
  /\ length Examples.raw_timestamps = length Examples.raw_values
  /\ split_data_by_period Iso.pandas Examples.raw_timestamps
       Examples.raw_values = Err ParserError
  /\ ~ (exists peak offpeak,
          split_data_by_period Iso.pandas Examples.raw_timestamps
            Examples.raw_values = Ok (peak, offpeak)).
Proof.
  split; [reflexivity |]. split; [reflexivity |]. split; [reflexivity |].
  intros (peak & offpeak & H). discriminate H.
Qed.

(* ------------------------------------------------------------------ *)
(** ** The two paths of the conversion *)

(** The extraction returns series of equal length. *)
Lemma extract_data_from_excel_lengths (pd : Pandas) (df : DataFrame)
      (config : ParserConfig) (consumption_type : string)
      (timestamps : list cell) (values : list (option Q)) :
  extract_data_from_excel pd df config consumption_type
  = Ok (timestamps, values) ->
  length timestamps = length values.
Proof.
  unfold extract_data_from_excel, reraise_as_ValueError, bind. intros H.
  repeat match goal with
         | H' : context [match ?x with _ => _ end] |- _ =>
             destruct x eqn:?; try discriminate
         end.
  all: repeat match goal with
              | H' : Ok _ = Ok _ |- _ => inversion H'; subst; clear H'
              end.
  all: match goal with
       | E : negb (_ =? _)%nat = false |- _ =>
           apply negb_false_iff, Nat.eqb_eq in E; exact E
       end.
Qed.

Lemma split_data_by_period_Ok_parsed (pd : Pandas) (timestamps : list cell)
      (values : list (option Q)) :
  is_ok (split_data_by_period pd timestamps values) = true ->
  Forall (fun c => to_datetime pd c <> None) timestamps.
Proof.
  unfold split_data_by_period.
  destruct (to_datetime_series pd timestamps) as [ds|e] eqn:E;
    [| discriminate].
  intros _. exact (to_datetime_series_Ok_parsed pd timestamps ds E).
Qed.

(** C9. Take a sheet that passes validation, identifier extraction and series
    extraction. In the dual-tariff path, a timestamp text of the extracted
    series that does not read as a datetime makes the splitter raise, and the
    conversion ends with a [ValueError] and writes no file; the splitter
    succeeds only when every timestamp of the series reads. In the
    single-tariff path the conversion does not read the timestamps: it writes
    one file whose dates are the extracted timestamps as they are. *)
Theorem unparseable_timestamp_aborts_dual_tariff
        (pd : Pandas) (excel_df : DataFrame) (ean_mapping : mapping_dict)
        (config : ParserConfig) (consumption_type : string)
        (ean : string) (timestamps : list cell) (values : list (option Q)) :
  validate_excel_structure excel_df config = Ok tt ->
  extract_ean_from_excel pd excel_df config = Ok ean ->
  extract_data_from_excel pd excel_df config consumption_type
  = Ok (timestamps, values) ->
  (forall s,
      In (Text s) timestamps -> datetime_of_text pd s = None ->
      split_data_by_period pd timestamps values = Err ParserError
      /\ (has_peak_offpeak_variants ean ean_mapping = true ->
          parse_renewgy_excel_to_csv pd excel_df ean_mapping (Some config)
                                     consumption_type
          = Err (ValueError InvalidDataFormat (Some ParserError))))
  /\ (is_ok (split_data_by_period pd timestamps values) = true ->
      Forall (fun c => to_datetime pd c <> None) timestamps)
  /\ (has_peak_offpeak_variants ean ean_mapping = false ->
      forall mapping,
        find_ean_mapping ean ean_mapping None = Ok mapping ->
        exists out,
          parse_renewgy_excel_to_csv pd excel_df ean_mapping (Some config)
                                     consumption_type
          = Ok [("", out)]
          /\ map date out = timestamps).
Proof.
  intros Hval Hean Hext.
  pose proof (extract_data_from_excel_lengths _ _ _ _ _ _ Hext) as Hlen.
  split; [| split].
  - intros s Hin Hs.
    assert (Hraise : split_data_by_period pd timestamps values
                     = Err ParserError).
    { apply split_data_by_period_raises. apply Exists_exists.
      exists (Text s). split; [exact Hin | exact Hs]. }
    split; [exact Hraise |].
    intros Hdual. unfold parse_renewgy_excel_to_csv.
    rewrite Hval, Hean. cbn [bind]. rewrite Hdual, Hext. cbn [bind].
    rewrite Hraise. reflexivity.
  - apply split_data_by_period_Ok_parsed.
  - intros Hsingle mapping Hmap.
    exists (create_output_dataframe timestamps values ean mapping).
    split.
    + unfold parse_renewgy_excel_to_csv.
      rewrite Hval, Hean. cbn [bind]. rewrite Hsingle, Hmap. cbn [bind].
      rewrite Hext. reflexivity.
    + apply create_output_dataframe_columns. exact Hlen.
Qed.

Lemma unparseable_timestamp_aborts_dual_tariff_witness :
  In (Text "not a timestamp") Examples.raw_timestamps
  /\ parse_renewgy_excel_to_csv Iso.pandas Examples.sheet
       Examples.dual_tariff (Some DEFAULT_CONFIG)
       "MEASURED ACTIVE CONSUMPTION"
     = Err (ValueError InvalidDataFormat (Some ParserError))
  /\ exists out,
      parse_renewgy_excel_to_csv Iso.pandas Examples.sheet
        Examples.single_tariff (Some DEFAULT_CONFIG)
        "MEASURED ACTIVE CONSUMPTION" = Ok [("", out)]
      /\ map date out = Examples.raw_timestamps.
Proof.
  assert (Hin : In (Text "not a timestamp") Examples.raw_timestamps)
    by (simpl; auto).
  split; [exact Hin |]. split.
  - destruct (unparseable_timestamp_aborts_dual_tariff Iso.pandas
                Examples.sheet Examples.dual_tariff DEFAULT_CONFIG
                "MEASURED ACTIVE CONSUMPTION" Examples.ean
                Examples.raw_timestamps Examples.raw_values
                eq_refl eq_refl eq_refl) as (H & _).
    destruct (H "not a timestamp" Hin eq_refl) as [_ Hp].
    apply Hp. reflexivity.
  - destruct (unparseable_timestamp_aborts_dual_tariff Iso.pandas
                Examples.sheet Examples.single_tariff DEFAULT_CONFIG
                "MEASURED ACTIVE CONSUMPTION" Examples.ean
                Examples.raw_timestamps Examples.raw_values
                eq_refl eq_refl eq_refl) as (_ & _ & H).
    apply (H eq_refl Examples.plain_record). reflexivity.
Defined.

(* ------------------------------------------------------------------ *)
(** ** The timestamp-column locator *)

Lemma contains_true_or (a b c d e : bool) :
  a || b || c || d || e = true <->
  d = true \/ b = true \/ a = true \/ c = true \/ e = true.
Proof. destruct a, b, c, d, e; simpl; intuition discriminate. Qed.

Lemma year_or_colon_iff (s : string) :
  year_or_colon s = true <-> has_year_or_colon s.
Proof. unfold year_or_colon, has_year_or_colon. apply contains_true_or. Qed.

(** What each of the three tests asks of a cell. *)
Lemma date_like_header_iff (pd : Pandas) (c : cell) :
  date_like_header pd c = true <->
  notna c = true /\ has_year_or_colon (str pd c)
  /\ datetime_of_text pd (str pd c) <> None.
Proof.
  unfold date_like_header. rewrite !andb_true_iff, year_or_colon_iff.
  destruct (datetime_of_text pd (str pd c)); intuition congruence.
Qed.

Lemma date_like_headerless_iff (pd : Pandas) (c : cell) :
  date_like_headerless pd c = true <->
  notna c = true /\ has_year_colon_or_dash (str pd c).
Proof.
  unfold date_like_headerless, has_year_colon_or_dash, has_year_or_colon.
  cbv zeta.
  destruct (notna c); destruct (PyStr.contains "2024" (str pd c));
    destruct (PyStr.contains "2023" (str pd c));
    destruct (PyStr.contains "2025" (str pd c));
    destruct (PyStr.contains "2022" (str pd c));
    destruct (PyStr.contains "-" (str pd c));
    destruct (PyStr.contains ":" (str pd c)); simpl;
    intuition discriminate.
Qed.

Lemma date_like_fallback_iff (pd : Pandas) (c : cell) :
  date_like_fallback pd c = true <->
  notna c = true /\ has_year_or_colon (str pd c).
Proof.
  unfold date_like_fallback. now rewrite andb_true_iff, year_or_colon_iff.
Qed.

(** A row in which the marker was found has a cell, so the sheet has a
    column. *)
Lemma find_marker_row_ncols (pd : Pandas) (marker : string) (limit : nat)
      (df : DataFrame) (h : nat) :
  rectangular df ->
  find_marker_row pd marker limit df = Some h ->
  (0 < ncols df)%nat.
Proof.
  intros Hr Hh.
  pose proof (find_marker_row_lt _ _ _ _ _ Hh) as Hlt.
  unfold find_marker_row in Hh.
  destruct (find_index_some [] _ _ _ _ Hh) as (Hb & Hp & _).
  rewrite Nat.sub_0_r, nth_firstn in Hp.
  rewrite length_firstn in Hb.
  destruct (Nat.ltb_spec h limit); [| lia].
  rewrite <- (rectangular_nth df h Hr Hlt).
  destruct (nth h (rows df) []); [discriminate | simpl; lia].
Qed.

(** The last steps of the locator, once the header row is known, has no date
    label, and the content heuristic took no column. *)
Lemma find_timestamp_column_later_steps (pd : Pandas) (df : DataFrame)
      (h : nat) :
  rectangular df ->
  find_marker_row pd "role description" 5 df = Some h ->
  find_index (fun cell_value =>
                notna cell_value
                && PyStr.contains "date" (PyStr.lower (str pd cell_value)))
             (nth h (rows df) []) 0 = None ->
  find (accepts df (date_like_header pd) (find_data_start_row pd df) 5 3)
       (first_columns df) = None ->
  (forall v,
      find_consumption_column pd df "MEASURED ACTIVE CONSUMPTION" = Ok v ->
      (0 < v)%nat -> find_timestamp_column pd df = Ok (v - 1)%nat)
  /\ (find_consumption_column pd df "MEASURED ACTIVE CONSUMPTION" = Ok 0%nat
      \/ is_ok (find_consumption_column pd df "MEASURED ACTIVE CONSUMPTION")
         = false ->
      find_timestamp_column pd df = Ok 0%nat).
Proof.
  intros Hr Hh Hd Hf.
  pose proof (find_marker_row_ncols _ _ _ _ _ Hr Hh) as Hpos.
  unfold find_timestamp_column.
  rewrite Hh, Hd, first_column_accepts. cbn [bind]. rewrite Hf.
  split.
  - intros v Hv Hv0. rewrite Hv. apply Nat.ltb_lt in Hv0. now rewrite Hv0.
  - intros [Hv | Hv].
    + rewrite Hv. cbn. now apply column_zero_fallback_ok.
    + destruct (find_consumption_column pd df "MEASURED ACTIVE CONSUMPTION")
        as [v|e] eqn:E; [discriminate |].
      rewrite (find_consumption_column_raises _ _ _ _ E). cbn [orb].
      now apply column_zero_fallback_ok.
Qed.

(** C6, as the code has it. The locator first looks for the header row, the
    first of the first five rows with a cell containing "role description".
    Without a header row it answers the first of the first four columns in
    which at least 2 cells of the first 3 data rows are not empty and contain
    a year token 2022 to 2025, a [-] or a [:], and column 0 when there is
    none. With a header row it answers, in this order: (1) the first cell of
    the header row containing "date" case-insensitively; (2) the first of the
    first four columns in which at least 3 cells of the first 5 data rows are
    not empty, contain a year token 2022 to 2025 or a [:], and read as a
    datetime; (3) the column left of the one labelled
    "MEASURED ACTIVE CONSUMPTION" when that one is found and is not column 0;
    (4), (5) column 0. *)
Theorem find_timestamp_column_resolution (pd : Pandas) (excel_df : DataFrame) :
  rectangular excel_df ->
  let start := find_data_start_row pd excel_df in
  let k := Nat.min 4 (ncols excel_df) in
  let find_result := find_timestamp_column pd excel_df in
  match find_marker_row pd "role description" 5 excel_df with
  | None =>
      let accepted := accepts excel_df (date_like_headerless pd) start 3 2 in
      (forall c, is_first accepted k c -> find_result = Ok c)
      /\ (none_below accepted k -> find_result = Ok 0%nat)
  | Some h =>
      let labelled_date c :=
        let v := nth c (nth h (rows excel_df) []) Empty in
        notna v && PyStr.contains "date" (PyStr.lower (str pd v)) in
      let accepted := accepts excel_df (date_like_header pd) start 5 3 in
      let consumption_col :=
        find_consumption_column pd excel_df "MEASURED ACTIVE CONSUMPTION" in
      (forall c, is_first labelled_date (ncols excel_df) c ->
                 find_result = Ok c)
      /\ (none_below labelled_date (ncols excel_df) ->
          (forall c, is_first accepted k c -> find_result = Ok c)
          /\ (none_below accepted k ->
              (forall v, consumption_col = Ok v -> (0 < v)%nat ->
                         find_result = Ok (v - 1)%nat)
              /\ (consumption_col = Ok 0%nat \/ is_ok consumption_col = false ->
                  find_result = Ok 0%nat)))
  end
  /\ (forall c, date_like_headerless pd c = true <->
                notna c = true /\ has_year_colon_or_dash (str pd c))
  /\ (forall c, date_like_header pd c = true <->
                notna c = true /\ has_year_or_colon (str pd c)
                /\ datetime_of_text pd (str pd c) <> None).
Proof.
  intros Hr start k find_result.
  split; [| split; [apply date_like_headerless_iff
                   | apply date_like_header_iff]].
  destruct (find_marker_row pd "role description" 5 excel_df) as [h|] eqn:Hh.
  - pose proof (rectangular_nth excel_df h Hr
                  (find_marker_row_lt _ _ _ _ _ Hh)) as Hlen.
    cbv zeta. split.
    + intros c Hc. unfold find_result, find_timestamp_column. rewrite Hh.
      rewrite <- Hlen in Hc.
      now rewrite (find_index_is_first Empty _ _ c Hc).
    + intros Hnone. rewrite <- Hlen in Hnone.
      pose proof (find_index_none_below Empty
                    (fun v => notna v
                              && PyStr.contains "date" (PyStr.lower (str pd v)))
                    _ Hnone) as Hd.
      split.
      * intros c Hc. unfold find_result, find_timestamp_column.
        rewrite Hh, Hd, first_column_accepts. cbn [bind].
        unfold first_columns. fold start. fold k.
        now rewrite (find_seq_is_first _ _ _ Hc).
      * intros Hacc.
        apply (find_timestamp_column_later_steps pd excel_df h Hr Hh Hd).
        unfold first_columns. now apply find_seq_none_below.
  - cbv zeta. unfold find_result, find_timestamp_column. rewrite Hh.
    rewrite first_column_accepts. cbn [bind].
    unfold first_columns. fold start. fold k. split.
    + intros c Hc. now rewrite (find_seq_is_first _ _ _ Hc).
    + intros Hnone. now rewrite (find_seq_none_below _ _ Hnone).
Qed.

Lemma find_timestamp_column_resolution_witness :
  rectangular Examples.dashed_sheet
  /\ find_timestamp_column Iso.pandas Examples.dashed_sheet = Ok 2%nat.
Proof.
  assert (Hr : rectangular Examples.dashed_sheet) by (repeat constructor).
  split; [exact Hr |].
  pose proof (find_timestamp_column_resolution Iso.pandas
                Examples.dashed_sheet Hr) as H.
  cbv zeta in H.
  change (find_marker_row Iso.pandas "role description" 5
                          Examples.dashed_sheet)
    with (Some 0%nat) in H.
  destruct H as [[_ H] _].
  assert (Hlabel : forall c, (c < 4)%nat ->
            notna (nth c (nth 0 (rows Examples.dashed_sheet) []) Empty)
            && PyStr.contains "date"
                 (PyStr.lower
                    (str Iso.pandas
                       (nth c (nth 0 (rows Examples.dashed_sheet) []) Empty)))
            = false).
  { intros c Hc. do 4 (destruct c as [|c]; [reflexivity |]). lia. }
  destruct (H Hlabel) as [_ H'].
  assert (Hacc : forall c, (c < 4)%nat ->
            accepts Examples.dashed_sheet (date_like_header Iso.pandas)
                    (find_data_start_row Iso.pandas Examples.dashed_sheet)
                    5 3 c = false).
  { intros c Hc. do 4 (destruct c as [|c]; [reflexivity |]). lia. }
  destruct (H' Hacc) as [H'' _].
  apply (H'' 3%nat); [reflexivity | lia].
Defined.

(** The chain as the claim words it parts from the code on three sheets with
    a header row, whatever the size of the sample. On the first, the second
    column holds dates written with dashes: the claim takes that column, the
    code does not count a dash there and goes on to the column left of the
    consumption column. On the second, the second column holds texts with a
    colon that are no dates: the claim takes it, the code asks that the text
    reads as a datetime. On the third the value column asked for is the
    production column: the claim answers the column left of it, the code the
    column left of the consumption column. *)
Lemma find_timestamp_column_counterexample :
  (find_timestamp_column Iso.pandas Examples.dashed_sheet = Ok 2%nat
   /\ find_consumption_column Iso.pandas Examples.dashed_sheet
        "MEASURED ACTIVE CONSUMPTION" = Ok 3%nat
   /\ Claimed.timestamp_column Iso.pandas 3 (Some 3%nat)
        Examples.dashed_sheet = 1%nat
   /\ Claimed.timestamp_column Iso.pandas 4 (Some 3%nat)
        Examples.dashed_sheet = 1%nat
   /\ Claimed.timestamp_column Iso.pandas 5 (Some 3%nat)
        Examples.dashed_sheet = 1%nat)
  /\ (find_timestamp_column Iso.pandas Examples.colon_sheet = Ok 2%nat
      /\ find_consumption_column Iso.pandas Examples.colon_sheet
           "MEASURED ACTIVE CONSUMPTION" = Ok 3%nat
      /\ Claimed.timestamp_column Iso.pandas 3 (Some 3%nat)
           Examples.colon_sheet = 1%nat
      /\ Claimed.timestamp_column Iso.pandas 4 (Some 3%nat)
           Examples.colon_sheet = 1%nat
      /\ Claimed.timestamp_column Iso.pandas 5 (Some 3%nat)
           Examples.colon_sheet = 1%nat)
  /\ (find_timestamp_column Iso.pandas Examples.two_measures = Ok 1%nat
      /\ find_consumption_column Iso.pandas Examples.two_measures
           "MEASURED ACTIVE PRODUCTION" = Ok 3%nat
      /\ Claimed.timestamp_column Iso.pandas 3 (Some 3%nat)
           Examples.two_measures = 2%nat
      /\ Claimed.timestamp_column Iso.pandas 4 (Some 3%nat)
           Examples.two_measures = 2%nat
      /\ Claimed.timestamp_column Iso.pandas 5 (Some 3%nat)
           Examples.two_measures = 2%nat).
Proof. repeat split; vm_compute; reflexivity. Qed.

Lemma filter_none {A} (p : A -> bool) (l : list A) :
  (forall x, In x l -> p x = false) -> filter p l = [].
Proof.
  induction l as [|x l IH]; intros H; simpl; [reflexivity |].
  rewrite (H x) by (now left). apply IH. intros y Hy. apply H. now right.
Qed.

(** A column whose sampled cells all fail the test is not accepted. *)
Lemma accepts_none (df : DataFrame) (date_like : cell -> bool)
      (start n threshold col : nat) :
  (0 < threshold)%nat ->
  (forall c, In c (sample df start n col) -> date_like c = false) ->
  accepts df date_like start n threshold col = false.
Proof.
  intros Ht H. unfold accepts. rewrite (filter_none _ _ H). simpl.
  apply Nat.leb_gt. exact Ht.
Qed.

(** C10, as the code has it. In each of the three tests of the locator a
    cell counts as date-like only if its text contains one of 2022, 2023,
    2024, 2025 or a colon, or, in the test of the branch without a header
    row, a dash. Hence on a sheet where no sampled cell of the first four
    columns contains any of these, the content heuristic accepts no column
    and the locator goes on: without a header row to column 0, with a header
    row that has no date label to the column left of the consumption column
    or to column 0. *)
Theorem content_heuristic_needs_tokens (pd : Pandas) (excel_df : DataFrame) :
  rectangular excel_df ->
  let start := find_data_start_row pd excel_df in
  let k := Nat.min 4 (ncols excel_df) in
  (forall c, date_like_headerless pd c = true ->
             has_year_colon_or_dash (str pd c))
  /\ (forall c, date_like_header pd c = true -> has_year_or_colon (str pd c))
  /\ (forall c, date_like_fallback pd c = true ->
                has_year_or_colon (str pd c))
  /\ (find_marker_row pd "role description" 5 excel_df = None ->
      (forall col c, (col < k)%nat -> In c (sample excel_df start 3 col) ->
                     ~ has_year_colon_or_dash (str pd c)) ->
      first_column (accept_column excel_df (date_like_headerless pd) start 3 2)
                   (first_columns excel_df) = Ok None
      /\ find_timestamp_column pd excel_df = Ok 0%nat)
  /\ (forall h,
         find_marker_row pd "role description" 5 excel_df = Some h ->
         (forall col c, (col < k)%nat -> In c (sample excel_df start 5 col) ->
                        ~ has_year_or_colon (str pd c)) ->
         let consumption_col :=
           find_consumption_column pd excel_df "MEASURED ACTIVE CONSUMPTION" in
         first_column (accept_column excel_df (date_like_header pd) start 5 3)
                      (first_columns excel_df) = Ok None
         /\ (none_below
               (fun c =>
                  let v := nth c (nth h (rows excel_df) []) Empty in
                  notna v && PyStr.contains "date" (PyStr.lower (str pd v)))
               (ncols excel_df) ->
             (forall v, consumption_col = Ok v -> (0 < v)%nat ->
                        find_timestamp_column pd excel_df = Ok (v - 1)%nat)
             /\ (consumption_col = Ok 0%nat \/ is_ok consumption_col = false ->
                 find_timestamp_column pd excel_df = Ok 0%nat))).
Proof.
  intros Hr start k.
  split; [intros c H; now apply date_like_headerless_iff in H |].
  split; [intros c H; now apply date_like_header_iff in H |].
  split; [intros c H; now apply date_like_fallback_iff in H |].
  split.
  - intros Hh Hcells.
    assert (Hf : find (accepts excel_df (date_like_headerless pd) start 3 2)
                      (first_columns excel_df) = None).
    { apply find_seq_none_below. intros col Hcol.
      apply accepts_none; [lia |]. intros c Hc.
      destruct (date_like_headerless pd c) eqn:E; [| reflexivity].
      apply date_like_headerless_iff in E.
      exfalso. now apply (Hcells col c Hcol Hc). }
    split.
    + now rewrite first_column_accepts, Hf.
    + unfold find_timestamp_column. rewrite Hh.
      fold start. now rewrite first_column_accepts, Hf.
  - intros h Hh Hcells consumption_col.
    assert (Hf : find (accepts excel_df (date_like_header pd) start 5 3)
                      (first_columns excel_df) = None).
    { apply find_seq_none_below. intros col Hcol.
      apply accepts_none; [lia |]. intros c Hc.
      destruct (date_like_header pd c) eqn:E; [| reflexivity].
      apply date_like_header_iff in E.
      exfalso. now apply (Hcells col c Hcol Hc). }
    split.
    + now rewrite first_column_accepts, Hf.
    + intros Hnone.
      pose proof (rectangular_nth excel_df h Hr
                    (find_marker_row_lt _ _ _ _ _ Hh)) as Hlen.
      rewrite <- Hlen in Hnone.
      pose proof (find_index_none_below Empty
                    (fun v => notna v
                              && PyStr.contains "date" (PyStr.lower (str pd v)))
                    _ Hnone) as Hd.
      exact (find_timestamp_column_later_steps pd excel_df h Hr Hh Hd Hf).
Qed.

Lemma content_heuristic_needs_tokens_witness :
  rectangular Examples.headerless_plain
  /\ find_timestamp_column Iso.pandas Examples.headerless_plain = Ok 0%nat
  /\ rectangular Examples.two_measures
  /\ first_column
       (accept_column Examples.two_measures (date_like_header Iso.pandas)
                      (find_data_start_row Iso.pandas Examples.two_measures)
                      5 3)
       (first_columns Examples.two_measures) = Ok None
  /\ find_timestamp_column Iso.pandas Examples.two_measures = Ok 1%nat.
Proof.
  assert (Hr : rectangular Examples.headerless_plain) by (repeat constructor).
  assert (Hr' : rectangular Examples.two_measures) by (repeat constructor).
  split; [exact Hr |]. split.
  - destruct (content_heuristic_needs_tokens Iso.pandas
                Examples.headerless_plain Hr) as (_ & _ & _ & H & _).
    apply H; [reflexivity |].
    intros col c Hcol Hin.
    do 3 (destruct col as [|col];
          [simpl in Hin;
           repeat (destruct Hin as [<- | Hin]); try contradiction;
           intros [[H1 | [H1 | [H1 | [H1 | H1]]]] | H1];
           vm_compute in H1; discriminate |]).
    simpl in Hcol. lia.
  - split; [exact Hr' |].
    destruct (content_heuristic_needs_tokens Iso.pandas
                Examples.two_measures Hr') as (_ & _ & _ & _ & H).
    destruct (H 0%nat eq_refl) as [Hnone Hlater].
    + intros col c Hcol Hin.
      do 4 (destruct col as [|col];
            [simpl in Hin;
             repeat (destruct Hin as [<- | Hin]); try contradiction;
             intros [H1 | [H1 | [H1 | [H1 | H1]]]];
             vm_compute in H1; discriminate |]).
      simpl in Hcol. lia.
    + split; [exact Hnone |].
      destruct Hlater as [Hleft _].
      * intros c Hc. do 4 (destruct c as [|c]; [reflexivity |]).
        simpl in Hc. lia.
      * apply (Hleft 2%nat); [reflexivity | lia].
Defined.

(** The claim as worded speaks of the timestamps of the sheet only. On the
    sheet below, which has no header row, no cell of the first column, where
    the timestamps are, contains a year token 2022 to 2025, a colon or a
    dash; the second column marks a missing reading with a dash, and the
    content heuristic accepts it. *)
Lemma content_heuristic_counterexample :
  find_marker_row Iso.pandas "role description" 5 Examples.headerless = None
  /\ Forall (fun c => ~ has_year_colon_or_dash (str Iso.pandas c))
            (column Examples.headerless 0)
  /\ first_column
       (accept_column Examples.headerless (date_like_headerless Iso.pandas)
                      (find_data_start_row Iso.pandas Examples.headerless)
                      3 2)
       (first_columns Examples.headerless) = Ok (Some 1%nat)
  /\ find_timestamp_column Iso.pandas Examples.headerless = Ok 1%nat.
Proof.
  split; [reflexivity |]. split; [| split; reflexivity].
  repeat (constructor;
          [intros [[H | [H | [H | [H | H]]]] | H];
           vm_compute in H; discriminate |]).
  constructor.
Qed.


(* ------------------------------------------------------------------ *)
(** ** Further properties: validation and the identifier *)

Lemma lstrip_fixed (c : ascii) (s : string) :
  PyStr.isspace c = false -> PyStr.lstrip (String c s) = String c s.
Proof. intros H. simpl. now rewrite H. Qed.

Lemma lstrip_head (s : string) :
  match PyStr.lstrip s with
  | EmptyString => True
  | String c _ => PyStr.isspace c = false
  end.
Proof.
  induction s as [|c s IH]; simpl; [exact I |].
  destruct (PyStr.isspace c) eqn:E; [exact IH | exact E].
Qed.

Lemma rstrip_head (c : ascii) (s : string) :
  PyStr.isspace c = false -> exists r, PyStr.rstrip (String c s) = String c r.
Proof.
  intros H. simpl. destruct (PyStr.rstrip s) as [|c' r].
  - rewrite H. now exists EmptyString.
  - now exists (String c' r).
Qed.

Lemma rstrip_idempotent (s : string) :
  PyStr.rstrip (PyStr.rstrip s) = PyStr.rstrip s.
Proof.
  induction s as [|c s IH]; [reflexivity |].
  cbn [PyStr.rstrip]. destruct (PyStr.rstrip s) as [|c' r] eqn:E.
  - destruct (PyStr.isspace c) eqn:Hc; [reflexivity |].
    simpl. now rewrite Hc.
  - cbn [PyStr.rstrip] in *. now rewrite IH.
Qed.

Lemma strip_idempotent (s : string) :
  PyStr.strip (PyStr.strip s) = PyStr.strip s.
Proof.
  unfold PyStr.strip. pose proof (lstrip_head s) as Hh.
  destruct (PyStr.lstrip s) as [|c y] eqn:E; [reflexivity |].
  destruct (rstrip_head c y Hh) as [r Hr]. rewrite Hr.
  rewrite (lstrip_fixed c r Hh), <- Hr. apply rstrip_idempotent.
Qed.

Lemma lstrip_no_sep (sep : ascii) (s : string) :
  PyStr.contains (String sep "") s = false ->
  PyStr.contains (String sep "") (PyStr.lstrip s) = false.
Proof.
  induction s as [|c s IH]; [reflexivity |].
  intros H. cbn [PyStr.lstrip]. destruct (PyStr.isspace c); [| exact H].
  rewrite contains_char_cons in H. apply orb_false_iff in H. now apply IH.
Qed.

Lemma rstrip_no_sep (sep : ascii) (s : string) :
  PyStr.contains (String sep "") s = false ->
  PyStr.contains (String sep "") (PyStr.rstrip s) = false.
Proof.
  induction s as [|c s IH]; [reflexivity |].
  rewrite contains_char_cons. intros H. apply orb_false_iff in H.
  destruct H as [Hc Hs]. specialize (IH Hs).
  cbn [PyStr.rstrip]. destruct (PyStr.rstrip s) as [|c' r].
  - destruct (PyStr.isspace c); [reflexivity |].
    now rewrite contains_char_cons, Hc.
  - now rewrite contains_char_cons, Hc, IH.
Qed.

(** What the extraction returns, read off its body. *)
Lemma extract_ean_from_excel_Ok (pd : Pandas) (df : DataFrame)
      (config : ParserConfig) (ean : string) :
  extract_ean_from_excel pd df config = Ok ean ->
  exists c,
    iloc df (header_row config) (header_col config) = Ok c
    /\ notna c = true
    /\ PyStr.contains "_" (str pd c) = true
    /\ ean = PyStr.strip (PyStr.split_first "_" (str pd c))
    /\ ean <> "".
Proof.
  unfold extract_ean_from_excel, reraise_as_ValueError, bind, isna.
  destruct (iloc df (header_row config) (header_col config)) as [c|e];
    [| discriminate].
  destruct (notna c) eqn:Hna; [| discriminate]. cbn [negb orb].
  destruct (PyStr.contains "_" (str pd c)) eqn:Hus; [| discriminate].
  cbn [negb].
  destruct (PyStr.is_empty _) eqn:E; [discriminate |].
  intros [= <-]. exists c. repeat split; try assumption.
  intros H. apply is_empty_iff in H. congruence.
Qed.

(** X1. On a sheet that passed validation the identifier cell exists and is
    not empty, so the extraction of the identifier can only fail for want of
    an underscore or because the text before it is blank; the error then
    chains one of these two causes, never an index error. *)
Theorem validated_sheet_identifier
        (pd : Pandas) (excel_df : DataFrame) (config : ParserConfig) :
  validate_excel_structure excel_df config = Ok tt ->
  exists c,
    iloc excel_df (header_row config) (header_col config) = Ok c
    /\ notna c = true
    /\ min_rows config <= Z.of_nat (length (rows excel_df))
    /\ min_cols config <= Z.of_nat (ncols excel_df)
    /\ let ean := PyStr.strip (PyStr.split_first "_" (str pd c)) in
       (PyStr.contains "_" (str pd c) = true -> ean <> "" ->
        extract_ean_from_excel pd excel_df config = Ok ean)
       /\ (PyStr.contains "_" (str pd c) = false ->
           extract_ean_from_excel pd excel_df config
           = Err (ValueError FailedToExtractEAN
                    (Some (ValueError
                             (InvalidEANFormat (header_row config)
                                               (header_col config)) None))))
       /\ (PyStr.contains "_" (str pd c) = true -> ean = "" ->
           extract_ean_from_excel pd excel_df config
           = Err (ValueError FailedToExtractEAN
                    (Some (ValueError EANEmptyAfterExtraction None)))).
Proof.
  unfold validate_excel_structure, bind, isna.
  destruct (Z.ltb_spec (Z.of_nat (length (rows excel_df))) (min_rows config));
    [discriminate |].
  destruct (Z.ltb_spec (Z.of_nat (ncols excel_df)) (min_cols config));
    [discriminate |].
  destruct (iloc excel_df (header_row config) (header_col config))
    as [c|e] eqn:Hc; [| discriminate].
  destruct (notna c) eqn:Hna; [| discriminate].
  intros _. exists c. repeat split; try assumption.
  - intros Hus Hne. unfold extract_ean_from_excel, isna.
    rewrite Hc. cbn [bind]. rewrite Hna, Hus. cbn [negb orb].
    destruct (PyStr.is_empty _) eqn:E; [| reflexivity].
    apply is_empty_iff in E. contradiction.
  - intros Hus. unfold extract_ean_from_excel, isna.
    rewrite Hc. cbn [bind]. rewrite Hna, Hus. reflexivity.
  - intros Hus He. unfold extract_ean_from_excel, isna.
    rewrite Hc. cbn [bind]. rewrite Hna, Hus. cbn [negb orb].
    rewrite He. reflexivity.
Qed.

Lemma validated_sheet_identifier_witness :
  validate_excel_structure Examples.sheet DEFAULT_CONFIG = Ok tt
  /\ extract_ean_from_excel Iso.pandas Examples.sheet DEFAULT_CONFIG
     = Ok Examples.ean.
Proof.
  split; [reflexivity |].
  destruct (validated_sheet_identifier Iso.pandas Examples.sheet
              DEFAULT_CONFIG eq_refl) as (c & Hc & _ & _ & _ & H & _).
  injection Hc as <-. apply H; [reflexivity | discriminate].
Defined.

(** X2. An identifier that the extraction returns is never empty, contains
    no underscore and has no white space at either end. *)
Theorem extracted_identifier_shape
        (pd : Pandas) (excel_df : DataFrame) (config : ParserConfig)
        (ean : string) :
  extract_ean_from_excel pd excel_df config = Ok ean ->
  ean <> "" /\ PyStr.contains "_" ean = false /\ stripped ean.
Proof.
  intros H.
  destruct (extract_ean_from_excel_Ok pd excel_df config ean H)
    as (c & _ & _ & _ & -> & Hne).
  split; [exact Hne |]. split.
  - unfold PyStr.strip. apply rstrip_no_sep, lstrip_no_sep.
    apply split_first_no_sep.
  - apply strip_idempotent.
Qed.

Lemma extracted_identifier_shape_witness :
  extract_ean_from_excel Iso.pandas Examples.sheet DEFAULT_CONFIG
  = Ok Examples.ean
  /\ Examples.ean <> ""
  /\ PyStr.contains "_" Examples.ean = false
  /\ stripped Examples.ean.
Proof.
  split; [reflexivity |].
  apply (extracted_identifier_shape Iso.pandas Examples.sheet DEFAULT_CONFIG).
  reflexivity.
Defined.

(* ------------------------------------------------------------------ *)
(** ** Further properties: the locators *)

(** The scan answers the first row within the limit that has the marker. *)
Lemma find_marker_row_Some (pd : Pandas) (marker : string) (limit : nat)
      (df : DataFrame) (h : nat) :
  find_marker_row pd marker limit df = Some h ->
  (h < limit)%nat /\ (h < length (rows df))%nat
  /\ row_has_marker pd marker (nth h (rows df) []) = true
  /\ forall h', (h' < h)%nat ->
                row_has_marker pd marker (nth h' (rows df) []) = false.
Proof.
  unfold find_marker_row. intros H.
  destruct (find_index_some [] _ _ _ _ H) as (Hb & Hp & Hn).
  rewrite Nat.sub_0_r in *. rewrite length_firstn in Hb.
  rewrite nth_firstn in Hp.
  destruct (Nat.ltb_spec h limit) as [Hl|Hl]; [| lia].
  repeat split; try lia; try assumption.
  intros h' Hh'. specialize (Hn h' Hh'). rewrite nth_firstn in Hn.
  destruct (Nat.ltb_spec h' limit); [exact Hn | lia].
Qed.

Lemma find_marker_row_None (pd : Pandas) (marker : string) (limit : nat)
      (df : DataFrame) :
  find_marker_row pd marker limit df = None ->
  forall h, (h < limit)%nat -> (h < length (rows df))%nat ->
            row_has_marker pd marker (nth h (rows df) []) = false.
Proof.
  unfold find_marker_row. intros H h Hl Hr.
  pose proof (find_index_none [] _ _ _ H h) as Hn.
  rewrite length_firstn, nth_firstn in Hn.
  destruct (Nat.ltb_spec h limit); [apply Hn; lia | lia].
Qed.

(** X3. The data-start row is always between 1 and 6: it is the row after
    the first of the first six rows that has a cell containing "profile
    description", whatever comes later in the sheet, and row 4 when none of
    them has one. *)
Theorem find_data_start_row_bounds (pd : Pandas) (excel_df : DataFrame) :
  let r := find_data_start_row pd excel_df in
  (1 <= r <= 6)%nat
  /\ ((exists h,
          (h < 6)%nat /\ (h < length (rows excel_df))%nat /\ r = (h + 1)%nat
          /\ row_has_marker pd "profile description"
                            (nth h (rows excel_df) []) = true
          /\ forall h', (h' < h)%nat ->
                        row_has_marker pd "profile description"
                                       (nth h' (rows excel_df) []) = false)
      \/ (r = 4%nat
          /\ forall h, (h < 6)%nat -> (h < length (rows excel_df))%nat ->
                       row_has_marker pd "profile description"
                                      (nth h (rows excel_df) []) = false)).
Proof.
  cbv zeta. unfold find_data_start_row.
  destruct (find_marker_row pd "profile description" 6 excel_df) as [h|] eqn:E.
  - destruct (find_marker_row_Some _ _ _ _ _ E) as (Hl & Hr & Hp & Hn).
    split; [lia |]. left. exists h. repeat split; assumption.
  - split; [lia |]. right. split; [reflexivity |].
    apply (find_marker_row_None _ _ _ _ E).
Qed.

(** X4. The value-column locator succeeds exactly when the sheet has at
    least two rows, one of the first five rows has a cell containing "role
    description", and the first such row has a cell whose stripped text
    equals the consumption type; it answers the leftmost such cell. *)
Theorem find_consumption_column_first_match
        (pd : Pandas) (excel_df : DataFrame) (consumption_type : string)
        (col : nat) :
  find_consumption_column pd excel_df consumption_type = Ok col <->
  (2 <= length (rows excel_df))%nat
  /\ exists h,
      find_marker_row pd "role description" 5 excel_df = Some h
      /\ is_first
           (fun c =>
              let v := nth c (nth h (rows excel_df) []) Empty in
              notna v && String.eqb (PyStr.strip (str pd v)) consumption_type)
           (length (nth h (rows excel_df) [])) col.
Proof.
  unfold find_consumption_column.
  destruct (Nat.ltb_spec (length (rows excel_df)) 2) as [Hlt|Hge].
  - split; [discriminate | intros [H _]; lia].
  - destruct (find_marker_row pd "role description" 5 excel_df) as [h|] eqn:Hh.
    + set (p := fun v => notna v
                         && String.eqb (PyStr.strip (str pd v)) consumption_type).
      destruct (find_index p (nth h (rows excel_df) []) 0) as [c|] eqn:Hc.
      * destruct (find_index_some Empty _ _ _ _ Hc) as (Hb & Hp & Hn).
        rewrite Nat.sub_0_r in *.
        assert (Hfirst : is_first (fun i => p (nth i (nth h (rows excel_df) [])
                                                  Empty))
                                  (length (nth h (rows excel_df) [])) c)
          by (repeat split; [lia | exact Hp | exact Hn]).
        split.
        -- intros [= <-]. split; [exact Hge |]. exists h. now split.
        -- intros (_ & h' & [= <-] & Hf').
           pose proof (find_index_is_first Empty p _ col Hf') as E.
           congruence.
      * split; [discriminate |].
        intros (_ & h' & [= <-] & Hf').
        pose proof (find_index_is_first Empty p _ col Hf') as E.
        congruence.
    + split; [discriminate | intros (_ & h & Hh' & _); discriminate].
Qed.

(** X5. When the header row is found but the consumption type is not, the
    error names the header row counted from 1 and lists, left to right, the
    stripped text of every non-empty header cell that starts with "MEASURED";
    none of the listed types is the one asked for. *)
Theorem find_consumption_column_lists_measured
        (pd : Pandas) (excel_df : DataFrame) (consumption_type : string)
        (asked : string) (header_row_number : nat)
        (available_types : list string) :
  find_consumption_column pd excel_df consumption_type
  = Err (ValueError
           (ConsumptionTypeNotFound asked header_row_number available_types)
           None) ->
  asked = consumption_type
  /\ exists h,
      find_marker_row pd "role description" 5 excel_df = Some h
      /\ header_row_number = (h + 1)%nat
      /\ available_types
         = map (fun c => PyStr.strip (str pd c))
               (filter (fun c => notna c
                                 && String.prefix "MEASURED"
                                      (PyStr.strip (str pd c)))
                       (nth h (rows excel_df) []))
      /\ Forall (fun t => String.prefix "MEASURED" t = true
                          /\ t <> consumption_type) available_types.
Proof.
  unfold find_consumption_column.
  destruct (length (rows excel_df) <? 2)%nat; [discriminate |].
  destruct (find_marker_row pd "role description" 5 excel_df) as [h|] eqn:Hh;
    [| discriminate].
  set (p := fun v => notna v
                     && String.eqb (PyStr.strip (str pd v)) consumption_type).
  destruct (find_index p (nth h (rows excel_df) []) 0) as [c|] eqn:Hc;
    [discriminate |].
  intros [= <- <- <-]. split; [reflexivity |].
  exists h. repeat split.
  apply Forall_forall. intros t Ht.
  apply in_map_iff in Ht. destruct Ht as (v & <- & Hv).
  apply filter_In in Hv. destruct Hv as [Hin Hv].
  apply andb_true_iff in Hv. destruct Hv as [Hna Hpre].
  split; [exact Hpre |].
  destruct (In_nth _ _ Empty Hin) as (i & Hi & Hnth).
  pose proof (find_index_none Empty _ _ _ Hc i Hi) as Hp.
  rewrite Hnth in Hp. unfold p in Hp. rewrite Hna in Hp. simpl in Hp.
  intros E. rewrite E, String.eqb_refl in Hp. discriminate.
Qed.

Lemma find_consumption_column_lists_measured_witness :
  find_consumption_column Iso.pandas Examples.two_measures
    "MEASURED REACTIVE CONSUMPTION"
  = Err (ValueError
           (ConsumptionTypeNotFound "MEASURED REACTIVE CONSUMPTION" 1
              ["MEASURED ACTIVE CONSUMPTION"; "MEASURED ACTIVE PRODUCTION"])
           None)
  /\ Forall (fun t => String.prefix "MEASURED" t = true
                      /\ t <> "MEASURED REACTIVE CONSUMPTION")
            ["MEASURED ACTIVE CONSUMPTION"; "MEASURED ACTIVE PRODUCTION"].
Proof.
  split; [reflexivity |].
  destruct (find_consumption_column_lists_measured Iso.pandas
              Examples.two_measures "MEASURED REACTIVE CONSUMPTION"
              "MEASURED REACTIVE CONSUMPTION" 1
              ["MEASURED ACTIVE CONSUMPTION"; "MEASURED ACTIVE PRODUCTION"]
              eq_refl) as (_ & h & _ & _ & _ & H).
  exact H.
Defined.

(** X6. On a rectangular sheet the timestamp-column locator never raises.
    The column it answers is a column of the sheet whenever the sheet has
    one, and column 0 on a sheet without columns. *)
Theorem find_timestamp_column_in_bounds (pd : Pandas) (excel_df : DataFrame) :
  rectangular excel_df ->
  exists col,
    find_timestamp_column pd excel_df = Ok col
    /\ ((0 < ncols excel_df)%nat -> (col < ncols excel_df)%nat)
    /\ (ncols excel_df = 0%nat -> col = 0%nat).
Proof.
  intros Hr. destruct (Nat.eq_dec (ncols excel_df) 0) as [H0|Hpos].
  - exists 0%nat. split; [| split; [lia | reflexivity]].
    unfold find_timestamp_column.
    destruct (find_marker_row pd "role description" 5 excel_df) as [h|] eqn:Hh.
    + pose proof (find_marker_row_ncols _ _ _ _ _ Hr Hh). lia.
    + unfold first_columns. rewrite H0. reflexivity.
  - destruct (find_timestamp_column_ok pd excel_df Hr) as (c & Hc & Hlt);
      [lia |].
    exists c. split; [exact Hc |]. split; [intros _; exact Hlt | lia].
Qed.

Lemma find_timestamp_column_in_bounds_witness :
  rectangular Examples.sheet
  /\ exists col,
      find_timestamp_column Iso.pandas Examples.sheet = Ok col
      /\ ((0 < ncols Examples.sheet)%nat -> (col < ncols Examples.sheet)%nat)
      /\ (ncols Examples.sheet = 0%nat -> col = 0%nat).
Proof.
  assert (Hr : rectangular Examples.sheet) by (repeat constructor).
  split; [exact Hr |].
  apply (find_timestamp_column_in_bounds Iso.pandas Examples.sheet Hr).
Defined.

(* ------------------------------------------------------------------ *)
(** ** Further properties: extraction and splitting *)

(** X7. On a rectangular sheet the extraction fails in two situations only.
    Either the value column is not located: the error then chains the
    locator's error, which is one of "not enough rows", "header row not
    found" and "consumption type not found". Or a start date is set and
    pandas reads the timestamp column with a time zone: the comparison with
    the start date then raises a [TypeError], which the error chains. The
    length check at the end of the extraction never fires. *)
Theorem extraction_failure_causes
        (pd : Pandas) (excel_df : DataFrame) (config : ParserConfig)
        (consumption_type : string) :
  rectangular excel_df ->
  (forall e,
      extract_data_from_excel pd excel_df config consumption_type = Err e ->
      (exists m,
          find_consumption_column pd excel_df consumption_type
          = Err (ValueError m None)
          /\ e = ValueError FailedToExtractData (Some (ValueError m None))
          /\ (m = NotEnoughRows \/ m = HeaderRowNotFound
              \/ exists h available,
                  m = ConsumptionTypeNotFound consumption_type h available))
      \/ (exists value_col timestamp_col start timestamps_dt,
             find_consumption_column pd excel_df consumption_type
             = Ok value_col
             /\ find_timestamp_column pd excel_df = Ok timestamp_col
             /\ start_date config = Some start
             /\ datetime_of_series_coerce pd
                  (column_of timestamp_col (data_region pd excel_df))
                = Aware timestamps_dt
             /\ e = ValueError FailedToExtractData (Some TypeError)))
  /\ (forall e0,
         find_consumption_column pd excel_df consumption_type = Err e0 ->
         extract_data_from_excel pd excel_df config consumption_type
         = Err (ValueError FailedToExtractData (Some e0)))
  /\ (forall value_col,
         find_consumption_column pd excel_df consumption_type = Ok value_col ->
         start_date config = None ->
         is_ok (extract_data_from_excel pd excel_df config consumption_type)
         = true)
  /\ (forall value_col timestamp_col start,
         find_consumption_column pd excel_df consumption_type = Ok value_col ->
         find_timestamp_column pd excel_df = Ok timestamp_col ->
         start_date config = Some start ->
         (is_ok (extract_data_from_excel pd excel_df config consumption_type)
          = true
          <-> exists timestamps_dt,
              datetime_of_series_coerce pd
                (column_of timestamp_col (data_region pd excel_df))
              = Naive timestamps_dt)).
Proof.
  intros Hr.
  assert (Hfail : forall e0,
             find_consumption_column pd excel_df consumption_type = Err e0 ->
             extract_data_from_excel pd excel_df config consumption_type
             = Err (ValueError FailedToExtractData (Some e0))).
  { intros e0 Hv. unfold extract_data_from_excel. now rewrite Hv. }
  split; [| split; [exact Hfail | split]].
  - intros e He.
    destruct (find_consumption_column pd excel_df consumption_type)
      as [vcol|e0] eqn:Hv.
    + right.
      destruct (extract_data_from_excel_ok pd excel_df config
                  consumption_type vcol Hr Hv) as (tcol & Ht & _ & _ & H).
      cbv zeta in H.
      destruct (start_date config) as [start|]; [| congruence].
      destruct (datetime_of_series_coerce pd
                  (column_of tcol (data_region pd excel_df)))
        as [dts|dts] eqn:Hdts.
      * destruct H as [_ H]. congruence.
      * exists vcol, tcol, start, dts. repeat split; congruence.
    + left. rewrite (Hfail e0 eq_refl) in He. injection He as <-.
      revert Hv. unfold find_consumption_column.
      destruct (length (rows excel_df) <? 2)%nat.
      * intros [= <-]. exists NotEnoughRows. repeat split. now left.
      * destruct (find_marker_row pd "role description" 5 excel_df) as [h|].
        -- match goal with
           | |- context [find_index ?p ?l 0] => destruct (find_index p l 0)
           end; [discriminate |].
           intros [= <-]. eexists. repeat split. right. right. eauto.
        -- intros [= <-]. exists HeaderRowNotFound. repeat split.
           right. now left.
  - intros vcol Hv Hnone.
    destruct (extract_data_from_excel_ok pd excel_df config
                consumption_type vcol Hr Hv) as (tcol & _ & _ & _ & H).
    cbv zeta in H. rewrite Hnone in H. now rewrite H.
  - intros vcol tcol start Hv Ht Hsome.
    destruct (extract_data_from_excel_ok pd excel_df config
                consumption_type vcol Hr Hv) as (tcol' & Ht' & _ & _ & H).
    rewrite Ht in Ht'. injection Ht' as <-.
    cbv zeta in H. rewrite Hsome in H.
    destruct (datetime_of_series_coerce pd
                (column_of tcol (data_region pd excel_df))) as [dts|dts].
    + destruct H as [_ H]. rewrite H. split; [intros _; now exists dts | easy].
    + rewrite H. split; [discriminate | intros [dts' Hd]; discriminate Hd].
Qed.

Lemma extraction_failure_causes_witness :
  rectangular Examples.headerless
  /\ extract_data_from_excel Iso.pandas Examples.headerless DEFAULT_CONFIG
       "MEASURED ACTIVE CONSUMPTION"
     = Err (ValueError FailedToExtractData
              (Some (ValueError HeaderRowNotFound None)))
  /\ find_consumption_column Iso.pandas Examples.headerless
       "MEASURED ACTIVE CONSUMPTION" = Err (ValueError HeaderRowNotFound None).
Proof.
  assert (Hr : rectangular Examples.headerless) by (repeat constructor).
  split; [exact Hr |].
  destruct (extraction_failure_causes Iso.pandas
              Examples.headerless DEFAULT_CONFIG "MEASURED ACTIVE CONSUMPTION"
              Hr) as (_ & H & _).
  split; [| reflexivity].
  apply H. reflexivity.
Defined.

(** A mask that holds only where another holds selects from the selection of
    the other. *)
Lemma select_refine {A B} (p q : B -> bool) (l : list A) (ds : list B) :
  (forall d, q d = true -> p d = true) ->
  select l (map q ds)
  = select (select l (map p ds)) (select (map q ds) (map p ds)).
Proof.
  intros H. revert ds. induction l as [|x l IH]; intros [|d ds]; simpl;
    try reflexivity.
  destruct (p d) eqn:Hp, (q d) eqn:Hq; simpl; rewrite ?Hq;
    try (now rewrite <- IH).
  rewrite (H d Hq) in Hp. discriminate.
Qed.

(** X9. Moving the start date later only removes rows. On the same sheet,
    when the extraction from the earlier date succeeds, the extraction from
    the later date succeeds as well, and its two series are the two series
    extracted from the earlier date with the same points left out of
    both. *)
Theorem later_start_date_keeps_fewer
        (pd : Pandas) (excel_df : DataFrame) (earlier later : ParserConfig)
        (consumption_type : string) (value_col : nat) (d1 d2 : Timestamp) :
  start_date earlier = Some d1 ->
  start_date later = Some d2 ->
  Calendar.to_seconds d1 <= Calendar.to_seconds d2 ->
  rectangular excel_df ->
  find_consumption_column pd excel_df consumption_type = Ok value_col ->
  is_ok (extract_data_from_excel pd excel_df earlier consumption_type)
  = true ->
  exists timestamps values keep,
    extract_data_from_excel pd excel_df earlier consumption_type
    = Ok (timestamps, values)
    /\ length keep = length timestamps
    /\ extract_data_from_excel pd excel_df later consumption_type
       = Ok (select timestamps keep, select values keep).
Proof.
  intros H1 H2 Hle Hr Hv Hok.
  destruct (extract_data_from_excel_ok pd excel_df earlier consumption_type
              value_col Hr Hv) as (tcol & Ht & _ & _ & He1).
  destruct (extract_data_from_excel_ok pd excel_df later consumption_type
              value_col Hr Hv) as (tcol' & Ht' & _ & _ & He2).
  rewrite Ht in Ht'. injection Ht' as <-.
  cbv zeta in He1, He2. rewrite H1 in He1. rewrite H2 in He2.
  destruct (datetime_of_series_coerce pd
              (column_of tcol (data_region pd excel_df))) as [dts|dts].
  2:{ rewrite He1 in Hok. discriminate Hok. }
  destruct He1 as [Hlen He1]. destruct He2 as [_ He2].
  assert (Himp : forall d, on_or_after d2 d = true -> on_or_after d1 d = true).
  { intros d Hd. apply on_or_after_iff in Hd. destruct Hd as (t & -> & Hd).
    apply on_or_after_iff. exists t. split; [reflexivity | lia]. }
  eexists _, _,
    (select (map (on_or_after d2) dts) (map (on_or_after d1) dts)).
  split; [exact He1 |]. split.
  - apply length_select_eq. unfold column_of. rewrite !length_map.
    exact Hlen.
  - rewrite He2. f_equal. f_equal; now apply select_refine.
Qed.

Lemma later_start_date_keeps_fewer_witness :
  Calendar.to_seconds Examples.monday_0659
  <= Calendar.to_seconds Examples.monday_0700
  /\ exists timestamps values keep,
      extract_data_from_excel Iso.pandas Examples.sheet
        (mkParserConfig 0 0 1 4 0 2 6 3 (Some Examples.monday_0659))
        "MEASURED ACTIVE CONSUMPTION"
      = Ok (timestamps, values)
      /\ length keep = length timestamps
      /\ extract_data_from_excel Iso.pandas Examples.sheet
           Examples.from_monday_0700 "MEASURED ACTIVE CONSUMPTION"
         = Ok (select timestamps keep, select values keep).
Proof.
  split; [vm_compute; discriminate |].
  apply (later_start_date_keeps_fewer Iso.pandas Examples.sheet
           (mkParserConfig 0 0 1 4 0 2 6 3 (Some Examples.monday_0659))
           Examples.from_monday_0700 "MEASURED ACTIVE CONSUMPTION" 2%nat
           Examples.monday_0659 Examples.monday_0700);
    try reflexivity.
  - vm_compute; discriminate.
  - repeat constructor.
Defined.

(** The series a mask over the timestamps read selects is the series of the
    points whose timestamp read passes the test. *)
Lemma select_points {A B} (f : B -> bool) (l : list A) (ds : list B) :
  select l (map f ds)
  = map fst (filter (fun p => f (snd p)) (combine l ds)).
Proof.
  revert ds. induction l as [|x l IH]; intros [|d ds]; simpl;
    try reflexivity.
  destruct (f d); simpl; now rewrite IH.
Qed.

Lemma is_peak_hour_weekday_daytime (d : datetime_like) :
  is_peak_hour d = true -> weekday_daytime d.
Proof.
  destruct d as [t|]; [| discriminate].
  rewrite is_peak_hour_Ts. intros H. exists t. split; [reflexivity |].
  apply andb_true_iff in H. destruct H as [Hw Hh].
  apply andb_true_iff in Hh. destruct Hh as [H7 H22].
  apply negb_true_iff, Z.leb_gt in Hw.
  apply Z.leb_le in H7. apply Z.ltb_lt in H22. lia.
Qed.

(** X10. Take a column of timestamps that has a point and that pandas
    accepts, and pair each timestamp with the time pandas read for it. The
    peak series holds, in order, the timestamps read as a Monday-to-Friday
    time with an hour from 7 to 21, and the off-peak series the others. A
    timestamp read as missing ([NaT]) or as a time on a Saturday or Sunday
    has its point in the off-peak series. *)
Theorem peak_series_is_weekday_daytime
        (pd : Pandas) (timestamps : list cell) (values : list (option Q))
        (timestamps_dt : list datetime_like) :
  timestamps <> [] ->
  length timestamps = length values ->
  to_datetime_series pd timestamps = Ok timestamps_dt ->
  exists peak_timestamps peak_values offpeak_timestamps offpeak_values,
    split_data_by_period pd timestamps values
    = Ok ((peak_timestamps, peak_values),
          (offpeak_timestamps, offpeak_values))
    /\ let points := combine timestamps timestamps_dt in
       let peak := filter (fun p => is_peak_hour (snd p)) points in
       let offpeak := filter (fun p => negb (is_peak_hour (snd p))) points in
       peak_timestamps = map fst peak
       /\ offpeak_timestamps = map fst offpeak
       /\ Forall (fun p => weekday_daytime (snd p)) peak
       /\ (forall c, In (c, NaT) points -> In (c, NaT) offpeak)
       /\ (forall c t, In (c, Ts t) points -> 5 <= Calendar.weekday t ->
                       In (c, Ts t) offpeak).
Proof.
  intros _ Hlen Hdt.
  pose proof (split_data_by_period_ok pd timestamps values timestamps_dt
                Hlen Hdt) as Hs.
  cbv zeta in Hs.
  eexists _, _, _, _. split; [exact Hs |]. cbv zeta.
  split; [apply select_points |]. split.
  { rewrite map_map. apply (select_points (fun d => negb (is_peak_hour d))). }
  split; [| split].
  - apply Forall_forall. intros p Hp. apply filter_In in Hp.
    now apply is_peak_hour_weekday_daytime.
  - intros c Hin. apply filter_In. split; [exact Hin | reflexivity].
  - intros c t Hin Hw. apply filter_In. split; [exact Hin |].
    cbn [snd]. rewrite is_peak_hour_Ts.
    apply Z.leb_le in Hw. now rewrite Hw.
Qed.

Lemma peak_series_is_weekday_daytime_witness :
  length [Empty; DateTime Examples.saturday_1200;
          DateTime Examples.monday_0700]
  = length [Some (1 # 1); Some (2 # 1); Some (3 # 1)]
  /\ split_data_by_period Iso.pandas
       [Empty; DateTime Examples.saturday_1200;
        DateTime Examples.monday_0700]
       [Some (1 # 1); Some (2 # 1); Some (3 # 1)]
     = Ok (([DateTime Examples.monday_0700], [Some (3 # 1)]),
           ([Empty; DateTime Examples.saturday_1200],
            [Some (1 # 1); Some (2 # 1)]))
  /\ weekday_daytime (Ts Examples.monday_0700).
Proof.
  split; [reflexivity |]. split; [reflexivity |].
  destruct (peak_series_is_weekday_daytime Iso.pandas
              [Empty; DateTime Examples.saturday_1200;
               DateTime Examples.monday_0700]
              [Some (1 # 1); Some (2 # 1); Some (3 # 1)]
              [NaT; Ts Examples.saturday_1200; Ts Examples.monday_0700])
    as (pt & pv & ot & ov & _ & _ & _ & Hpeak & _).
  - discriminate.
  - reflexivity.
  - reflexivity.
  - cbv zeta in Hpeak. rewrite Forall_forall in Hpeak.
    apply (Hpeak (DateTime Examples.monday_0700, Ts Examples.monday_0700)).
    simpl. tauto.
Defined.

(* ------------------------------------------------------------------ *)
(** ** Further properties: the mapping resolver *)

Lemma mem_true_get (d : mapping_dict) (k : string) :
  mem k d = true -> exists m, get d k = Some m.
Proof.
  intros H. destruct (get d k) as [m|] eqn:E; [now exists m |].
  apply get_None_iff_mem in E. congruence.
Qed.

Lemma get_In (d : mapping_dict) (k : string) (m : EANMapping) :
  get d k = Some m -> In (k, m) d.
Proof.
  induction d as [|[k' v] d IH]; simpl; [discriminate |].
  destruct (String.eqb_spec k k') as [->|Hne].
  - intros [= ->]. now left.
  - intros H. right. now apply IH.
Qed.

(** X11. A record the resolver returns is an entry of the table, stored
    under the variant key of the period asked for or, when that key is
    absent or no period is given, under the bare identifier. It is never
    taken from the key of the other period. *)
Theorem find_ean_mapping_sound
        (ean : string) (ean_mapping : mapping_dict) (is_peak : option bool)
        (mapping : EANMapping) :
  find_ean_mapping ean ean_mapping is_peak = Ok mapping ->
  (is_peak = Some true
   /\ get ean_mapping (ean ++ "_peak") = Some mapping
   /\ In ((ean ++ "_peak")%string, mapping) ean_mapping)
  \/ (is_peak = Some false
      /\ get ean_mapping (ean ++ "_offpeak") = Some mapping
      /\ In ((ean ++ "_offpeak")%string, mapping) ean_mapping)
  \/ (get ean_mapping ean = Some mapping
      /\ In (ean, mapping) ean_mapping
      /\ match is_peak with
         | Some true => get ean_mapping (ean ++ "_peak") = None
         | Some false => get ean_mapping (ean ++ "_offpeak") = None
         | None => True
         end).
Proof.
  unfold find_ean_mapping.
  destruct is_peak as [[|]|].
  - destruct (get ean_mapping (ean ++ "_peak")) as [m|] eqn:Ev.
    + intros [= ->]. left. repeat split. now apply get_In.
    + destruct (get ean_mapping ean) as [m|] eqn:Eb.
      * intros [= ->]. right. right. repeat split. now apply get_In.
      * destruct (_ || _); [discriminate |].
        destruct (filter _ _); discriminate.
  - destruct (get ean_mapping (ean ++ "_offpeak")) as [m|] eqn:Ev.
    + intros [= ->]. right. left. repeat split. now apply get_In.
    + destruct (get ean_mapping ean) as [m|] eqn:Eb.
      * intros [= ->]. right. right. repeat split. now apply get_In.
      * destruct (_ || _); [discriminate |].
        destruct (filter _ _); discriminate.
  - destruct (get ean_mapping ean) as [m|] eqn:Eb.
    + intros [= ->]. right. right. repeat split. now apply get_In.
    + destruct (_ || _); [discriminate |].
      destruct (filter _ _); discriminate.
Qed.

Lemma find_ean_mapping_sound_witness :
  find_ean_mapping Examples.ean Examples.dual_tariff (Some true)
  = Ok Examples.peak_record
  /\ In ((Examples.ean ++ "_peak")%string, Examples.peak_record)
        Examples.dual_tariff.
Proof.
  split; [reflexivity |].
  destruct (find_ean_mapping_sound Examples.ean Examples.dual_tariff
              (Some true) Examples.peak_record eq_refl)
    as [(_ & _ & H) | [(E & _) | (E & _)]];
    [exact H | discriminate E | discriminate E].
Defined.

(** A dual-tariff identifier resolves for both periods, to the records of
    its two variant keys. *)
Lemma has_variants_lookups (ean : string) (ean_mapping : mapping_dict) :
  has_peak_offpeak_variants ean ean_mapping = true ->
  exists p o,
    get ean_mapping (ean ++ "_peak") = Some p
    /\ get ean_mapping (ean ++ "_offpeak") = Some o
    /\ find_ean_mapping ean ean_mapping (Some true) = Ok p
    /\ find_ean_mapping ean ean_mapping (Some false) = Ok o.
Proof.
  unfold has_peak_offpeak_variants. intros H.
  apply andb_true_iff in H. destruct H as [Hp Ho].
  destruct (mem_true_get _ _ Hp) as [p Ep].
  destruct (mem_true_get _ _ Ho) as [o Eo].
  exists p, o. unfold find_ean_mapping. now rewrite Ep, Eo.
Qed.

(** X12. With a period given the resolver prefers the variant key to the
    bare identifier, falls back to the bare identifier when the variant key
    is absent, and, when both are absent while the key of the other period
    is present, fails with "has bi-hourly variants but '<period>' mapping not
    found", naming the period asked for. For an identifier that has both
    variants the lookup of either period therefore succeeds, with the record
    of that period's key. *)
Theorem find_ean_mapping_with_period
        (ean : string) (ean_mapping : mapping_dict) (peak : bool) :
  let suffix := if peak then "_peak" else "_offpeak" in
  let other := if peak then "_offpeak" else "_peak" in
  (forall m, get ean_mapping (ean ++ suffix) = Some m ->
             find_ean_mapping ean ean_mapping (Some peak) = Ok m)
  /\ (forall m, get ean_mapping (ean ++ suffix) = None ->
                get ean_mapping ean = Some m ->
                find_ean_mapping ean ean_mapping (Some peak) = Ok m)
  /\ (get ean_mapping (ean ++ suffix) = None ->
      get ean_mapping ean = None ->
      mem (ean ++ other) ean_mapping = true ->
      find_ean_mapping ean ean_mapping (Some peak)
      = Err (KeyError
               (VariantNotFound ean (if peak then "peak" else "offpeak"))
               None))
  /\ (has_peak_offpeak_variants ean ean_mapping = true ->
      exists m, get ean_mapping (ean ++ suffix) = Some m
                /\ find_ean_mapping ean ean_mapping (Some peak) = Ok m).
Proof.
  cbv zeta. repeat split.
  - intros m H. unfold find_ean_mapping. now rewrite H.
  - intros m Hv Hb. unfold find_ean_mapping. now rewrite Hv, Hb.
  - intros Hv Hb Ho. unfold find_ean_mapping. rewrite Hv, Hb.
    apply get_None_iff_mem in Hv.
    destruct peak; rewrite Hv, Ho; reflexivity.
  - intros H. destruct (has_variants_lookups ean ean_mapping H)
      as (p & o & Hp & Ho & Hfp & Hfo).
    destruct peak; [exists p | exists o]; now split.
Qed.

(* ------------------------------------------------------------------ *)
(** ** Further properties: the files written *)

Lemma create_output_dataframe_rows (timestamps : list cell)
      (values : list (option Q)) (ean : string) (mapping : EANMapping) :
  Forall (row_of ean mapping)
         (create_output_dataframe timestamps values ean mapping).
Proof.
  apply Forall_forall. intros r Hr. unfold create_output_dataframe in Hr.
  apply in_map_iff in Hr. destruct Hr as ([d v] & <- & _).
  repeat split.
Qed.

(** X13. In the dual-tariff path, on a sheet that passes validation and both
    extractions, with at least one point and a column of timestamps that
    pandas accepts, the conversion writes at most two files, the peak file
    before the off-peak file, and none for a period without points. The
    dates of the peak file are, in order, the timestamps whose reading the
    classifier calls peak, and its rows carry the source and variable of the
    [_peak] key; the dates of the off-peak file are the other timestamps,
    and its rows carry the source and variable of the [_offpeak] key; the
    rows of the two files add up to the length of the extracted series. *)
Theorem dual_tariff_files
        (pd : Pandas) (excel_df : DataFrame) (ean_mapping : mapping_dict)
        (config : ParserConfig) (consumption_type : string)
        (ean : string) (timestamps : list cell) (values : list (option Q))
        (timestamps_dt : list datetime_like) :
  validate_excel_structure excel_df config = Ok tt ->
  extract_ean_from_excel pd excel_df config = Ok ean ->
  has_peak_offpeak_variants ean ean_mapping = true ->
  extract_data_from_excel pd excel_df config consumption_type
  = Ok (timestamps, values) ->
  timestamps <> [] ->
  to_datetime_series pd timestamps = Ok timestamps_dt ->
  exists peak_mapping offpeak_mapping peak_rows offpeak_rows,
    get ean_mapping (ean ++ "_peak") = Some peak_mapping
    /\ get ean_mapping (ean ++ "_offpeak") = Some offpeak_mapping
    /\ parse_renewgy_excel_to_csv pd excel_df ean_mapping (Some config)
                                  consumption_type
       = Ok ((if (0 <? length peak_rows)%nat
              then [("_peak", peak_rows)] else [])
             ++ (if (0 <? length offpeak_rows)%nat
                 then [("_offpeak", offpeak_rows)] else []))%list
    /\ Forall (row_of ean peak_mapping) peak_rows
    /\ map date peak_rows
       = select timestamps (map is_peak_hour timestamps_dt)
    /\ Forall (row_of ean offpeak_mapping) offpeak_rows
    /\ map date offpeak_rows
       = select timestamps (map negb (map is_peak_hour timestamps_dt))
    /\ (length peak_rows + length offpeak_rows)%nat = length timestamps.
Proof.
  intros Hval Hean Hdual Hext _ Hdt.
  pose proof (extract_data_from_excel_lengths _ _ _ _ _ _ Hext) as Hlen.
  pose proof (to_datetime_series_length pd timestamps timestamps_dt Hdt) as Hl.
  destruct (has_variants_lookups ean ean_mapping Hdual)
    as (p & o & Hp & Ho & Hfp & Hfo).
  pose proof (split_data_by_period_ok pd timestamps values timestamps_dt
                Hlen Hdt) as Hs.
  cbv zeta in Hs.
  set (mask := map is_peak_hour timestamps_dt) in *.
  assert (Hm : length timestamps = length mask)
    by (unfold mask; now rewrite length_map).
  assert (Hlp : length (select timestamps mask) = length (select values mask))
    by (now apply length_select_eq).
  assert (Hlo : length (select timestamps (map negb mask))
                = length (select values (map negb mask)))
    by (now apply length_select_eq).
  destruct (create_output_dataframe_columns (select timestamps mask)
              (select values mask) ean p Hlp) as (Hdp & _ & Hnp).
  destruct (create_output_dataframe_columns
              (select timestamps (map negb mask))
              (select values (map negb mask)) ean o Hlo) as (Hdo & _ & Hno).
  exists p, o,
    (create_output_dataframe (select timestamps mask) (select values mask)
                             ean p),
    (create_output_dataframe (select timestamps (map negb mask))
                             (select values (map negb mask)) ean o).
  split; [exact Hp |]. split; [exact Ho |].
  split; [| split; [| split; [| split; [| split]]]].
  - unfold parse_renewgy_excel_to_csv.
    rewrite Hval, Hean. cbn [bind]. rewrite Hdual, Hext. cbn [bind].
    rewrite Hs. cbn [bind]. rewrite Hfp, Hfo. cbn [bind].
    rewrite Hnp, Hno, Hlp, Hlo. reflexivity.
  - apply create_output_dataframe_rows.
  - exact Hdp.
  - apply create_output_dataframe_rows.
  - exact Hdo.
  - rewrite Hnp, Hno. now apply length_select_split.
Qed.

Lemma dual_tariff_files_witness :
  exists peak_rows offpeak_rows,
    parse_renewgy_excel_to_csv Iso.pandas Examples.sheet Examples.dual_tariff
      (Some Examples.from_monday_0700) "MEASURED ACTIVE CONSUMPTION"
    = Ok ((if (0 <? length peak_rows)%nat
           then [("_peak", peak_rows)] else [])
          ++ (if (0 <? length offpeak_rows)%nat
              then [("_offpeak", offpeak_rows)] else []))%list
    /\ map date peak_rows = [Text "2024-01-01 07:00:00"]
    /\ (length peak_rows + length offpeak_rows)%nat
       = length Examples.filtered_timestamps.
Proof.
  destruct (dual_tariff_files Iso.pandas Examples.sheet Examples.dual_tariff
              Examples.from_monday_0700 "MEASURED ACTIVE CONSUMPTION"
              Examples.ean Examples.filtered_timestamps
              Examples.filtered_values
              [Ts Examples.monday_0700; Ts Examples.saturday_1200;
               Ts (mkTimestamp 2024 1 8 22 0 0)]
              eq_refl eq_refl eq_refl eq_refl)
    as (p & o & P & O & _ & _ & Hparse & _ & Hdates & _ & _ & Hsum).
  - discriminate.
  - reflexivity.
  - exists P, O. split; [exact Hparse |]. split; [exact Hdates | exact Hsum].
Defined.

(** X14. When the data-start row lies at or beyond the end of a valid sheet
    the extraction returns two empty series instead of failing, and the
    single-tariff path still writes its file, with no row. *)
Theorem empty_data_region_files
        (pd : Pandas) (excel_df : DataFrame) (ean_mapping : mapping_dict)
        (config : ParserConfig) (consumption_type : string)
        (ean : string) (value_col : nat) :
  rectangular excel_df ->
  validate_excel_structure excel_df config = Ok tt ->
  extract_ean_from_excel pd excel_df config = Ok ean ->
  find_consumption_column pd excel_df consumption_type = Ok value_col ->
  (length (rows excel_df) <= find_data_start_row pd excel_df)%nat ->
  extract_data_from_excel pd excel_df config consumption_type = Ok ([], [])
  /\ (forall mapping,
         has_peak_offpeak_variants ean ean_mapping = false ->
         find_ean_mapping ean ean_mapping None = Ok mapping ->
         parse_renewgy_excel_to_csv pd excel_df ean_mapping (Some config)
                                    consumption_type = Ok [("", [])]).
Proof.
  intros Hr Hval Hean Hv Hend.
  destruct (extract_data_from_excel_ok pd excel_df config consumption_type
              value_col Hr Hv) as (tcol & _ & _ & _ & H).
  assert (Hreg : data_region pd excel_df = [])
    by (unfold data_region; now apply skipn_all2).
  cbv zeta in H. rewrite Hreg in H. cbn [column_of map] in H.
  assert (He : extract_data_from_excel pd excel_df config consumption_type
               = Ok ([], [])).
  { destruct (start_date config) as [start|]; [| exact H].
    rewrite (datetime_of_series_coerce_nil pd) in H. apply H. }
  split; [exact He |].
  intros mapping Hsingle Hmap.
  unfold parse_renewgy_excel_to_csv.
  rewrite Hval, Hean. cbn [bind]. rewrite Hsingle, Hmap. cbn [bind].
  rewrite He. reflexivity.
Qed.

Lemma empty_data_region_files_witness :
  (length (rows MoreExamples.header_only)
   <= find_data_start_row Iso.pandas MoreExamples.header_only)%nat
  /\ parse_renewgy_excel_to_csv Iso.pandas MoreExamples.header_only
       Examples.single_tariff (Some MoreExamples.three_rows)
       "MEASURED ACTIVE CONSUMPTION" = Ok [("", [])].
Proof.
  assert (Hr : rectangular MoreExamples.header_only) by (repeat constructor).
  assert (Hend : (length (rows MoreExamples.header_only)
                  <= find_data_start_row Iso.pandas
                       MoreExamples.header_only)%nat)
    by (vm_compute; repeat constructor).
  split; [exact Hend |].
  destruct (empty_data_region_files Iso.pandas MoreExamples.header_only
              Examples.single_tariff MoreExamples.three_rows
              "MEASURED ACTIVE CONSUMPTION" Examples.ean 2%nat
              Hr eq_refl eq_refl eq_refl Hend) as (_ & H).
  apply (H Examples.plain_record); reflexivity.
Defined.

(** X15. In the single-tariff path a successful conversion writes exactly
    one file, under the requested name. Its rows are the extracted points in
    order; each row carries the identifier read from the sheet, the source
    and variable of the record stored under that bare identifier, and four
    empty reserved columns. *)
Theorem single_tariff_rows
        (pd : Pandas) (excel_df : DataFrame) (ean_mapping : mapping_dict)
        (config : ParserConfig) (consumption_type : string)
        (ean : string) (mapping : EANMapping)
        (timestamps : list cell) (values : list (option Q)) :
  validate_excel_structure excel_df config = Ok tt ->
  extract_ean_from_excel pd excel_df config = Ok ean ->
  has_peak_offpeak_variants ean ean_mapping = false ->
  find_ean_mapping ean ean_mapping None = Ok mapping ->
  extract_data_from_excel pd excel_df config consumption_type
  = Ok (timestamps, values) ->
  exists out,
    parse_renewgy_excel_to_csv pd excel_df ean_mapping (Some config)
                               consumption_type = Ok [("", out)]
    /\ map date out = timestamps
    /\ map value out = values
    /\ Forall (row_of ean mapping) out
    /\ get ean_mapping ean = Some mapping.
Proof.
  intros Hval Hean Hsingle Hmap Hext.
  pose proof (extract_data_from_excel_lengths _ _ _ _ _ _ Hext) as Hlen.
  exists (create_output_dataframe timestamps values ean mapping).
  destruct (create_output_dataframe_columns timestamps values ean mapping
              Hlen) as (Hd & Hv & _).
  split; [| split; [exact Hd | split; [exact Hv | split]]].
  - unfold parse_renewgy_excel_to_csv.
    rewrite Hval, Hean. cbn [bind]. rewrite Hsingle, Hmap. cbn [bind].
    rewrite Hext. reflexivity.
  - apply create_output_dataframe_rows.
  - revert Hmap. unfold find_ean_mapping.
    destruct (get ean_mapping ean) as [m|]; [now intros [= ->] |].
    destruct (_ || _); [discriminate |].
    destruct (filter _ _); discriminate.
Qed.

Lemma single_tariff_rows_witness :
  exists out,
    parse_renewgy_excel_to_csv Iso.pandas Examples.sheet
      Examples.single_tariff (Some DEFAULT_CONFIG)
      "MEASURED ACTIVE CONSUMPTION" = Ok [("", out)]
    /\ map value out = Examples.raw_values
    /\ Forall (row_of Examples.ean Examples.plain_record) out.
Proof.
  destruct (single_tariff_rows Iso.pandas Examples.sheet
              Examples.single_tariff DEFAULT_CONFIG
              "MEASURED ACTIVE CONSUMPTION" Examples.ean Examples.plain_record
              Examples.raw_timestamps Examples.raw_values
              eq_refl eq_refl eq_refl eq_refl eq_refl)
    as (out & Hp & _ & Hv & Hrows & _).
  exists out. repeat split; assumption.
Defined.

Lemma validate_excel_structure_raises (df : DataFrame) (config : ParserConfig)
      (e : exn) :
  validate_excel_structure df config = Err e -> is_KeyError e = false.
Proof.
  unfold validate_excel_structure, bind.
  destruct (_ <? min_rows config); [intros [= <-]; reflexivity |].
  destruct (_ <? min_cols config); [intros [= <-]; reflexivity |].
  destruct (iloc df (header_row config) (header_col config)) as [c|e0] eqn:E.
  - destruct (isna c); intros [= <-]. reflexivity.
  - intros [= <-]. revert E. unfold iloc.
    destruct (norm_index _ _); [destruct (norm_index _ _) |];
      intros [= <-]; reflexivity.
Qed.

Lemma extract_ean_from_excel_raises (pd : Pandas) (df : DataFrame)
      (config : ParserConfig) (e : exn) :
  extract_ean_from_excel pd df config = Err e -> is_KeyError e = false.
Proof.
  unfold extract_ean_from_excel, reraise_as_ValueError.
  destruct (bind _ _); intros H; inversion H; reflexivity.
Qed.

Lemma extract_data_from_excel_raises (pd : Pandas) (df : DataFrame)
      (config : ParserConfig) (consumption_type : string) (e : exn) :
  extract_data_from_excel pd df config consumption_type = Err e ->
  is_KeyError e = false.
Proof.
  unfold extract_data_from_excel, reraise_as_ValueError.
  destruct (bind _ _); intros H; inversion H; reflexivity.
Qed.

Lemma split_data_by_period_raises_no_KeyError (pd : Pandas)
      (timestamps : list cell) (values : list (option Q)) (e : exn) :
  split_data_by_period pd timestamps values = Err e -> is_KeyError e = false.
Proof.
  unfold split_data_by_period, bind, bool_index.
  destruct (to_datetime_series pd timestamps) as [ds|e0] eqn:E.
  - repeat match goal with
           | |- context [if ?x then _ else _] => destruct x
           end;
      intros H; inversion H; reflexivity.
  - intros [= <-].
    now rewrite (to_datetime_series_Err pd timestamps e0 E).
Qed.

Lemma find_ean_mapping_raises (ean : string) (ean_mapping : mapping_dict)
      (is_peak : option bool) (e : exn) :
  find_ean_mapping ean ean_mapping is_peak = Err e -> is_KeyError e = true.
Proof.
  unfold find_ean_mapping.
  repeat match goal with
         | |- context [match ?x with _ => _ end] => destruct x
         end;
    intros H; inversion H; reflexivity.
Qed.

(** X16. The conversion surfaces a [KeyError] in one situation only: the
    sheet passes validation, its identifier is read, the identifier does not
    have both tariff variants, and the lookup of the bare identifier fails.
    That lookup comes before the data are extracted, and the dual-tariff
    path never raises it. Every other failure is surfaced as a
    [ValueError]. *)
Theorem key_error_iff_unmapped_single_tariff
        (pd : Pandas) (excel_df : DataFrame) (ean_mapping : mapping_dict)
        (config : ParserConfig) (consumption_type : string) :
  ((exists cause,
       parse_renewgy_excel_to_csv pd excel_df ean_mapping (Some config)
                                  consumption_type
       = Err (KeyError EANNotFoundInMapping (Some cause)))
   <-> (validate_excel_structure excel_df config = Ok tt
        /\ exists ean,
            extract_ean_from_excel pd excel_df config = Ok ean
            /\ has_peak_offpeak_variants ean ean_mapping = false
            /\ is_ok (find_ean_mapping ean ean_mapping None) = false))
  /\ (forall e,
         parse_renewgy_excel_to_csv pd excel_df ean_mapping (Some config)
                                    consumption_type = Err e ->
         exists cause,
           e = KeyError EANNotFoundInMapping (Some cause)
           \/ e = ValueError InvalidDataFormat (Some cause)
           \/ e = ValueError ErrorProcessingExcelFile (Some cause)).
Proof.
  unfold parse_renewgy_excel_to_csv.
  destruct (validate_excel_structure excel_df config) as [[]|e0] eqn:Hval;
    cbn [bind].
  2:{ rewrite (validate_excel_structure_raises _ _ _ Hval). split.
      - split.
        + intros [c H]. destruct (is_ValueError e0); discriminate H.
        + intros [H _]. discriminate H.
      - intros e. destruct (is_ValueError e0); intros [= <-]; eauto. }
  destruct (extract_ean_from_excel pd excel_df config) as [ean|e0] eqn:Hean;
    cbn [bind].
  2:{ rewrite (extract_ean_from_excel_raises _ _ _ _ Hean). split.
      - split.
        + intros [c H]. destruct (is_ValueError e0); discriminate H.
        + intros (_ & ean & H & _). discriminate H.
      - intros e. destruct (is_ValueError e0); intros [= <-]; eauto. }
  destruct (has_peak_offpeak_variants ean ean_mapping) eqn:Hdual.
  - assert (Hno : forall r : result (list written_file),
               (forall e, r = Err e -> is_KeyError e = false) ->
               ((exists cause,
                    match r with
                    | Ok files => Ok files
                    | Err exc =>
                        if is_KeyError exc
                        then Err (KeyError EANNotFoundInMapping (Some exc))
                        else if is_ValueError exc
                             then Err (ValueError InvalidDataFormat (Some exc))
                             else Err (ValueError ErrorProcessingExcelFile
                                                  (Some exc))
                    end = Err (KeyError EANNotFoundInMapping (Some cause)))
                <-> (Ok tt = Ok tt
                     /\ exists ean0,
                         Ok ean = Ok ean0
                         /\ has_peak_offpeak_variants ean0 ean_mapping = false
                         /\ is_ok (find_ean_mapping ean0 ean_mapping None)
                            = false))
               /\ (forall e,
                      match r with
                      | Ok files => Ok files
                      | Err exc =>
                          if is_KeyError exc
                          then Err (KeyError EANNotFoundInMapping (Some exc))
                          else if is_ValueError exc
                               then Err (ValueError InvalidDataFormat
                                                    (Some exc))
                               else Err (ValueError ErrorProcessingExcelFile
                                                    (Some exc))
                      end = Err e ->
                      exists cause,
                        e = KeyError EANNotFoundInMapping (Some cause)
                        \/ e = ValueError InvalidDataFormat (Some cause)
                        \/ e = ValueError ErrorProcessingExcelFile
                                          (Some cause))).
    { intros [files|e0] Hk.
      - split.
        + split; [intros [c H]; discriminate H |].
          intros (_ & ean0 & [= <-] & H & _). congruence.
        + intros e H. discriminate H.
      - rewrite (Hk e0 eq_refl). split.
        + split; [intros [c H]; destruct (is_ValueError e0); discriminate H |].
          intros (_ & ean0 & [= <-] & H & _). congruence.
        + intros e. destruct (is_ValueError e0); intros [= <-]; eauto. }
    apply Hno. intros e.
    destruct (extract_data_from_excel pd excel_df config consumption_type)
      as [[ts vs]|e0] eqn:Hext; cbn [bind].
    2:{ intros [= <-]. exact (extract_data_from_excel_raises _ _ _ _ _ Hext). }
    destruct (split_data_by_period pd ts vs)
      as [[[pt pv] [ot ov]]|e0] eqn:Hs; cbn [bind].
    2:{ intros [= <-].
        exact (split_data_by_period_raises_no_KeyError _ _ _ _ Hs). }
    destruct (has_variants_lookups ean ean_mapping Hdual)
      as (p & o & _ & _ & Hfp & Hfo).
    rewrite Hfp, Hfo. cbn [bind]. discriminate.
  - destruct (find_ean_mapping ean ean_mapping None) as [m|e0] eqn:Hmap;
      cbn [bind].
    + destruct (extract_data_from_excel pd excel_df config consumption_type)
        as [[ts vs]|e0] eqn:Hext; cbn [bind].
      * split.
        -- split; [intros [c H]; discriminate H |].
           intros (_ & ean0 & [= <-] & _ & H). rewrite Hmap in H.
           discriminate H.
        -- intros e H. discriminate H.
      * rewrite (extract_data_from_excel_raises _ _ _ _ _ Hext). split.
        -- split;
             [intros [c H]; destruct (is_ValueError e0); discriminate H |].
           intros (_ & ean0 & [= <-] & _ & H). rewrite Hmap in H.
           discriminate H.
        -- intros e. destruct (is_ValueError e0); intros [= <-]; eauto.
    + rewrite (find_ean_mapping_raises _ _ _ _ Hmap). split.
      * split; [| intros _; now exists e0].
        intros _. split; [reflexivity |]. exists ean.
        repeat split; [exact Hdual | now rewrite Hmap].
      * intros e [= <-]. eauto.
Qed.

(* ------------------------------------------------------------------ *)
(** ** Further properties: release 1.0.0 *)

(** The extraction of release 1.0.0 on columns that are in the sheet. *)
Lemma v1_extract_data_from_excel_ok (pd : Pandas) (df : DataFrame)
      (config : ParserConfig) (j k : nat) :
  norm_index (timestamp_col config) (ncols df) = Some j ->
  norm_index (value_col config) (ncols df) = Some k ->
  let region :=
    skipn (V1.slice_start (data_start_row config) (length (rows df)))
          (rows df) in
  let timestamps := column_of j region in
  let values := map (fun r => to_numeric pd (nth k r Empty)) region in
  match start_date config with
  | None => V1.extract_data_from_excel pd df config = Ok (timestamps, values)
  | Some start =>
      match datetime_of_series_coerce pd timestamps with
      | Naive timestamps_dt =>
          V1.extract_data_from_excel pd df config
          = Ok (select timestamps (map (on_or_after start) timestamps_dt),
                select values (map (on_or_after start) timestamps_dt))
      | Aware _ =>
          V1.extract_data_from_excel pd df config
          = Err (ValueError FailedToExtractData (Some TypeError))
      end
  end.
Proof.
  intros Hj Hk region timestamps values.
  unfold V1.extract_data_from_excel, V1.iloc_from.
  rewrite Hj, Hk. cbn [bind]. fold region. fold (column_of j region).
  fold timestamps. rewrite map_map. fold values.
  assert (Hlt : length timestamps = length region)
    by (unfold timestamps, column_of; now rewrite length_map).
  assert (Hlv : length values = length region)
    by (unfold values; now rewrite length_map).
  destruct (start_date config) as [start|].
  - pose proof (coerce_length pd timestamps) as Hc.
    destruct (datetime_of_series_coerce pd timestamps) as [dts|dts];
      [| reflexivity].
    simpl in Hc. cbn [ge_start_date bind].
    rewrite !bool_index_aligned by (rewrite length_map; congruence).
    cbn [bind].
    rewrite (length_select_eq timestamps values) by congruence.
    rewrite Nat.eqb_refl. reflexivity.
  - cbn [bind]. rewrite Hlt, Hlv, Nat.eqb_refl. reflexivity.
Qed.

Lemma norm_index_of_nat (i n : nat) :
  (i < n)%nat -> norm_index (Z.of_nat i) n = Some i.
Proof.
  intros H. unfold norm_index.
  destruct (Z.leb_spec 0 (Z.of_nat i)); [| lia].
  destruct (Z.ltb_spec (Z.of_nat i) (Z.of_nat n)); [| lia].
  now rewrite Nat2Z.id.
Qed.

(** X17. Release 1.0.0 reads the positions of the data from the
    configuration, release 2.0.0 locates them. On a rectangular sheet, when
    the configured data-start row, timestamp column and value column are the
    ones release 2.0.0 locates, both releases extract the same series; and
    for an identifier stored under its bare key only, both conversions write
    the same file. *)
Theorem v1_agrees_on_located_positions
        (pd : Pandas) (excel_df : DataFrame) (ean_mapping : mapping_dict)
        (config : ParserConfig) (consumption_type : string)
        (value_column timestamp_column : nat) :
  rectangular excel_df ->
  find_consumption_column pd excel_df consumption_type = Ok value_column ->
  find_timestamp_column pd excel_df = Ok timestamp_column ->
  data_start_row config = Z.of_nat (find_data_start_row pd excel_df) ->
  timestamp_col config = Z.of_nat timestamp_column ->
  value_col config = Z.of_nat value_column ->
  V1.extract_data_from_excel pd excel_df config
  = extract_data_from_excel pd excel_df config consumption_type
  /\ (forall ean,
         extract_ean_from_excel pd excel_df config = Ok ean ->
         has_peak_offpeak_variants ean ean_mapping = false ->
         get ean_mapping ean <> None ->
         V1.parse_renewgy_excel_to_csv pd excel_df ean_mapping (Some config)
         = parse_renewgy_excel_to_csv pd excel_df ean_mapping (Some config)
                                      consumption_type).
Proof.
  intros Hr Hv Ht Hd Htc Hvc.
  destruct (extract_data_from_excel_ok pd excel_df config consumption_type
              value_column Hr Hv) as (tcol & Ht' & Htlt & Hvlt & He).
  rewrite Ht in Ht'. injection Ht' as <-.
  assert (E : V1.extract_data_from_excel pd excel_df config
              = extract_data_from_excel pd excel_df config consumption_type).
  { pose proof (v1_extract_data_from_excel_ok pd excel_df config
                  timestamp_column value_column) as H1.
    rewrite Htc, Hvc in H1.
    specialize (H1 (norm_index_of_nat _ _ Htlt) (norm_index_of_nat _ _ Hvlt)).
    cbv zeta in H1, He.
    rewrite Hd in H1. unfold V1.slice_start in H1.
    destruct (Z.ltb_spec (Z.of_nat (find_data_start_row pd excel_df)) 0);
      [lia |].
    rewrite Nat2Z.id in H1. fold (data_region pd excel_df) in H1.
    destruct (start_date config) as [start|]; [| congruence].
    destruct (datetime_of_series_coerce pd
                (column_of timestamp_column (data_region pd excel_df)));
      [destruct He as [_ He] |]; congruence. }
  split; [exact E |].
  intros ean Hean Hsingle Hget.
  unfold V1.parse_renewgy_excel_to_csv, parse_renewgy_excel_to_csv.
  destruct (validate_excel_structure excel_df config) as [[]|e]; cbn [bind];
    [| reflexivity].
  rewrite Hean. cbn [bind]. rewrite Hsingle.
  unfold find_ean_mapping.
  destruct (get ean_mapping ean) as [m|]; [| contradiction].
  cbn [bind]. rewrite E. reflexivity.
Qed.

Lemma v1_agrees_on_located_positions_witness :
  rectangular Examples.sheet
  /\ V1.extract_data_from_excel Iso.pandas Examples.sheet
       MoreExamples.positions_of_sheet
     = extract_data_from_excel Iso.pandas Examples.sheet
         MoreExamples.positions_of_sheet "MEASURED ACTIVE CONSUMPTION"
  /\ V1.parse_renewgy_excel_to_csv Iso.pandas Examples.sheet
       Examples.single_tariff (Some MoreExamples.positions_of_sheet)
     = parse_renewgy_excel_to_csv Iso.pandas Examples.sheet
         Examples.single_tariff (Some MoreExamples.positions_of_sheet)
         "MEASURED ACTIVE CONSUMPTION".
Proof.
  assert (Hr : rectangular Examples.sheet) by (repeat constructor).
  split; [exact Hr |].
  destruct (v1_agrees_on_located_positions Iso.pandas Examples.sheet
              Examples.single_tariff MoreExamples.positions_of_sheet
              "MEASURED ACTIVE CONSUMPTION" 2%nat 0%nat
              Hr eq_refl eq_refl eq_refl eq_refl eq_refl) as [He Hp].
  split; [exact He |].
  apply (Hp Examples.ean); [reflexivity | reflexivity | discriminate].
Defined.

(** X18. The extraction of release 1.0.0 needs no header row. It fails in
    two situations only: a configured column, read as a Python index, lies
    outside the sheet, and the cause is an index error; or a start date is
    set and pandas reads the timestamp column with a time zone, and the cause
    is the type error of the comparison. Otherwise it returns the two
    configured columns of the rows from the configured data-start row on:
    all of them without a start date, and with one those whose timestamp, as
    pandas reads the column, is not before it. A data-start row beyond the
    sheet gives empty series, a negative one counts rows from the end. *)
Theorem v1_extraction_outcomes
        (pd : Pandas) (excel_df : DataFrame) (config : ParserConfig) :
  match norm_index (timestamp_col config) (ncols excel_df),
        norm_index (value_col config) (ncols excel_df) with
  | Some j, Some k =>
      let from :=
        V1.slice_start (data_start_row config) (length (rows excel_df)) in
      let region := skipn from (rows excel_df) in
      let timestamps := column_of j region in
      let values := map (fun r => to_numeric pd (nth k r Empty)) region in
      (start_date config = None ->
       V1.extract_data_from_excel pd excel_df config
       = Ok (timestamps, values))
      /\ (forall start timestamps_dt,
             start_date config = Some start ->
             datetime_of_series_coerce pd timestamps = Naive timestamps_dt ->
             V1.extract_data_from_excel pd excel_df config
             = Ok (select timestamps (map (on_or_after start) timestamps_dt),
                   select values (map (on_or_after start) timestamps_dt)))
      /\ (forall start timestamps_dt,
             start_date config = Some start ->
             datetime_of_series_coerce pd timestamps = Aware timestamps_dt ->
             V1.extract_data_from_excel pd excel_df config
             = Err (ValueError FailedToExtractData (Some TypeError)))
      /\ (Z.of_nat (length (rows excel_df)) <= data_start_row config ->
          V1.extract_data_from_excel pd excel_df config = Ok ([], []))
      /\ (data_start_row config < 0 ->
          - Z.of_nat (length (rows excel_df)) <= data_start_row config ->
          Z.of_nat (length region) = - data_start_row config)
  | _, _ =>
      V1.extract_data_from_excel pd excel_df config
      = Err (ValueError FailedToExtractData (Some IndexError))
  end.
Proof.
  destruct (norm_index (timestamp_col config) (ncols excel_df)) as [j|] eqn:Hj.
  - destruct (norm_index (value_col config) (ncols excel_df)) as [k|] eqn:Hk.
    + pose proof (v1_extract_data_from_excel_ok pd excel_df config j k Hj Hk)
        as H.
      cbv zeta in *. split; [| split; [| split; [| split]]].
      * intros Hnone. now rewrite Hnone in H.
      * intros start dts Hsome Hdts. now rewrite Hsome, Hdts in H.
      * intros start dts Hsome Hdts. now rewrite Hsome, Hdts in H.
      * intros Hge. revert H. unfold V1.slice_start.
        destruct (Z.ltb_spec (data_start_row config) 0); [lia |].
        rewrite skipn_all2 by lia. cbn [column_of map].
        destruct (start_date config) as [start|]; [| trivial].
        rewrite (datetime_of_series_coerce_nil pd). trivial.
      * intros Hneg Hin. unfold V1.slice_start.
        destruct (Z.ltb_spec (data_start_row config) 0); [| lia].
        rewrite length_skipn. lia.
    + unfold V1.extract_data_from_excel, V1.iloc_from.
      now rewrite Hj, Hk.
  - unfold V1.extract_data_from_excel, V1.iloc_from. now rewrite Hj.
Qed.

(* ------------------------------------------------------------------ *)
(** ** Further properties: the web front end *)

Lemma match_digits_Some (n : nat) (s m : string) :
  Gui.match_digits n s = Some m ->
  exists rest, s = (m ++ rest)%string
               /\ String.length m = n /\ all_digits m = true.
Proof.
  revert s m. induction n as [|n IH]; intros s m; simpl.
  - intros [= <-]. exists s. repeat split.
  - destruct s as [|c s]; [discriminate |].
    destruct (Gui.is_digit c) eqn:Hc; [| discriminate].
    destruct (Gui.match_digits n s) as [m'|] eqn:E; [| discriminate].
    intros [= <-]. destruct (IH s m' E) as (rest & -> & Hl & Hd).
    exists rest. simpl. rewrite Hc, Hd, Hl. repeat split.
Qed.

Lemma match_digits_None (n : nat) (s : string) :
  Gui.match_digits n s = None -> ~ starts_with_digits n s.
Proof.
  revert s. induction n as [|n IH]; intros s; simpl; [discriminate |].
  intros H (m & rest & -> & Hl & Hd).
  destruct m as [|c m]; [discriminate |].
  simpl in H, Hl, Hd. apply andb_true_iff in Hd. destruct Hd as [Hc Hd].
  rewrite Hc in H.
  destruct (Gui.match_digits n (m ++ rest)) eqn:E; [discriminate |].
  apply (IH _ E). exists m, rest. repeat split; [congruence | exact Hd].
Qed.

Lemma search_digits_None (n : nat) (s : string) :
  Gui.search_digits n s = None ->
  forall pre rest, s = (pre ++ rest)%string -> ~ starts_with_digits n rest.
Proof.
  induction s as [|c s IH]; simpl.
  - destruct (Gui.match_digits n "") eqn:E; [discriminate |].
    intros _ pre rest H. destruct pre; [| discriminate].
    simpl in H. subst rest. now apply match_digits_None.
  - destruct (Gui.match_digits n (String c s)) eqn:E; [discriminate |].
    intros H pre rest Hs. destruct pre as [|c' pre].
    + simpl in Hs. subst rest. now apply match_digits_None.
    + simpl in Hs. injection Hs as _ Hs. now apply (IH H pre rest).
Qed.

Lemma search_digits_Some (n : nat) (s m : string) :
  Gui.search_digits n s = Some m ->
  String.length m = n /\ all_digits m = true
  /\ exists pre rest,
      s = (pre ++ m ++ rest)%string
      /\ forall pre' rest',
          s = (pre' ++ rest')%string ->
          (String.length pre' < String.length pre)%nat ->
          ~ starts_with_digits n rest'.
Proof.
  revert m. induction s as [|c s IH]; intros m; simpl.
  - destruct (Gui.match_digits n "") as [m'|] eqn:E; [| discriminate].
    intros [= <-]. destruct (match_digits_Some _ _ _ E) as (rest & Hs & Hl & Hd).
    repeat split; try assumption.
    exists "", rest. split; [exact Hs |]. intros pre' rest' _ Hlt.
    simpl in Hlt. lia.
  - destruct (Gui.match_digits n (String c s)) as [m'|] eqn:E.
    + intros [= <-].
      destruct (match_digits_Some _ _ _ E) as (rest & Hs & Hl & Hd).
      repeat split; try assumption.
      exists "", rest. split; [exact Hs |]. intros pre' rest' _ Hlt.
      simpl in Hlt. lia.
    + intros H. destruct (IH m H) as (Hl & Hd & pre & rest & Hs & Hleft).
      repeat split; try assumption.
      exists (String c pre), rest. split; [simpl; now rewrite <- Hs |].
      intros pre' rest' Hs' Hlt. destruct pre' as [|c' pre'].
      * simpl in Hs'. subst rest'. now apply match_digits_None.
      * simpl in Hs', Hlt. injection Hs' as _ Hs'.
        apply (Hleft pre' rest' Hs'). lia.
Qed.

(** X19. The identifier the web front end reads from a file name is the
    leftmost run of 18 decimal digits of the name: nothing when no 18
    consecutive digits occur, and only the first 18 digits of a longer
    run. *)
Theorem extract_ean_from_filename_leftmost (filename : string) :
  let ean := Gui.extract_ean_from_filename filename in
  (ean = ""
   /\ forall pre rest, filename = (pre ++ rest)%string ->
                       ~ starts_with_digits 18 rest)
  \/ (String.length ean = 18%nat /\ all_digits ean = true
      /\ exists pre rest,
          filename = (pre ++ ean ++ rest)%string
          /\ forall pre' rest',
              filename = (pre' ++ rest')%string ->
              (String.length pre' < String.length pre)%nat ->
              ~ starts_with_digits 18 rest').
Proof.
  cbv zeta. unfold Gui.extract_ean_from_filename.
  destruct (Gui.search_digits 18 filename) as [m|] eqn:E.
  - right. now apply search_digits_Some.
  - left. split; [reflexivity |]. now apply search_digits_None.
Qed.




(* ------------------------------------------------------------------ *)
(** ** Further properties: batch conversion *)

Lemma existsb_eqb_In (f : string) (seen : list string) :
  existsb (String.eqb f) seen = true <-> In f seen.
Proof.
  rewrite existsb_exists. split.
  - intros (x & Hin & Heq). apply String.eqb_eq in Heq. now subst.
  - intros H. exists f. split; [exact H | apply String.eqb_refl].
Qed.

Lemma remove_duplicates_In (seen l : list string) (x : string) :
  In x (remove_duplicates seen l) <-> In x l /\ ~ In x seen.
Proof.
  revert seen. induction l as [|f l IH]; intros seen; simpl; [tauto |].
  destruct (existsb (String.eqb f) seen) eqn:E.
  - apply existsb_eqb_In in E. rewrite IH. split.
    + intros [H1 H2]. tauto.
    + intros [[-> | H1] H2]; [contradiction | tauto].
  - assert (Hf : ~ In f seen)
      by (intros H; apply existsb_eqb_In in H; congruence).
    simpl. rewrite IH. simpl. split.
    + intros [-> | [H1 H2]]; [tauto |]. split; [tauto |]. tauto.
    + intros [[-> | H1] H2]; [now left |].
      destruct (string_dec f x) as [->|Hne]; [now left |]. right. tauto.
Qed.

Lemma remove_duplicates_NoDup (seen l : list string) :
  NoDup (remove_duplicates seen l).
Proof.
  revert seen. induction l as [|f l IH]; intros seen; simpl; [constructor |].
  destruct (existsb (String.eqb f) seen); [apply IH |].
  constructor; [| apply IH].
  rewrite remove_duplicates_In. simpl. tauto.
Qed.

Lemma remove_duplicates_ext (s1 s2 l : list string) :
  (forall x, In x s1 <-> In x s2) ->
  remove_duplicates s1 l = remove_duplicates s2 l.
Proof.
  revert s1 s2. induction l as [|f l IH]; intros s1 s2 H; simpl;
    [reflexivity |].
  assert (E : existsb (String.eqb f) s1 = existsb (String.eqb f) s2).
  { destruct (existsb (String.eqb f) s1) eqn:E1;
      destruct (existsb (String.eqb f) s2) eqn:E2; try reflexivity.
    - apply existsb_eqb_In, H, existsb_eqb_In in E1. congruence.
    - apply existsb_eqb_In, H, existsb_eqb_In in E2. congruence. }
  rewrite E. destruct (existsb (String.eqb f) s2).
  - now apply IH.
  - f_equal. apply IH. intros x. simpl. rewrite H. tauto.
Qed.

Lemma remove_duplicates_app (seen a b : list string) :
  remove_duplicates seen (a ++ b)
  = (remove_duplicates seen a ++ remove_duplicates (a ++ seen) b)%list.
Proof.
  revert seen. induction a as [|f a IH]; intros seen; [reflexivity |].
  cbn [app remove_duplicates].
  destruct (existsb (String.eqb f) seen) eqn:E.
  - rewrite IH. f_equal. apply remove_duplicates_ext.
    apply existsb_eqb_In in E. intros x. simpl. rewrite !in_app_iff.
    split; [tauto |]. intros [-> | H]; tauto.
  - cbn [app]. f_equal. rewrite IH. f_equal. apply remove_duplicates_ext.
    intros x. simpl. rewrite !in_app_iff. simpl. tauto.
Qed.

Lemma remove_duplicates_fresh (seen l : list string) :
  NoDup l -> (forall x, In x l -> ~ In x seen) ->
  remove_duplicates seen l = l.
Proof.
  revert seen. induction l as [|f l IH]; intros seen Hnd H; [reflexivity |].
  inversion Hnd as [|? ? Hf Hl]; subst. simpl.
  destruct (existsb (String.eqb f) seen) eqn:E.
  - apply existsb_eqb_In in E. exfalso. apply (H f); [now left | exact E].
  - f_equal. apply IH; [exact Hl |].
    intros x Hx [-> | Hs]; [contradiction |]. apply (H x); [now right | exact Hs].
Qed.

Lemma remove_duplicates_seen (seen l : list string) :
  (forall x, In x l -> In x seen) -> remove_duplicates seen l = [].
Proof.
  induction l as [|f l IH]; intros H; [reflexivity |]. simpl.
  assert (E : existsb (String.eqb f) seen = true)
    by (apply existsb_eqb_In, H; now left).
  rewrite E. apply IH. intros x Hx. apply H. now right.
Qed.

(** X21. The filter that merges the listings of [*.xlsx] and [*.XLSX] keeps
    each path once, at its first position and loses none. A listing without
    repetition is left as it is; when the second listing only repeats paths
    of the first, as on a file system that ignores case, the result is the
    first listing. *)
Theorem remove_duplicates_keeps_first (input_files : list string) :
  NoDup (remove_duplicates [] input_files)
  /\ (forall f, In f (remove_duplicates [] input_files) <-> In f input_files)
  /\ (NoDup input_files -> remove_duplicates [] input_files = input_files)
  /\ (forall lower upper,
         input_files = (lower ++ upper)%list -> NoDup lower ->
         (forall f, In f upper -> In f lower) ->
         remove_duplicates [] input_files = lower).
Proof.
  split; [apply remove_duplicates_NoDup |]. split; [| split].
  - intros f. rewrite remove_duplicates_In. simpl. tauto.
  - intros H. apply remove_duplicates_fresh; [exact H | auto].
  - intros lower upper -> Hnd Hsub.
    rewrite remove_duplicates_app.
    rewrite (remove_duplicates_fresh [] lower Hnd) by auto.
    rewrite remove_duplicates_seen; [apply app_nil_r |].
    intros x Hx. apply in_app_iff. left. now apply Hsub.
Qed.

Lemma set_item_fresh (results : list (string * status)) (k : string)
      (v : status) :
  ~ In k (map fst results) -> set_item results k v = (results ++ [(k, v)])%list.
Proof.
  induction results as [|[k' v'] results IH]; intros H; [reflexivity |].
  simpl in *. destruct (String.eqb_spec k' k) as [->|Hne]; [tauto |].
  f_equal. apply IH. tauto.
Qed.

Lemma process_files_fresh (pd : Pandas)
      (read_excel : string -> Z -> result DataFrame)
      (ean_mapping : mapping_dict) (config : option ParserConfig)
      (consumption_type : string) (input_files : list string)
      (results : list (string * status)) :
  NoDup (map path_name input_files) ->
  (forall f, In f input_files -> ~ In (path_name f) (map fst results)) ->
  process_files pd read_excel ean_mapping config consumption_type
                input_files results
  = (results
     ++ map (fun f => (path_name f,
                       file_status pd read_excel ean_mapping config
                                   consumption_type f)) input_files)%list.
Proof.
  revert results. induction input_files as [|f fs IH]; intros results Hnd H.
  - simpl. now rewrite app_nil_r.
  - simpl in Hnd. inversion Hnd as [|? ? Hf Hfs]; subst.
    cbn [process_files map].
    rewrite set_item_fresh by (apply H; now left).
    rewrite IH; [now rewrite <- app_assoc | exact Hfs |].
    intros g Hg. rewrite map_app, in_app_iff. simpl.
    intros [Hin | [Heq | []]].
    + apply (H g); [now right | exact Hin].
    + apply Hf. rewrite Heq. now apply in_map.
Qed.

(** X22. A batch records one status per input file, in the order of the
    listing, under the name of the file. The status of a file is the outcome
    of converting that file alone: a file that fails is recorded with its
    error and the files after it are still converted. (Input files are
    assumed to have different names.) *)
Theorem batch_results_per_file
        (pd : Pandas) (read_excel : string -> Z -> result DataFrame)
        (glob : string -> list string) (ean_mapping : mapping_dict)
        (pattern : string) (config : option ParserConfig)
        (consumption_type : string) :
  let input_files :=
    if String.eqb pattern "*.xlsx"
    then remove_duplicates [] (glob "*.xlsx" ++ glob "*.XLSX")
    else glob pattern in
  NoDup (map path_name input_files) ->
  process_multiple_files pd read_excel glob ean_mapping pattern config
                         consumption_type
  = map (fun f =>
           (path_name f,
            match parse_renewgy_excel_file pd read_excel f ean_mapping config
                                           consumption_type with
            | Ok _ => SUCCESS
            | Err exc => ERROR exc
            end)) input_files.
Proof.
  cbv zeta. intros Hnd. unfold process_multiple_files.
  destruct (if String.eqb pattern "*.xlsx"
            then remove_duplicates [] (glob "*.xlsx" ++ glob "*.XLSX")
            else glob pattern) as [|f fs] eqn:E; [reflexivity |].
  rewrite process_files_fresh; [reflexivity | exact Hnd | auto].
Qed.

Lemma batch_results_per_file_witness :
  exists exc,
    process_multiple_files Iso.pandas MoreExamples.read_excel
      MoreExamples.glob Examples.single_tariff "*.xlsx" None
      "MEASURED ACTIVE CONSUMPTION"
    = [("a.xlsx", SUCCESS); ("b.xlsx", ERROR exc)].
Proof.
  eexists.
  rewrite (batch_results_per_file Iso.pandas MoreExamples.read_excel
             MoreExamples.glob Examples.single_tariff "*.xlsx" None
             "MEASURED ACTIVE CONSUMPTION").
  - vm_compute. reflexivity.
  - vm_compute. repeat constructor; simpl; intuition discriminate.
Defined.

(* ------------------------------------------------------------------ *)
(** ** Further properties: the mapping configuration file *)

Lemma build_Loaded (v : Loader.json) (m : Loader.LoadedMapping) :
  Loader.build v = Loader.Loaded m <-> built_from v m.
Proof.
  unfold Loader.build, Loader.subscript, built_from. split.
  - destruct v as [| | | | |fields]; try discriminate.
    destruct (Loader.member fields "source_id") as [s|] eqn:Es;
      [| discriminate].
    destruct (Loader.member fields "variable_id") as [x|] eqn:Ev;
      [| discriminate].
    intros [= <-]. exists fields. repeat split; assumption.
  - intros (fields & -> & Hs & Hv & Hd). rewrite Hs, Hv, <- Hd.
    now destruct m.
Qed.

Lemma build_complete (v : Loader.json) :
  complete_entry v <-> exists m, Loader.build v = Loader.Loaded m.
Proof.
  split.
  - intros (fields & -> & Hs & Hv). unfold Loader.build, Loader.subscript.
    destruct (Loader.member fields "source_id"); [| contradiction].
    destruct (Loader.member fields "variable_id"); [| contradiction].
    eauto.
  - intros [m H]. apply build_Loaded in H.
    destruct H as (fields & -> & Hs & Hv & _).
    exists fields. repeat split; congruence.
Qed.

Lemma build_all_Loaded (items : list (string * Loader.json))
      (r : list (string * Loader.LoadedMapping)) :
  Loader.build_all items = Loader.Loaded r ->
  Forall2 (fun kv km => fst kv = fst km /\ built_from (snd kv) (snd km))
          items r.
Proof.
  revert r. induction items as [|[k v] items IH]; intros r; simpl.
  - intros [= <-]. constructor.
  - destruct (Loader.build v) as [m|e] eqn:Eb; [| discriminate].
    destruct (Loader.build_all items) as [ms|e]; [| discriminate].
    intros [= <-]. constructor; [| now apply IH].
    split; [reflexivity | now apply build_Loaded].
Qed.

Lemma build_all_complete (items : list (string * Loader.json)) :
  Forall (fun kv => complete_entry (snd kv)) items ->
  exists r, Loader.build_all items = Loader.Loaded r.
Proof.
  induction 1 as [|[k v] items Hc _ [ms IH]]; simpl; [eauto |].
  apply build_complete in Hc. destruct Hc as [m Hm]. simpl in Hm.
  rewrite Hm, IH. eauto.
Qed.

(** X23. The loader succeeds exactly when the file exists, parses as a JSON
    object, and every entry is an object with a [source_id] and a
    [variable_id]. The table then has the keys of the file in the order of
    the file; each record holds the source and variable of its entry as they
    are written, and the description of the entry or the empty text when the
    entry has none. *)
Theorem load_ean_mapping_from_file_loads (config_path : Loader.config_file) :
  ((exists table,
       Loader.load_ean_mapping_from_file config_path = Loader.Loaded table)
   <-> exists members,
        config_path = Loader.Parsed (Loader.JObject members)
        /\ Forall (fun kv => complete_entry (snd kv)) members)
  /\ (forall table,
         Loader.load_ean_mapping_from_file config_path = Loader.Loaded table ->
         exists members,
           config_path = Loader.Parsed (Loader.JObject members)
           /\ map fst table = map fst members
           /\ Forall2 (fun kv km => fst kv = fst km
                                    /\ built_from (snd kv) (snd km))
                      members table).
Proof.
  assert (Hshape : forall table,
             Loader.load_ean_mapping_from_file config_path
             = Loader.Loaded table ->
             exists members,
               config_path = Loader.Parsed (Loader.JObject members)
               /\ Forall2 (fun kv km => fst kv = fst km
                                        /\ built_from (snd kv) (snd km))
                          members table).
  { intros table. destruct config_path as [| |[| | | | |members]];
      try discriminate.
    simpl. intros H. exists members. split; [reflexivity |].
    now apply build_all_Loaded. }
  split.
  - split.
    + intros [table H]. destruct (Hshape table H) as (members & -> & HF).
      exists members. split; [reflexivity |].
      clear H Hshape. induction HF as [|[k v] [k' m] items r [_ Hb] _ IH];
        constructor; [| exact IH].
      apply build_complete. exists m. now apply build_Loaded.
    + intros (members & -> & Hc). simpl. now apply build_all_complete.
  - intros table H. destruct (Hshape table H) as (members & -> & HF).
    exists members. split; [reflexivity |]. split; [| exact HF].
    clear H Hshape. induction HF as [|[k v] [k' m] items r [Hk _] _ IH];
      [reflexivity |].
    simpl in *. now rewrite IH, Hk.
Qed.

(** X24. When the file is a JSON object with an entry that is not complete,
    the first such entry decides the error. An entry without [source_id]
    gives the invalid-format error for that key, also when [variable_id] is
    missing too; an entry with a source and no [variable_id] gives it for
    [variable_id]; an entry that is no object gives a [TypeError], which the
    loader does not turn into its invalid-format error. *)
Theorem load_ean_mapping_from_file_first_bad_entry
        (members : list (string * Loader.json)) (e : Loader.load_error) :
  Loader.load_ean_mapping_from_file (Loader.Parsed (Loader.JObject members))
  = Loader.Raised e ->
  exists before key entry after,
    members = (before ++ (key, entry) :: after)%list
    /\ Forall (fun kv => complete_entry (snd kv)) before
    /\ ((e = Loader.TypeError /\ forall fields, entry <> Loader.JObject fields)
        \/ exists fields,
            entry = Loader.JObject fields
            /\ ((Loader.member fields "source_id" = None
                 /\ e = Loader.InvalidConfigurationFormat
                          (Loader.MissingKey "source_id"))
                \/ (Loader.member fields "source_id" <> None
                    /\ Loader.member fields "variable_id" = None
                    /\ e = Loader.InvalidConfigurationFormat
                             (Loader.MissingKey "variable_id")))).
Proof.
  simpl. induction members as [|[k v] members IH]; simpl; [discriminate |].
  destruct (Loader.build v) as [m|e0] eqn:Eb.
  - destruct (Loader.build_all members) as [ms|e1]; [discriminate |].
    intros [= <-]. destruct (IH eq_refl)
      as (before & key & entry & after & -> & Hc & Hbad).
    exists ((k, v) :: before), key, entry, after.
    split; [reflexivity |]. split; [| exact Hbad].
    constructor; [| exact Hc]. apply build_complete. eauto.
  - intros [= <-]. exists [], k, v, members.
    split; [reflexivity |]. split; [constructor |].
    revert Eb. unfold Loader.build, Loader.subscript.
    destruct v as [| | | | |fields];
      try (intros [= <-]; left; split; [reflexivity | discriminate]).
    destruct (Loader.member fields "source_id") as [s|] eqn:Es.
    + destruct (Loader.member fields "variable_id") as [x|] eqn:Ev;
        [discriminate |].
      intros [= <-]. right. exists fields. split; [reflexivity |].
      right. repeat split; congruence.
    + intros [= <-]. right. exists fields. split; [reflexivity |].
      left. now split.
Qed.

Lemma load_ean_mapping_from_file_first_bad_entry_witness :
  Loader.load_ean_mapping_from_file (Loader.Parsed MoreExamples.incomplete)
  = Loader.Raised (Loader.InvalidConfigurationFormat
                     (Loader.MissingKey "variable_id"))
  /\ exists before key entry after,
      [("123",
        Loader.JObject [("source_id", Loader.JString "S1");
                        ("variable_id", Loader.JString "V1")]);
       ("456", Loader.JObject [("source_id", Loader.JString "S2")])]
      = (before ++ (key, entry) :: after)%list
      /\ Forall (fun kv => complete_entry (snd kv)) before.
Proof.
  split; [reflexivity |].
  destruct (load_ean_mapping_from_file_first_bad_entry
              [("123",
                Loader.JObject [("source_id", Loader.JString "S1");
                                ("variable_id", Loader.JString "V1")]);
               ("456", Loader.JObject [("source_id", Loader.JString "S2")])]
              (Loader.InvalidConfigurationFormat
                 (Loader.MissingKey "variable_id")) eq_refl)
    as (before & key & entry & after & Hm & Hc & _).
  exists before, key, entry, after. split; assumption.
Defined.

(* ------------------------------------------------------------------ *)
(** ** Further properties: markers and lone variants *)

Lemma lower_char_idempotent (c : ascii) :
  PyStr.lower_char (PyStr.lower_char c) = PyStr.lower_char c.
Proof.
  destruct c as [[] [] [] [] [] [] [] []]; reflexivity.
Qed.

Lemma lower_idempotent (s : string) :
  PyStr.lower (PyStr.lower s) = PyStr.lower s.
Proof.
  induction s as [|c s IH]; simpl; [reflexivity |].
  now rewrite lower_char_idempotent, IH.
Qed.

Lemma row_has_marker_lower (pd : Pandas) (marker : string) (row : list cell) :
  row_has_marker pd marker (map lower_cell row) = row_has_marker pd marker row.
Proof.
  unfold row_has_marker. induction row as [|c row IH]; [reflexivity |].
  cbn [map existsb]. rewrite IH. f_equal.
  destruct c; simpl; try reflexivity.
  now rewrite lower_idempotent.
Qed.

Lemma find_index_map {A B} (f : A -> B) (p : B -> bool) (l : list A)
      (i : nat) :
  find_index p (map f l) i = find_index (fun x => p (f x)) l i.
Proof.
  revert i. induction l as [|x l IH]; intros i; simpl; [reflexivity |].
  destruct (p (f x)); [reflexivity | apply IH].
Qed.

Lemma find_index_ext {A} (p q : A -> bool) (l : list A) (i : nat) :
  (forall x, p x = q x) -> find_index p l i = find_index q l i.
Proof.
  intros H. revert i. induction l as [|x l IH]; intros i; simpl;
    [reflexivity |].
  rewrite H. destruct (q x); [reflexivity | apply IH].
Qed.

(** X25. The search for the "role description" and "profile description"
    rows does not depend on the case of the texts of the sheet: putting every
    text in lower case changes neither the row found nor the data-start
    row. *)
Theorem marker_search_ignores_case
        (pd : Pandas) (marker : string) (limit : nat) (excel_df : DataFrame) :
  find_marker_row pd marker limit (lower_sheet excel_df)
  = find_marker_row pd marker limit excel_df
  /\ find_data_start_row pd (lower_sheet excel_df)
     = find_data_start_row pd excel_df.
Proof.
  assert (H : forall m l,
             find_marker_row pd m l (lower_sheet excel_df)
             = find_marker_row pd m l excel_df).
  { intros m l. unfold find_marker_row, lower_sheet. cbn [rows].
    rewrite firstn_map, find_index_map.
    apply find_index_ext. intros row. apply row_has_marker_lower. }
  split; [apply H |].
  unfold find_data_start_row. now rewrite H.
Qed.

(** X26. An identifier that has one tariff variant only and no bare key
    cannot be converted: the conversion takes the single-tariff path and
    ends, before any data is extracted, with the [KeyError] that chains "has
    peak/offpeak variants but no period specified". *)
Theorem lone_variant_aborts_conversion
        (pd : Pandas) (excel_df : DataFrame) (ean_mapping : mapping_dict)
        (config : ParserConfig) (consumption_type : string) (ean : string) :
  validate_excel_structure excel_df config = Ok tt ->
  extract_ean_from_excel pd excel_df config = Ok ean ->
  mem ean ean_mapping = false ->
  mem (ean ++ "_peak") ean_mapping
  = negb (mem (ean ++ "_offpeak") ean_mapping) ->
  has_peak_offpeak_variants ean ean_mapping = false
  /\ parse_renewgy_excel_to_csv pd excel_df ean_mapping (Some config)
                                consumption_type
     = Err (KeyError EANNotFoundInMapping
              (Some (KeyError (NoPeriodSpecified ean) None))).
Proof.
  intros Hval Hean Hbare Hone.
  assert (Hsingle : has_peak_offpeak_variants ean ean_mapping = false).
  { unfold has_peak_offpeak_variants. rewrite Hone.
    now destruct (mem (ean ++ "_offpeak") ean_mapping). }
  split; [exact Hsingle |].
  assert (Hfind : find_ean_mapping ean ean_mapping None
                  = Err (KeyError (NoPeriodSpecified ean) None)).
  { unfold find_ean_mapping. apply get_None_iff_mem in Hbare.
    rewrite Hbare, Hone.
    now destruct (mem (ean ++ "_offpeak") ean_mapping). }
  unfold parse_renewgy_excel_to_csv.
  rewrite Hval, Hean. cbn [bind]. rewrite Hsingle, Hfind. reflexivity.
Qed.

Lemma lone_variant_aborts_conversion_witness :
  mem (Examples.ean ++ "_peak") [((Examples.ean ++ "_peak")%string,
                                  Examples.peak_record)] = true
  /\ parse_renewgy_excel_to_csv Iso.pandas Examples.sheet
       [((Examples.ean ++ "_peak")%string, Examples.peak_record)]
       (Some DEFAULT_CONFIG) "MEASURED ACTIVE CONSUMPTION"
     = Err (KeyError EANNotFoundInMapping
              (Some (KeyError (NoPeriodSpecified Examples.ean) None))).
Proof.
  split; [reflexivity |].
  apply (lone_variant_aborts_conversion Iso.pandas Examples.sheet
           [((Examples.ean ++ "_peak")%string, Examples.peak_record)]
           DEFAULT_CONFIG "MEASURED ACTIVE CONSUMPTION" Examples.ean);
    reflexivity.
Defined.
